(** * API Gateway domain name resource and Route 53 zone test helpers

    A shallow embedding of [internal/service/apigateway/domain_name.go] and of
    the helpers of the Route 53 zone tests, with the properties the
    specification states about them.

    Conventions of the embedding:
    - a Go [*string] is an [option string]; [aws.StringValue] reads it;
    - an [interface{}] value is an [iface]; a [map[string]interface{}] is a
      [gmap string iface]; a [[]interface{}] of nested blocks is a list whose
      elements are [None] for a nil element;
    - a nil slice and an empty slice are both the empty list;
    - a function that mutates [*schema.ResourceData] returns the new value;
    - remote calls thread a [World]: the remote state, a logical clock in
      nanoseconds and the log of the calls made so far. *)

From Stdlib Require Import ZArith String List Lia Bool.
From stdpp Require Import base option gmap strings list pretty.
Import ListNotations.

#[local] Open Scope string_scope.
#[local] Open Scope Z_scope.

#[local] Set Warnings "-register-all".

(** ** Go values *)

(** The dynamic values that reach the code: nil, a string, a [*string], an
    int, and a [[]interface{}] holding strings (the [types] attribute). *)
Inductive iface :=
| INil
| IString (s : string)
| IStringPtr (p : option string)
| IInt (n : Z)
| IList (l : list string).

#[global] Instance iface_eq_dec : EqDecision iface.
Proof. solve_decision. Defined.

Abbreviation tfMap := (gmap string iface).
Abbreviation tfList := (list (option (gmap string iface))).

Module aws.

Definition String (v : string) : option string := Some v.

Definition StringValue (v : option string) : string :=
  match v with
  | Some s => s
  | None => ""
  end.

End aws.

Module strings.

(** [strings.HasSuffix]: [len(s) >= len(suffix) && s[len(s)-len(suffix):] == suffix]. *)
Definition HasSuffix (s suffix : string) : bool :=
  (String.length suffix <=? String.length s)%nat &&
  String.eqb
    (substring (String.length s - String.length suffix) (String.length suffix) s)
    suffix.

(** [strings.TrimSuffix]: [s[:len(s)-len(suffix)]] when [s] has the suffix. *)
Definition TrimSuffix (s suffix : string) : string :=
  if HasSuffix s suffix
  then substring 0 (String.length s - String.length suffix) s
  else s.

End strings.

(** ** Errors *)

(** The error values the code creates or inspects.  [AwsError] is an
    [awserr.Error] of the SDK, [PlainError] any other error;
    [NotFoundError], [UnexpectedStateError] and [TimeoutError] are the
    [retry] package's, [EmptyResultError] is [tfresource]'s. *)
Inductive error :=
| AwsError (Code Message : string)
| PlainError (Message : string)
| NotFoundError (LastError : option error) (LastRequest : option string) (Retries : nat)
| EmptyResultError (LastRequest : option string)
| UnexpectedStateError (LastError : option error) (State : string)
    (ExpectedState : list string)
| TimeoutError (LastError : option error) (LastState : string) (Timeout : Z)
    (ExpectedState : list string).

(** [err.Error()] and [time.Time.Format(time.RFC3339)] are library code; the
    development is parametric in them. *)
Class Formatting := {
  Error : error → string;
  FormatRFC3339 : Z → string
}.

Module tfawserr.

(** [tfawserr.ErrCodeEquals(err, code)]: some error of the chain is an
    [awserr.Error] with that code.  The [retry] errors unwrap to their
    [LastError]. *)
Fixpoint ErrCodeEquals_chain (e : error) (code : string) : bool :=
  match e with
  | AwsError c _ => String.eqb c code
  | NotFoundError (Some e') _ _
  | UnexpectedStateError (Some e') _ _
  | TimeoutError (Some e') _ _ _ => ErrCodeEquals_chain e' code
  | _ => false
  end.

Definition ErrCodeEquals (err : option error) (code : string) : bool :=
  match err with
  | Some e => ErrCodeEquals_chain e code
  | None => false
  end.

End tfawserr.

Module tfresource.

(** Modelled from the spec: [tfresource.NotFound] is not under src/.  It
    classifies an error as "not found" (section 7): some error of the chain
    is a [retry.NotFoundError]; an [EmptyResultError] counts as one. *)
Fixpoint NotFound_chain (e : error) : bool :=
  match e with
  | NotFoundError _ _ _ => true
  | EmptyResultError _ => true
  | UnexpectedStateError (Some e') _ _
  | TimeoutError (Some e') _ _ _ => NotFound_chain e'
  | _ => false
  end.

Definition NotFound (err : option error) : bool :=
  match err with
  | Some e => NotFound_chain e
  | None => false
  end.

Definition NewEmptyResultError (lastRequest : string) : error :=
  EmptyResultError (Some lastRequest).

(** Modelled from the spec: [tfresource.SetLastError] is not under src/.  It
    fills the [LastError] of a timeout or unexpected-state error that has
    none. *)
Definition SetLastError (err : option error) (lastErr : error) : option error :=
  match err with
  | Some (TimeoutError None st t ex) => Some (TimeoutError (Some lastErr) st t ex)
  | Some (UnexpectedStateError None st ex) => Some (UnexpectedStateError (Some lastErr) st ex)
  | _ => err
  end.

End tfresource.

(** ** Diagnostics *)

Module diag.

Inductive Severity := SeverityError | SeverityWarning.

Record Diagnostic := {
  severity : Severity;
  Summary : string;
  Detail : string
}.

Abbreviation Diagnostics := (list Diagnostic).

End diag.

Module sdkdiag.

(** Modelled from the spec: [sdkdiag.AppendErrorf] is not under src/.  An
    error is surfaced to the operator (section 7): the function appends one
    error diagnostic whose summary is the formatted message.  The caller
    passes the message already formatted. *)
Definition AppendErrorf (diags : diag.Diagnostics) (message : string) : diag.Diagnostics :=
  diags ++ [ {| diag.severity := diag.SeverityError; diag.Summary := message; diag.Detail := "" |} ].

End sdkdiag.

(** ** The API Gateway SDK types *)

Module apigateway.

Definition ErrCodeNotFoundException : string := "NotFoundException".
Definition OpReplace : string := "replace".
Definition DomainNameStatusAvailable : string := "AVAILABLE".
Definition DomainNameStatusUpdating : string := "UPDATING".

Record PatchOperation := {
  From : option string;
  Op : option string;
  Path : option string;
  Value : option string
}.

Record EndpointConfiguration := {
  Types : list (option string);
  VpcEndpointIds : list (option string)
}.

Module MutualTlsAuthentication.
Record t := {
  TruststoreUri : option string;
  TruststoreVersion : option string;
  TruststoreWarnings : list (option string)
}.
End MutualTlsAuthentication.

Module MutualTlsAuthenticationInput.
Record t := {
  TruststoreUri : option string;
  TruststoreVersion : option string
}.
End MutualTlsAuthenticationInput.

Module DomainName.
Record t := {
  CertificateArn : option string;
  CertificateName : option string;
  CertificateUploadDate : option Z;
  DistributionDomainName : option string;
  DistributionHostedZoneId : option string;
  DomainName : option string;
  DomainNameStatus : option string;
  DomainNameStatusMessage : option string;
  EndpointConfiguration : option EndpointConfiguration;
  MutualTlsAuthentication : option MutualTlsAuthentication.t;
  OwnershipVerificationCertificateArn : option string;
  RegionalCertificateArn : option string;
  RegionalCertificateName : option string;
  RegionalDomainName : option string;
  RegionalHostedZoneId : option string;
  SecurityPolicy : option string;
  Tags : gmap string string
}.
End DomainName.

Module CreateDomainNameInput.
Record t := {
  CertificateArn : option string;
  CertificateBody : option string;
  CertificateChain : option string;
  CertificateName : option string;
  CertificatePrivateKey : option string;
  DomainName : option string;
  EndpointConfiguration : option EndpointConfiguration;
  MutualTlsAuthentication : option MutualTlsAuthenticationInput.t;
  OwnershipVerificationCertificateArn : option string;
  RegionalCertificateArn : option string;
  RegionalCertificateName : option string;
  SecurityPolicy : option string;
  Tags : gmap string string
}.
End CreateDomainNameInput.

Module GetDomainNameInput.
Record t := { DomainName : option string }.
End GetDomainNameInput.

Module UpdateDomainNameInput.
Record t := {
  DomainName : option string;
  PatchOperations : list PatchOperation
}.
End UpdateDomainNameInput.

Module DeleteDomainNameInput.
Record t := { DomainName : option string }.
End DeleteDomainNameInput.

(** A request as it appears in the log of calls. *)
Inductive Call :=
| CallCreateDomainName (input : CreateDomainNameInput.t)
| CallGetDomainName (input : GetDomainNameInput.t)
| CallUpdateDomainName (input : UpdateDomainNameInput.t)
| CallDeleteDomainName (input : DeleteDomainNameInput.t).

(** The client: every operation answers from the remote state [W] and may
    change it.  An answer is Go's pair of an output pointer and an error. *)
Class APIGateway (W : Type) := {
  CreateDomainNameWithContext :
    CreateDomainNameInput.t → W → (option DomainName.t * option error) * W;
  GetDomainNameWithContext :
    GetDomainNameInput.t → W → (option DomainName.t * option error) * W;
  UpdateDomainNameWithContext :
    UpdateDomainNameInput.t → W → (option DomainName.t * option error) * W;
  DeleteDomainNameWithContext :
    DeleteDomainNameInput.t → W → option error * W
}.

End apigateway.

(** ** Mutual TLS: expand and flatten *)

Definition expandMutualTLSAuthentication (tfList : tfList)
  : option apigateway.MutualTlsAuthenticationInput.t :=
  match tfList with
  | [] => None
  | None :: _ => None
  | Some tfMap :: _ =>
      let uri :=
        match tfMap !! "truststore_uri" with
        | Some (IString v) => if String.eqb v "" then None else aws.String v
        | _ => None
        end in
      let version :=
        match tfMap !! "truststore_version" with
        | Some (IString v) => if String.eqb v "" then None else aws.String v
        | _ => None
        end in
      Some {| apigateway.MutualTlsAuthenticationInput.TruststoreUri := uri;
              apigateway.MutualTlsAuthenticationInput.TruststoreVersion := version |}
  end.

Definition flattenMutualTLSAuthentication
  (apiObject : option apigateway.MutualTlsAuthentication.t) : tfList :=
  match apiObject with
  | None => []
  | Some apiObject =>
      let tfMap : tfMap := ∅ in
      let tfMap :=
        match apigateway.MutualTlsAuthentication.TruststoreUri apiObject with
        | Some v => <["truststore_uri" := IString (aws.StringValue (Some v))]> tfMap
        | None => tfMap
        end in
      let tfMap :=
        match apigateway.MutualTlsAuthentication.TruststoreVersion apiObject with
        | Some v => <["truststore_version" := IString (aws.StringValue (Some v))]> tfMap
        | None => tfMap
        end in
      [Some tfMap]
  end.

(** ** The world: remote state, logical clock, log of calls *)

Record World (W : Type) := mkWorld {
  remote : W;
  now : Z;
  calls : list (Z * apigateway.Call);
  TagsOut : option (gmap string string)
}.

Arguments mkWorld {W}.
Arguments remote {W}.
Arguments now {W}.
Arguments calls {W}.
Arguments TagsOut {W}.

(** A computation that may call the remote API, sleep and record tags. *)
Definition M (W A : Type) : Type := World W → A * World W.

Definition ret {W A} (a : A) : M W A := fun w => (a, w).

Definition bind {W A B} (m : M W A) (k : A → M W B) : M W B :=
  fun w => let (a, w') := m w in k a w'.

Declare Scope go_scope.
Delimit Scope go_scope with go.

Notation "x <- c1 ;; c2" := (bind c1 (fun x => c2))
  (at level 100, c1 at next level, right associativity) : go_scope.

#[local] Open Scope go_scope.

(** The world [d] nanoseconds later. *)
Definition later {W} (d : Z) (w : World W) : World W :=
  mkWorld (remote w) (now w + d) (calls w) (TagsOut w).

(** [time.Sleep] on the logical clock. *)
Definition sleep {W} (d : Z) : M W unit :=
  fun w => (tt, later d w).

Definition setTagsOut {W} (tags : gmap string string) : M W unit :=
  fun w => (tt, mkWorld (remote w) (now w) (calls w) (Some tags)).

(** The world after the call [c] left the remote state [r]: the request is
    logged with its time. *)
Definition logged {W} (c : apigateway.Call) (r : W) (w : World W) : World W :=
  mkWorld r (now w) (calls w ++ [(now w, c)]) (TagsOut w).

(** A call: the remote answers, and the request is logged. *)
Definition invoke {W A} (c : apigateway.Call) (op : W → A * W) : M W A :=
  fun w => let (a, r) := op (remote w) in (a, logged c r w).

Section Client.
Context {W : Type} `{apigateway.APIGateway W}.

Definition CreateDomainName (input : apigateway.CreateDomainNameInput.t)
  : M W (option apigateway.DomainName.t * option error) :=
  invoke (apigateway.CallCreateDomainName input)
         (apigateway.CreateDomainNameWithContext input).

Definition GetDomainName (input : apigateway.GetDomainNameInput.t)
  : M W (option apigateway.DomainName.t * option error) :=
  invoke (apigateway.CallGetDomainName input)
         (apigateway.GetDomainNameWithContext input).

Definition UpdateDomainName (input : apigateway.UpdateDomainNameInput.t)
  : M W (option apigateway.DomainName.t * option error) :=
  invoke (apigateway.CallUpdateDomainName input)
         (apigateway.UpdateDomainNameWithContext input).

Definition DeleteDomainName (input : apigateway.DeleteDomainNameInput.t)
  : M W (option error) :=
  invoke (apigateway.CallDeleteDomainName input)
         (apigateway.DeleteDomainNameWithContext input).

End Client.

(** ** schema.ResourceData *)

Module schema.

(** Attribute values by the type the schema gives the attribute: strings,
    lists of nested blocks, and string maps (tags). *)
Record attributes := mkAttributes {
  strs : gmap string string;
  lists : gmap string tfList;
  maps : gmap string (gmap string string)
}.

(** The resource data during an operation: the id, whether the resource was
    created by this run, the prior state and the values [Get] reads (the
    planned values, overwritten by [Set]). *)
Record ResourceData := mkResourceData {
  Id : string;
  IsNewResource : bool;
  prior : attributes;
  current : attributes
}.

Definition SetId (v : string) (d : ResourceData) : ResourceData :=
  mkResourceData v (IsNewResource d) (prior d) (current d).

(** Reading an attribute that is not set gives the zero value of its type. *)
Definition attrString (a : attributes) (key : string) : string :=
  default "" (strs a !! key).

Definition attrList (a : attributes) (key : string) : tfList :=
  default [] (lists a !! key).

Definition attrMap (a : attributes) (key : string) : gmap string string :=
  default ∅ (maps a !! key).

(** The field [field] of the block at index [idx] of the list [key]; the
    zero value when the block or the field is missing. *)
Definition attrBlockString (a : attributes) (key : string) (idx : nat) (field : string) : string :=
  match attrList a key !! idx with
  | Some (Some m) => match m !! field with Some (IString s) => s | _ => "" end
  | _ => ""
  end.

Definition attrBlockList (a : attributes) (key : string) (idx : nat) (field : string) : list string :=
  match attrList a key !! idx with
  | Some (Some m) => match m !! field with Some (IList l) => l | _ => [] end
  | _ => []
  end.

(** [d.Get(key).(string)] and [d.Get(key).([]interface{})]. *)
Definition GetString (d : ResourceData) (key : string) : string :=
  attrString (current d) key.

Definition GetList (d : ResourceData) (key : string) : tfList :=
  attrList (current d) key.

(** [d.GetOk(key)]: the value, and whether it is set to a non-zero value. *)
Definition GetOkString (d : ResourceData) (key : string) : string * bool :=
  let v := GetString d key in (v, negb (String.eqb v "")).

Definition GetOkList (d : ResourceData) (key : string) : tfList * bool :=
  let v := GetList d key in (v, negb (Nat.eqb (List.length v) 0)).

(** [d.Set(key, value)]. *)
Definition SetString (key : string) (v : string) (d : ResourceData) : ResourceData :=
  mkResourceData (Id d) (IsNewResource d) (prior d)
    (mkAttributes (<[key := v]> (strs (current d))) (lists (current d)) (maps (current d))).

Definition SetList (key : string) (v : tfList) (d : ResourceData) : ResourceData :=
  mkResourceData (Id d) (IsNewResource d) (prior d)
    (mkAttributes (strs (current d)) (<[key := v]> (lists (current d))) (maps (current d))).

(** An address as [HasChange] takes it: a top-level key, or
    [key.idx.field] inside a nested block. *)
Inductive address :=
| Attr (key : string)
| BlockField (key : string) (idx : nat) (field : string).

(** [d.HasChange(address)]: the prior and the planned value differ. *)
Definition HasChange (d : ResourceData) (a : address) : bool :=
  match a with
  | Attr key =>
      negb (bool_decide (attrString (prior d) key = attrString (current d) key))
      || negb (bool_decide (attrList (prior d) key = attrList (current d) key))
      || negb (bool_decide (attrMap (prior d) key = attrMap (current d) key))
  | BlockField key idx field =>
      negb (bool_decide (attrBlockString (prior d) key idx field
                         = attrBlockString (current d) key idx field))
      || negb (bool_decide (attrBlockList (prior d) key idx field
                            = attrBlockList (current d) key idx field))
  end.

(** [d.HasChangesExcept(keys...)] over the attributes [attrs] of the
    resource's schema: some attribute outside [keys] has a change. *)
Definition HasChangesExcept (attrs : list string) (d : ResourceData) (keys : list string) : bool :=
  existsb (fun k => negb (bool_decide (k ∈ keys)) && HasChange d (Attr k)) attrs.

End schema.

(** ** conns.AWSClient *)

Module conns.

Record AWSClient := {
  Partition : string;
  Region : string;
  CloudFrontDistributionHostedZoneID : string;
  (** the tags [getTagsIn(ctx)] returns *)
  TagsIn : gmap string string
}.

End conns.

Module arn.

Record ARN := {
  Partition : string;
  Service : string;
  Region : string;
  AccountID : string;
  Resource : string
}.

(** [arn.ARN.String]. *)
Definition String (a : ARN) : string :=
  "arn:" ++ Partition a ++ ":" ++ Service a ++ ":" ++ Region a ++ ":"
         ++ AccountID a ++ ":" ++ Resource a.

End arn.

(** ** time and the retry package *)

Module time.

(** [time.Duration] counts nanoseconds. *)
Definition Millisecond : Z := 1000000.
Definition Second : Z := 1000 * Millisecond.
Definition Minute : Z := 60 * Second.

End time.

Module retry.

Section StateChange.
Context {W R : Type}.

(** What [StateRefreshFunc] returns: the object (nil when absent), its
    state, and an error. *)
Definition Refreshed : Type := option R * string * option error.

Record StateChangeConf := {
  Delay : Z;
  Pending : list string;
  Refresh : M W Refreshed;
  Target : list string;
  Timeout : Z;
  MinTimeout : Z;
  PollInterval : Z;
  NotFoundChecks : Z;
  ContinuousTargetOccurence : Z
}.

(** The variables of the refresh loop. *)
Record loopState := mkLoop {
  wait : Z;
  notfoundTick : Z;
  targetOccurence : Z;
  lastState : string
}.

(** How one round of the loop ends: the wait is over with a result and an
    error, or the loop goes on. *)
Inductive verdict :=
| Finished (result : option R) (err : option error)
| Continue (st : loopState).

(** Modelled from the spec: part of the generic poller, which is not under
    src/.  The scan of [conf.Target] for the current state: whether the wait
    is done, whether the state was found, and the count of target
    occurrences. *)
Fixpoint scanTarget (target : list string) (currentState : string)
    (continuous targetOcc : Z) (found : bool) : bool * bool * Z :=
  match target with
  | [] => (false, found, targetOcc)
  | allowed :: rest =>
      if String.eqb currentState allowed then
        let targetOcc := targetOcc + 1 in
        if continuous =? targetOcc then (true, true, targetOcc)
        else scanTarget rest currentState continuous targetOcc true
      else scanTarget rest currentState continuous targetOcc found
  end.

(** Modelled from the spec: part of the generic poller, which is not under
    src/.  The wait before the next refresh: exponential backoff, at least
    the minimum timeout and at most 10 seconds, or the poll interval when
    one is set. *)
Definition nextWait (conf : StateChangeConf) (wait targetOcc : Z) : Z :=
  let wait := if targetOcc =? 0 then wait * 2 else wait in
  if (0 <? PollInterval conf) && (PollInterval conf <? 180 * time.Second) then
    PollInterval conf
  else if wait <? MinTimeout conf then MinTimeout conf
  else if 10 * time.Second <? wait then 10 * time.Second
  else wait.

(** Modelled from the spec: the generic poller is not under src/.  This is
    one round of it after [conf.Refresh()] has answered: an error of the
    refresh is fatal and ends the wait; a target state ends it with the
    object; a pending state, and an absent object up to [NotFoundChecks]
    times in a row, are retried; any other state is an error. *)
Definition afterRefresh (conf : StateChangeConf) (st : loopState) (r : Refreshed) : verdict :=
  let '(res, currentState, err) := r in
  match err with
  | Some _ => Finished res err
  | None =>
      match res with
      | None =>
          if Nat.eqb (List.length (Target conf)) 0 then
            (* waiting for the absence of a thing *)
            let targetOcc := targetOccurence st + 1 in
            if ContinuousTargetOccurence conf =? targetOcc then Finished res None
            else Continue (mkLoop (wait st) (notfoundTick st) targetOcc currentState)
          else
            let tick := notfoundTick st + 1 in
            if NotFoundChecks conf <? tick then
              Finished res (Some (NotFoundError None None (Z.to_nat tick)))
            else
              Continue (mkLoop (nextWait conf (wait st) (targetOccurence st))
                               tick (targetOccurence st) currentState)
      | Some _ =>
          let '(done, found, targetOcc) :=
            scanTarget (Target conf) currentState (ContinuousTargetOccurence conf)
                       (targetOccurence st) false in
          if done then Finished res None
          else
            let pending := existsb (String.eqb currentState) (Pending conf) in
            let found := found || pending in
            let targetOcc := if pending then 0 else targetOcc in
            if negb found && negb (Nat.eqb (List.length (Pending conf)) 0) then
              Finished res (Some (UnexpectedStateError None currentState (Target conf)))
            else
              Continue (mkLoop (nextWait conf (wait st) targetOcc) 0 targetOcc currentState)
      end
  end.

(** Modelled from the spec: the generic poller is not under src/.  This is
    its bounded polling loop (sections 1 and 5) on the logical clock:
    [elapsed] is the time since the wait began; each round waits [wait];
    when the timeout is due no later than the end of that wait, the wait
    ends at the timeout with a [TimeoutError]; otherwise the state is
    refreshed.  A refresh takes no logical time.  [None] means the fuel ran
    out. *)
Fixpoint refreshLoop (fuel : nat) (conf : StateChangeConf) (elapsed : Z) (st : loopState)
  : M W (option (option R * option error)) :=
  match fuel with
  | O => ret None
  | S fuel =>
      let w := wait st in
      if Timeout conf <=? elapsed + w then
        _ <- sleep (Timeout conf - elapsed) ;;
        ret (Some (None, Some (TimeoutError None (lastState st) (Timeout conf) (Target conf))))
      else
        _ <- sleep w ;;
        (* first round had no wait *)
        let st := mkLoop (if w =? 0 then 100 * time.Millisecond else w)
                         (notfoundTick st) (targetOccurence st) (lastState st) in
        r <- Refresh conf ;;
        match afterRefresh conf st r with
        | Finished res err => ret (Some (res, err))
        | Continue st => refreshLoop fuel conf (elapsed + w) st
        end
  end.

(** The defaults [WaitForStateContext] sets: 20 not-found checks and one
    target occurrence. *)
Definition withDefaults (conf : StateChangeConf) : StateChangeConf :=
  {| Delay := Delay conf; Pending := Pending conf; Refresh := Refresh conf;
     Target := Target conf; Timeout := Timeout conf; MinTimeout := MinTimeout conf;
     PollInterval := PollInterval conf;
     NotFoundChecks := if NotFoundChecks conf =? 0 then 20 else NotFoundChecks conf;
     ContinuousTargetOccurence :=
       if ContinuousTargetOccurence conf =? 0 then 1 else ContinuousTargetOccurence conf |}.

(** Modelled from the spec: [WaitForStateContext] of the generic poller is
    not under src/.  It blocks until the resource reaches a target state or
    the timeout elapses (section 5): the defaults, the initial [Delay], then
    the refresh loop.  The context is never cancelled. *)
Definition WaitForStateContext (fuel : nat) (conf : StateChangeConf)
  : M W (option (option R * option error)) :=
  let conf := withDefaults conf in
  if Timeout conf <=? Delay conf then
    _ <- sleep (Timeout conf) ;;
    ret (Some (None, Some (TimeoutError None "" (Timeout conf) (Target conf))))
  else
    _ <- sleep (Delay conf) ;;
    refreshLoop fuel conf (Delay conf) (mkLoop 0 0 0 "").

End StateChange.

End retry.

(** ** The domain name resource *)

(** Helpers of the package that live in other files, and the SDK's check of
    a list value against the schema when it is set ([d.Set] returns its
    error). *)
Class Package := {
  expandEndpointConfiguration : tfList → option apigateway.EndpointConfiguration;
  flattenEndpointConfiguration : option apigateway.EndpointConfiguration → tfList;
  SetListError : string → tfList → option error
}.

(** How a Go function ends: it returns, or it panics (a failed type
    assertion or an index out of range). *)
Inductive outcome (A : Type) :=
| Returns (a : A)
| Panics.

Arguments Returns {A}.
Arguments Panics {A}.

(** The attributes of the schema of [ResourceDomainName]. *)
Definition domainNameSchema : list string :=
  [ "arn"; "certificate_arn"; "certificate_body"; "certificate_chain";
    "certificate_name"; "certificate_private_key"; "certificate_upload_date";
    "cloudfront_domain_name"; "cloudfront_zone_id"; "domain_name";
    "endpoint_configuration"; "mutual_tls_authentication";
    "ownership_verification_certificate_arn"; "regional_certificate_arn";
    "regional_certificate_name"; "regional_domain_name"; "regional_zone_id";
    "security_policy"; "tags"; "tags_all" ].

Section DomainName.
Context {W : Type} `{apigateway.APIGateway W} `{Formatting} `{Package}.

Import schema.

(** What [FindDomainName] returns: the output and a nil error, or nil and an
    error. *)
Inductive found :=
| Found (output : apigateway.DomainName.t)
| Failed (err : error).

Definition foundErr (r : found) : option error :=
  match r with Found _ => None | Failed e => Some e end.

Definition FindDomainName (domainName : string) : M W found :=
  let input := {| apigateway.GetDomainNameInput.DomainName := aws.String domainName |} in
  r <- GetDomainName input ;;
  let (output, err) := r in
  if tfawserr.ErrCodeEquals err apigateway.ErrCodeNotFoundException then
    ret (Failed (NotFoundError err (Some domainName) 0))
  else
    match err with
    | Some e => ret (Failed e)
    | None =>
        match output with
        | None => ret (Failed (tfresource.NewEmptyResultError domainName))
        | Some output => ret (Found output)
        end
    end.

Definition statusDomainName (domainName : string)
  : M W (@retry.Refreshed apigateway.DomainName.t) :=
  r <- FindDomainName domainName ;;
  if tfresource.NotFound (foundErr r) then ret (None, "", None)
  else
    match r with
    | Failed e => ret (None, "", Some e)
    | Found output =>
        ret (Some output, aws.StringValue (apigateway.DomainName.DomainNameStatus output), None)
    end.

Definition domainNameUpdatedConf (domainName : string)
  : @retry.StateChangeConf W apigateway.DomainName.t :=
  {| retry.Pending := [apigateway.DomainNameStatusUpdating];
     retry.Target := [apigateway.DomainNameStatusAvailable];
     retry.Refresh := statusDomainName domainName;
     retry.Timeout := 15 * time.Minute;
     retry.Delay := 1 * time.Minute;
     retry.MinTimeout := 10 * time.Second;
     retry.PollInterval := 0;
     retry.NotFoundChecks := 0;
     retry.ContinuousTargetOccurence := 0 |}.

Definition waitDomainNameUpdated (fuel : nat) (domainName : string)
  : M W (option (option apigateway.DomainName.t * option error)) :=
  let stateConf := domainNameUpdatedConf domainName in
  r <- retry.WaitForStateContext fuel stateConf ;;
  match r with
  | None => ret None
  | Some (outputRaw, err) =>
      match outputRaw with
      | Some output =>
          let err := tfresource.SetLastError err
                       (PlainError (aws.StringValue
                          (apigateway.DomainName.DomainNameStatusMessage output))) in
          ret (Some (Some output, err))
      | None => ret (Some (None, err))
      end
  end.

(** [if v, ok := d.GetOk(key); ok { input.Field = aws.String(v.(string)) }]. *)
Definition okString (d : ResourceData) (key : string) : option string :=
  let (v, ok) := GetOkString d key in
  if ok then aws.String v else None.

Definition resourceDomainNameRead (meta : conns.AWSClient) (d : ResourceData)
  : M W (ResourceData * diag.Diagnostics) :=
  let diags : diag.Diagnostics := [] in
  r <- FindDomainName (Id d) ;;
  if negb (IsNewResource d) && tfresource.NotFound (foundErr r) then
    (* not found, removing from state *)
    let d := SetId "" d in
    ret (d, diags)
  else
    match r with
    | Failed err =>
        ret (d, sdkdiag.AppendErrorf diags
                  ("reading API Gateway Domain Name (" ++ Id d ++ "): " ++ Error err))
    | Found domainName =>
        let arn := arn.String
          {| arn.Partition := conns.Partition meta;
             arn.Service := "apigateway";
             arn.Region := conns.Region meta;
             arn.AccountID := "";
             arn.Resource := "/domainnames/" ++ Id d |} in
        let d := SetString "arn" arn d in
        let d := SetString "certificate_arn"
                   (aws.StringValue (apigateway.DomainName.CertificateArn domainName)) d in
        let d := SetString "certificate_name"
                   (aws.StringValue (apigateway.DomainName.CertificateName domainName)) d in
        let d :=
          match apigateway.DomainName.CertificateUploadDate domainName with
          | Some t => SetString "certificate_upload_date" (FormatRFC3339 t) d
          | None => SetString "certificate_upload_date" "" d
          end in
        let d := SetString "cloudfront_domain_name"
                   (aws.StringValue (apigateway.DomainName.DistributionDomainName domainName)) d in
        let d := SetString "cloudfront_zone_id"
                   (conns.CloudFrontDistributionHostedZoneID meta) d in
        let d := SetString "domain_name"
                   (aws.StringValue (apigateway.DomainName.DomainName domainName)) d in
        let ec := flattenEndpointConfiguration
                    (apigateway.DomainName.EndpointConfiguration domainName) in
        match SetListError "endpoint_configuration" ec with
        | Some err =>
            ret (d, sdkdiag.AppendErrorf diags
                      ("setting endpoint_configuration: " ++ Error err))
        | None =>
            let d := SetList "endpoint_configuration" ec d in
            let mtls := flattenMutualTLSAuthentication
                          (apigateway.DomainName.MutualTlsAuthentication domainName) in
            match SetListError "mutual_tls_authentication" mtls with
            | Some err =>
                ret (d, sdkdiag.AppendErrorf diags
                          ("setting mutual_tls_authentication: " ++ Error err))
            | None =>
                let d := SetList "mutual_tls_authentication" mtls d in
                let d := SetString "ownership_verification_certificate_arn"
                           (aws.StringValue
                              (apigateway.DomainName.OwnershipVerificationCertificateArn domainName)) d in
                let d := SetString "regional_certificate_arn"
                           (aws.StringValue (apigateway.DomainName.RegionalCertificateArn domainName)) d in
                let d := SetString "regional_certificate_name"
                           (aws.StringValue (apigateway.DomainName.RegionalCertificateName domainName)) d in
                let d := SetString "regional_domain_name"
                           (aws.StringValue (apigateway.DomainName.RegionalDomainName domainName)) d in
                let d := SetString "regional_zone_id"
                           (aws.StringValue (apigateway.DomainName.RegionalHostedZoneId domainName)) d in
                let d := SetString "security_policy"
                           (aws.StringValue (apigateway.DomainName.SecurityPolicy domainName)) d in
                _ <- setTagsOut (apigateway.DomainName.Tags domainName) ;;
                ret (d, diags)
            end
        end
    end.

Definition createDomainNameInput (meta : conns.AWSClient) (d : ResourceData)
  : apigateway.CreateDomainNameInput.t :=
  {| apigateway.CreateDomainNameInput.DomainName := aws.String (GetString d "domain_name");
     apigateway.CreateDomainNameInput.MutualTlsAuthentication :=
       expandMutualTLSAuthentication (GetList d "mutual_tls_authentication");
     apigateway.CreateDomainNameInput.Tags := conns.TagsIn meta;
     apigateway.CreateDomainNameInput.CertificateArn := okString d "certificate_arn";
     apigateway.CreateDomainNameInput.CertificateBody := okString d "certificate_body";
     apigateway.CreateDomainNameInput.CertificateChain := okString d "certificate_chain";
     apigateway.CreateDomainNameInput.CertificateName := okString d "certificate_name";
     apigateway.CreateDomainNameInput.CertificatePrivateKey :=
       okString d "certificate_private_key";
     apigateway.CreateDomainNameInput.EndpointConfiguration :=
       (let (v, ok) := GetOkList d "endpoint_configuration" in
        if ok then expandEndpointConfiguration v else None);
     apigateway.CreateDomainNameInput.OwnershipVerificationCertificateArn :=
       okString d "ownership_verification_certificate_arn";
     apigateway.CreateDomainNameInput.RegionalCertificateArn :=
       okString d "regional_certificate_arn";
     apigateway.CreateDomainNameInput.RegionalCertificateName :=
       okString d "regional_certificate_name";
     apigateway.CreateDomainNameInput.SecurityPolicy := okString d "security_policy" |}.

Definition resourceDomainNameCreate (meta : conns.AWSClient) (d : ResourceData)
  : M W (ResourceData * outcome diag.Diagnostics) :=
  let diags : diag.Diagnostics := [] in
  let domainName := GetString d "domain_name" in
  let input := createDomainNameInput meta d in
  r <- CreateDomainName input ;;
  let (output, err) := r in
  match err with
  | Some err =>
      ret (d, Returns (sdkdiag.AppendErrorf diags
                ("creating API Gateway Domain Name (" ++ domainName ++ "): " ++ Error err)))
  | None =>
      match output with
      | None => ret (d, Panics) (* output.DomainName on a nil output *)
      | Some output =>
          let d := SetId (aws.StringValue (apigateway.DomainName.DomainName output)) d in
          r <- resourceDomainNameRead meta d ;;
          let (d, readDiags) := r in
          ret (d, Returns (diags ++ readDiags)%list)
      end
  end.

Definition replaceOperation (path value : string) : apigateway.PatchOperation :=
  {| apigateway.From := None;
     apigateway.Op := aws.String apigateway.OpReplace;
     apigateway.Path := aws.String path;
     apigateway.Value := aws.String value |}.

(** [if d.HasChange(key) { operations = append(operations, replace path d.Get(key)) }]. *)
Definition stringOperation (d : ResourceData) (key path : string)
  : list apigateway.PatchOperation :=
  if HasChange d (Attr key) then [replaceOperation path (GetString d key)] else [].

(** The [endpoint_configuration.0.types] block of the update. *)
Definition endpointOperations (d : ResourceData) : outcome (list apigateway.PatchOperation) :=
  if HasChange d (BlockField "endpoint_configuration" 0 "types") then
    (* The domain name must have an endpoint type.
       If attempting to remove the configuration, do nothing. *)
    let (v, ok) := GetOkList d "endpoint_configuration" in
    if ok && (0 <? List.length v)%nat then
      match v with
      | Some m :: _ =>
          match m !! "types" with
          | Some (IList (t :: _)) =>
              Returns [replaceOperation "/endpointConfiguration/types/0" t]
          | _ => Panics
          end
      | _ => Panics
      end
    else Returns []
  else Returns [].

(** The [mutual_tls_authentication] block of the update. *)
Definition mutualTLSOperations (d : ResourceData) : outcome (list apigateway.PatchOperation) :=
  if HasChange d (Attr "mutual_tls_authentication") then
    let (v, ok) := GetOkList d "mutual_tls_authentication" in
    match (if ok && (0 <? List.length v)%nat then v else []) with
    | Some tfMap :: _ =>
        let uri :=
          if HasChange d (BlockField "mutual_tls_authentication" 0 "truststore_uri") then
            match tfMap !! "truststore_uri" with
            | Some (IString s) =>
                Returns [replaceOperation "/mutualTlsAuthentication/truststoreUri" s]
            | _ => Panics
            end
          else Returns [] in
        let version :=
          if HasChange d (BlockField "mutual_tls_authentication" 0 "truststore_version") then
            match tfMap !! "truststore_version" with
            | Some (IString s) =>
                Returns [replaceOperation "/mutualTlsAuthentication/truststoreVersion" s]
            | _ => Panics
            end
          else Returns [] in
        match uri, version with
        | Returns u, Returns v => Returns (u ++ v)%list
        | _, _ => Panics
        end
    | _ =>
        (* To disable mutual TLS for a custom domain name, remove the
           truststore from your custom domain name. *)
        Returns [replaceOperation "/mutualTlsAuthentication/truststoreUri" ""]
    end
  else Returns [].

(** The patch operations [resourceDomainNameUpdate] builds, in order. *)
Definition patchOperations (d : ResourceData) : outcome (list apigateway.PatchOperation) :=
  match endpointOperations d, mutualTLSOperations d with
  | Returns endpoint, Returns mtls =>
      Returns (stringOperation d "certificate_arn" "/certificateArn"
               ++ stringOperation d "certificate_name" "/certificateName"
               ++ endpoint
               ++ mtls
               ++ stringOperation d "regional_certificate_arn" "/regionalCertificateArn"
               ++ stringOperation d "regional_certificate_name" "/regionalCertificateName"
               ++ stringOperation d "security_policy" "/securityPolicy")%list
  | _, _ => Panics
  end.

(** [None] means the fuel of the wait ran out. *)
Definition resourceDomainNameUpdate (fuel : nat) (meta : conns.AWSClient) (d : ResourceData)
  : M W (option (ResourceData * outcome diag.Diagnostics)) :=
  let diags : diag.Diagnostics := [] in
  let read :=
    r <- resourceDomainNameRead meta d ;;
    let (d, readDiags) := r in
    ret (Some (d, Returns (diags ++ readDiags)%list)) in
  if HasChangesExcept domainNameSchema d ["tags"; "tags_all"] then
    match patchOperations d with
    | Panics => ret (Some (d, Panics))
    | Returns operations =>
        r <- UpdateDomainName
               {| apigateway.UpdateDomainNameInput.DomainName := aws.String (Id d);
                  apigateway.UpdateDomainNameInput.PatchOperations := operations |} ;;
        match snd r with
        | Some err =>
            ret (Some (d, Returns (sdkdiag.AppendErrorf diags
                   ("updating API Gateway Domain Name (" ++ Id d ++ "): " ++ Error err))))
        | None =>
            r <- waitDomainNameUpdated fuel (Id d) ;;
            match r with
            | None => ret None
            | Some (_, Some err) =>
                ret (Some (d, Returns (sdkdiag.AppendErrorf diags
                       ("waiting for API Gateway Domain Name (" ++ Id d ++ ") update: "
                        ++ Error err))))
            | Some (_, None) => read
            end
        end
    end
  else read.

Definition resourceDomainNameDelete (meta : conns.AWSClient) (d : ResourceData)
  : M W diag.Diagnostics :=
  let diags : diag.Diagnostics := [] in
  err <- DeleteDomainName
           {| apigateway.DeleteDomainNameInput.DomainName := aws.String (Id d) |} ;;
  if tfawserr.ErrCodeEquals err apigateway.ErrCodeNotFoundException then
    ret diags
  else
    match err with
    | Some err =>
        ret (sdkdiag.AppendErrorf diags
               ("deleting API Gateway Domain Name (" ++ Id d ++ "): " ++ Error err))
    | None => ret diags
    end.

End DomainName.

(** ** Route 53 zone helpers *)

Module route53.

Record ResourceRecord := { Value : option string }.

Record ResourceRecordSet := {
  Name : option string;
  Type_ : option string;
  ResourceRecords : list ResourceRecord;
  TTL : option Z
}.

Record Change := {
  Action : option string;
  ResourceRecordSet_ : option ResourceRecordSet
}.

Record ChangeBatch := {
  Comment : option string;
  Changes : list Change
}.

Record ChangeResourceRecordSetsInput := {
  HostedZoneId : option string;
  ChangeBatch_ : option ChangeBatch
}.

Record ChangeInfo := { ChangeId : option string }.

Record HostedZone := {
  Id : option string;
  ZoneName : option string
}.

Record GetHostedZoneOutput := { HostedZone_ : option HostedZone }.

End route53.

Module tfroute53.

(** Modelled from the spec: [TrimTrailingPeriod] is not under src/ (only
    [TestTrimTrailingPeriod] is).  It takes a string or a [*string], keeps the
    string ["."], removes one trailing period from any other string, and
    answers the empty string for every other input. *)
Definition TrimTrailingPeriod (v : iface) : string :=
  let trim (str : string) :=
    if String.eqb str "." then str else strings.TrimSuffix str "." in
  match v with
  | IStringPtr value => trim (aws.StringValue value)
  | IString value => trim value
  | _ => ""
  end.

(** The helpers of the package the zone tests call, which are not under
    src/, the random source and [fmt]'s decimal formatting.  The remote side
    is a state [W]. *)
Class Helpers (W : Type) := {
  ChangeResourceRecordSets :
    route53.ChangeResourceRecordSetsInput → W → (option route53.ChangeInfo * option error) * W;
  WaitForRecordSetToSync : string → W → option error * W;
  CleanChangeID : string → string;
  RandInt : W → Z * W;
  FormatInt : Z → string
}.

End tfroute53.

Module route53_test.

(** The remote state and the requests sent to [ChangeResourceRecordSets]. *)
Record TestWorld (W : Type) := mkTestWorld {
  zoneState : W;
  requests : list route53.ChangeResourceRecordSetsInput
}.

Arguments mkTestWorld {W}.
Arguments zoneState {W}.
Arguments requests {W}.

Section Zone.
Context {W : Type} `{tfroute53.Helpers W}.

(** The loop [for i := 0; i < recordsCount; i++] that appends one change per
    round; [n] rounds remain.  It panics on a nil zone or zone name. *)
Fixpoint randomChanges (n : nat) (zone : route53.GetHostedZoneOutput)
    (changes : list route53.Change) (w : W) : outcome (list route53.Change) * W :=
  match n with
  | O => (Returns changes, w)
  | S n =>
      let (r, w) := tfroute53.RandInt w in
      match route53.HostedZone_ zone with
      | Some {| route53.ZoneName := Some name |} =>
          let change :=
            {| route53.Action := aws.String "UPSERT";
               route53.ResourceRecordSet_ := Some
                 {| route53.Name :=
                      aws.String (tfroute53.FormatInt r ++ "-tf-acc-random." ++ name);
                    route53.Type_ := aws.String "CNAME";
                    route53.ResourceRecords :=
                      [ {| route53.Value := aws.String ("random." ++ name) |} ];
                    route53.TTL := Some 30 |} |} in
          randomChanges n zone (changes ++ [change])%list w
      | _ => (Panics, w)
      end
  end.

Definition testAccCreateRandomRecordsInZoneID (zone : route53.GetHostedZoneOutput)
    (recordsCount : Z) (w : TestWorld W) : outcome (option error) * TestWorld W :=
  if 100 <? recordsCount then
    (Returns (Some (PlainError "Route53 API only allows 100 record sets in a single batch")), w)
  else
    let (changes, z) := randomChanges (Z.to_nat recordsCount) zone [] (zoneState w) in
    match changes, route53.HostedZone_ zone with
    | Returns changes, Some hostedZone =>
        let req :=
          {| route53.HostedZoneId := route53.Id hostedZone;
             route53.ChangeBatch_ := Some
               {| route53.Comment := aws.String "Generated by Terraform";
                  route53.Changes := changes |} |} in
        let '(changeInfo, err, z) := tfroute53.ChangeResourceRecordSets req z in
        let sent := (requests w ++ [req])%list in
        match err with
        | Some err => (Returns (Some err), mkTestWorld z sent)
        | None =>
            match changeInfo with
            | Some {| route53.ChangeId := Some id |} =>
                let (err, z) :=
                  tfroute53.WaitForRecordSetToSync (tfroute53.CleanChangeID id) z in
                (Returns err, mkTestWorld z sent)
            | _ => (Panics, mkTestWorld z sent)
            end
        end
    | _, _ => (Panics, mkTestWorld z (requests w))
    end.

End Zone.

End route53_test.

(** ** The state the acceptance checks read *)

Module terraform.

Record InstanceState := { ID : string }.

(** [Primary] is a pointer: [None] is nil. *)
Record ResourceState := {
  Type_ : string;
  Primary : option InstanceState
}.

(** [s.RootModule().Resources], a Go map from resource names to resource
    states.  The list is the map in the order a [range] loop happens to
    visit it; a lookup by name takes the entry of that name. *)
Definition Resources := list (string * ResourceState).

Definition lookupResource (resources : Resources) (name : string) : option ResourceState :=
  match List.find (fun entry => String.eqb (fst entry) name) resources with
  | Some entry => Some (snd entry)
  | None => None
  end.

End terraform.

(** ** The checks of the zone tests *)

Module zone_checks.

Record VPC := {
  VPCId : option string;
  VPCRegion : option string
}.

(** [route53.GetHostedZoneOutput] as the VPC check reads it: the zone and
    its list of VPCs. *)
Record ZoneWithVPCs := {
  zoneOutput : route53.GetHostedZoneOutput;
  VPCs : list VPC
}.

(** The lookups of the package the checks call, which are not under src/. *)
Class Lookups (W : Type) := {
  FindHostedZoneByID : string → W → (option route53.GetHostedZoneOutput * option error) * W;
  CleanZoneID : string → string
}.

Section Checks.
Context {W : Type} `{Lookups W}.

(** The loop of [testAccCheckZoneDestroy] over the resources that are left
    to visit. *)
Fixpoint zoneDestroyLoop (resources : terraform.Resources) (w : W)
  : outcome (option error) * W :=
  match resources with
  | [] => (Returns None, w)
  | (_, rs) :: rest =>
      if negb (String.eqb (terraform.Type_ rs) "aws_route53_zone") then
        zoneDestroyLoop rest w
      else
        match terraform.Primary rs with
        | None => (Panics, w)
        | Some primary =>
            let '(_, err, w) := FindHostedZoneByID (terraform.ID primary) w in
            if tfresource.NotFound err then zoneDestroyLoop rest w
            else
              match err with
              | Some err => (Returns (Some err), w)
              | None =>
                  (Returns (Some (PlainError ("Route53 Hosted Zone " ++ terraform.ID primary
                                              ++ " still exists"))), w)
              end
        end
  end.

Definition testAccCheckZoneDestroy (s : terraform.Resources) (w : W)
  : outcome (option error) * W :=
  zoneDestroyLoop s w.

(** [testAccCheckZoneExists(ctx, n, v)]: the result, the value of [*v]
    afterwards and the remote. *)
Definition testAccCheckZoneExists (n : string) (v : route53.GetHostedZoneOutput)
    (s : terraform.Resources) (w : W)
  : outcome (option error) * route53.GetHostedZoneOutput * W :=
  match terraform.lookupResource s n with
  | None => (Returns (Some (PlainError ("Not found: " ++ n))), v, w)
  | Some rs =>
      match terraform.Primary rs with
      | None => (Panics, v, w)
      | Some primary =>
          if String.eqb (terraform.ID primary) "" then
            (Returns (Some (PlainError "No Route53 Hosted Zone ID is set")), v, w)
          else
            let '(output, err, w) := FindHostedZoneByID (terraform.ID primary) w in
            match err with
            | Some err => (Returns (Some err), v, w)
            | None =>
                match output with
                | None => (Panics, v, w)
                | Some output => (Returns None, output, w)
                end
            end
      end
  end.

(** The loop [for _, vpc := range zone.VPCs] of
    [testAccCheckZoneAssociatesVPC]: whether it returns nil. *)
Fixpoint vpcLoop (vpcs : list VPC) (id : string) : bool :=
  match vpcs with
  | [] => false
  | vpc :: rest =>
      if String.eqb (aws.StringValue (VPCId vpc)) id then true else vpcLoop rest id
  end.

Definition testAccCheckZoneAssociatesVPC (n : string) (zone : ZoneWithVPCs)
    (s : terraform.Resources) : outcome (option error) :=
  match terraform.lookupResource s n with
  | None => Returns (Some (PlainError ("Not found: " ++ n)))
  | Some rs =>
      match terraform.Primary rs with
      | None => Panics
      | Some primary =>
          if String.eqb (terraform.ID primary) "" then
            Returns (Some (PlainError "No VPC ID is set"))
          else if vpcLoop (VPCs zone) (terraform.ID primary) then Returns None
          else
            match route53.HostedZone_ (zoneOutput zone) with
            | None => Panics
            | Some hostedZone =>
                Returns (Some (PlainError
                  ("VPC: " ++ n ++ " is not associated to Zone: "
                   ++ CleanZoneID (aws.StringValue (route53.Id hostedZone)))))
            end
      end
  end.

End Checks.

End zone_checks.

(** ** The checks of the routing control tests *)

Module routing_control_checks.

(** [DescribeRoutingControl] of the client: an output pointer and an error. *)
Class RecoveryControlConfig (W Output : Type) := {
  DescribeRoutingControl : string → W → (option Output * option error) * W
}.

Section Checks.
Context {W Output : Type} `{RecoveryControlConfig W Output}.

(** The loop of the destroy check over the resources that are left to
    visit. *)
Fixpoint routingControlDestroyLoop (resources : terraform.Resources) (w : W)
  : outcome (option error) * W :=
  match resources with
  | [] => (Returns None, w)
  | (_, rs) :: rest =>
      if negb (String.eqb (terraform.Type_ rs)
                 "aws_route53recoverycontrolconfig_routing_control") then
        routingControlDestroyLoop rest w
      else
        match terraform.Primary rs with
        | None => (Panics, w)
        | Some primary =>
            let '(_, err, w) := DescribeRoutingControl (terraform.ID primary) w in
            match err with
            | None =>
                (Returns (Some (PlainError
                   ("Route53RecoveryControlConfig Routing Control ("
                    ++ terraform.ID primary ++ ") not deleted"))), w)
            | Some _ => routingControlDestroyLoop rest w
            end
        end
  end.

Definition testAccCheckAwsRoute53RecoveryControlConfigRoutingControlDestroy
    (s : terraform.Resources) (w : W) : outcome (option error) * W :=
  routingControlDestroyLoop s w.

Definition testAccCheckAwsRoute53RecoveryControlConfigRoutingControlExists
    (name : string) (s : terraform.Resources) (w : W) : outcome (option error) * W :=
  match terraform.lookupResource s name with
  | None => (Returns (Some (PlainError ("Not found: " ++ name))), w)
  | Some rs =>
      match terraform.Primary rs with
      | None => (Panics, w)
      | Some primary =>
          let '(_, err, w) := DescribeRoutingControl (terraform.ID primary) w in
          (Returns err, w)
      end
  end.

End Checks.

End routing_control_checks.

(** ** Vocabulary of the statements *)

(** The diagnostic list holding one error with the given summary. *)
Definition oneError (summary : string) : diag.Diagnostics :=
  [ {| diag.severity := diag.SeverityError; diag.Summary := summary; diag.Detail := "" |} ].

Section Vocabulary.
Context `{Formatting} `{Package}.

Import schema.

(** How [FindDomainName] classifies the answer of [GetDomainName]. *)
Definition classify (domainName : string)
    (answer : option apigateway.DomainName.t * option error) : found :=
  let (output, err) := answer in
  if tfawserr.ErrCodeEquals err apigateway.ErrCodeNotFoundException then
    Failed (NotFoundError err (Some domainName) 0)
  else
    match err, output with
    | Some e, _ => Failed e
    | None, None => Failed (EmptyResultError (Some domainName))
    | None, Some o => Found o
    end.

(** The attributes of [d] mirror the remote domain name [dn], as the read
    of the resource [id] stores them. *)
Definition mirrored (meta : conns.AWSClient) (id : string)
    (dn : apigateway.DomainName.t) (d : ResourceData) : Prop :=
  GetString d "arn"
    = "arn:" ++ conns.Partition meta ++ ":apigateway:" ++ conns.Region meta
      ++ "::/domainnames/" ++ id
  ∧ GetString d "certificate_arn" = aws.StringValue (apigateway.DomainName.CertificateArn dn)
  ∧ GetString d "certificate_name" = aws.StringValue (apigateway.DomainName.CertificateName dn)
  ∧ GetString d "certificate_upload_date"
      = match apigateway.DomainName.CertificateUploadDate dn with
        | Some t => FormatRFC3339 t
        | None => ""
        end
  ∧ GetString d "cloudfront_domain_name"
      = aws.StringValue (apigateway.DomainName.DistributionDomainName dn)
  ∧ GetString d "cloudfront_zone_id" = conns.CloudFrontDistributionHostedZoneID meta
  ∧ GetString d "domain_name" = aws.StringValue (apigateway.DomainName.DomainName dn)
  ∧ GetList d "endpoint_configuration"
      = flattenEndpointConfiguration (apigateway.DomainName.EndpointConfiguration dn)
  ∧ GetList d "mutual_tls_authentication"
      = flattenMutualTLSAuthentication (apigateway.DomainName.MutualTlsAuthentication dn)
  ∧ GetString d "ownership_verification_certificate_arn"
      = aws.StringValue (apigateway.DomainName.OwnershipVerificationCertificateArn dn)
  ∧ GetString d "regional_certificate_arn"
      = aws.StringValue (apigateway.DomainName.RegionalCertificateArn dn)
  ∧ GetString d "regional_certificate_name"
      = aws.StringValue (apigateway.DomainName.RegionalCertificateName dn)
  ∧ GetString d "regional_domain_name"
      = aws.StringValue (apigateway.DomainName.RegionalDomainName dn)
  ∧ GetString d "regional_zone_id"
      = aws.StringValue (apigateway.DomainName.RegionalHostedZoneId dn)
  ∧ GetString d "security_policy" = aws.StringValue (apigateway.DomainName.SecurityPolicy dn).

(** What [statusDomainName] makes of a lookup. *)
Definition refreshOf (r : found) : @retry.Refreshed apigateway.DomainName.t :=
  if tfresource.NotFound (foundErr r) then (None, "", None)
  else
    match r with
    | Failed e => (None, "", Some e)
    | Found output =>
        (Some output, aws.StringValue (apigateway.DomainName.DomainNameStatus output), None)
    end.



(** The attributes the update patches, each with the path of its patch
    operation. *)
Definition patchedAttributes : list (address * string) :=
  [ (Attr "certificate_arn", "/certificateArn");
    (Attr "certificate_name", "/certificateName");
    (BlockField "endpoint_configuration" 0 "types", "/endpointConfiguration/types/0");
    (BlockField "mutual_tls_authentication" 0 "truststore_uri",
     "/mutualTlsAuthentication/truststoreUri");
    (BlockField "mutual_tls_authentication" 0 "truststore_version",
     "/mutualTlsAuthentication/truststoreVersion");
    (Attr "regional_certificate_arn", "/regionalCertificateArn");
    (Attr "regional_certificate_name", "/regionalCertificateName");
    (Attr "security_policy", "/securityPolicy") ].

(** The planned value at an address: the string, or the first element of a
    list of strings. *)
Definition plannedValue (d : ResourceData) (a : address) : string :=
  match a with
  | Attr key => GetString d key
  | BlockField key idx field =>
      match attrBlockList (current d) key idx field with
      | t :: _ => t
      | [] => attrBlockString (current d) key idx field
      end
  end.

(** "Exactly one replace patch operation per changed attribute" among the
    patched attributes, in their order. *)
Definition changeOperation (d : ResourceData) (entry : address * string)
  : list apigateway.PatchOperation :=
  if HasChange d (fst entry)
  then [replaceOperation (snd entry) (plannedValue d (fst entry))]
  else [].

Definition onePerChange (d : ResourceData) : list apigateway.PatchOperation :=
  concat (map (changeOperation d) patchedAttributes).

(** The endpoint configuration is being removed: its types changed and the
    new configuration is empty. *)
Definition removesEndpointConfiguration (d : ResourceData) : Prop :=
  HasChange d (BlockField "endpoint_configuration" 0 "types") = true
  ∧ GetList d "endpoint_configuration" = [].

(** Mutual TLS is being disabled: the attribute changed and the new list is
    empty or starts with a nil block. *)
Definition disablesMutualTLS (d : ResourceData) : Prop :=
  HasChange d (Attr "mutual_tls_authentication") = true
  ∧ (GetList d "mutual_tls_authentication" = []
     ∨ ∃ rest, GetList d "mutual_tls_authentication" = None :: rest).

(** The statement that an update with changes to patch issues exactly one
    replace operation per changed attribute. *)
Definition issuesOnePerChange (d : ResourceData) : Prop :=
  HasChangesExcept domainNameSchema d ["tags"; "tags_all"] = true →
  patchOperations d = Returns (onePerChange d).

End Vocabulary.

(** The changes a request carries, and the changes a list of requests
    carries in all. *)
Definition changesOf (req : route53.ChangeResourceRecordSetsInput) : list route53.Change :=
  match route53.ChangeBatch_ req with
  | Some batch => route53.Changes batch
  | None => []
  end.

Definition changesSent (reqs : list route53.ChangeResourceRecordSetsInput) : nat :=
  list_sum (map (fun req => List.length (changesOf req)) reqs).

(** The statement that the helper splits [recordsCount] changes into
    batches: it sends requests of at most 100 changes each that carry
    [recordsCount] changes in all. *)
Definition splitsIntoBatches {W : Type} `{tfroute53.Helpers W}
    (zone : route53.GetHostedZoneOutput) (recordsCount : Z)
    (w : route53_test.TestWorld W) : Prop :=
  ∃ batches,
    route53_test.requests (snd (route53_test.testAccCreateRandomRecordsInZoneID zone recordsCount w))
      = (route53_test.requests w ++ batches)%list
    ∧ Forall (fun req => (List.length (changesOf req) <= 100)%nat) batches
    ∧ changesSent batches = Z.to_nat recordsCount.

(** ** Vocabulary of the further properties *)

(** The string attributes the read stores. *)
Definition readStrings : list string :=
  [ "arn"; "certificate_arn"; "certificate_name"; "certificate_upload_date";
    "cloudfront_domain_name"; "cloudfront_zone_id"; "domain_name";
    "ownership_verification_certificate_arn"; "regional_certificate_arn";
    "regional_certificate_name"; "regional_domain_name"; "regional_zone_id";
    "security_policy" ].

(** A [*string] with the empty string taken for nil. *)
Definition nonEmptyPtr (p : option string) : option string :=
  match p with
  | Some s => if String.eqb s "" then None else Some s
  | None => None
  end.

Section UpdateVocabulary.
Import schema.

(** The planned endpoint configuration makes the update panic: its types
    changed, the list is not empty, and its first block is nil or has no
    non-empty list of types. *)
Definition endpointMalformed (d : ResourceData) : Prop :=
  HasChange d (BlockField "endpoint_configuration" 0 "types") = true
  ∧ ∃ first rest,
      GetList d "endpoint_configuration" = first :: rest
      ∧ ∀ m t ts, first = Some m → m !! "types" ≠ Some (IList (t :: ts)).

(** The planned mutual TLS block makes the update panic: a truststore field
    changed and the block does not hold a string for it. *)
Definition mutualTLSMalformed (d : ResourceData) : Prop :=
  HasChange d (Attr "mutual_tls_authentication") = true
  ∧ ∃ m rest,
      GetList d "mutual_tls_authentication" = Some m :: rest
      ∧ ((HasChange d (BlockField "mutual_tls_authentication" 0 "truststore_uri") = true
          ∧ ∀ s, m !! "truststore_uri" ≠ Some (IString s))
         ∨ (HasChange d (BlockField "mutual_tls_authentication" 0 "truststore_version") = true
            ∧ ∀ s, m !! "truststore_version" ≠ Some (IString s))).

End UpdateVocabulary.

(** The lookups of [domainName], [n] of them, the first at [first] and
    each 10 seconds after the one before. *)
Definition pollSchedule (first : Z) (domainName : string) (n : nat)
  : list (Z * apigateway.Call) :=
  map (fun k => (first + 10 * time.Second * Z.of_nat k,
                 apigateway.CallGetDomainName
                   {| apigateway.GetDomainNameInput.DomainName := Some domainName |}))
      (seq 0 n).

(** The ways the wait for an update ends: with the available domain name;
    with the domain name in a state that is neither pending nor the target,
    and an error that carries the status message; with the timeout; with
    the not-found error after 21 answers of "not found" in a row; or with
    the error of a lookup. *)
Inductive waitOutcome : option apigateway.DomainName.t * option error → Prop :=
| WaitAvailable (output : apigateway.DomainName.t) :
    aws.StringValue (apigateway.DomainName.DomainNameStatus output)
      = apigateway.DomainNameStatusAvailable →
    waitOutcome (Some output, None)
| WaitUnexpected (output : apigateway.DomainName.t) :
    aws.StringValue (apigateway.DomainName.DomainNameStatus output)
      ≠ apigateway.DomainNameStatusAvailable →
    aws.StringValue (apigateway.DomainName.DomainNameStatus output)
      ≠ apigateway.DomainNameStatusUpdating →
    waitOutcome
      (Some output,
       Some (UnexpectedStateError
               (Some (PlainError (aws.StringValue
                                    (apigateway.DomainName.DomainNameStatusMessage output))))
               (aws.StringValue (apigateway.DomainName.DomainNameStatus output))
               [apigateway.DomainNameStatusAvailable]))
| WaitTimeout (lastState : string) :
    lastState = "" ∨ lastState = apigateway.DomainNameStatusUpdating →
    waitOutcome
      (None, Some (TimeoutError None lastState (15 * time.Minute)
                     [apigateway.DomainNameStatusAvailable]))
| WaitNotFound :
    waitOutcome (None, Some (NotFoundError None None 21))
| WaitLookupError (err : error) :
    tfresource.NotFound (Some err) = false →
    waitOutcome (None, Some err).

(** The change the helper builds for the random number [r] in the zone
    [name]. *)
Definition randomChange (formatInt : Z → string) (r : Z) (name : string) : route53.Change :=
  {| route53.Action := Some "UPSERT";
     route53.ResourceRecordSet_ := Some
       {| route53.Name := Some (formatInt r ++ "-tf-acc-random." ++ name);
          route53.Type_ := Some "CNAME";
          route53.ResourceRecords := [ {| route53.Value := Some ("random." ++ name) |} ];
          route53.TTL := Some 30 |} |}.

(** [resource.ComposeTestCheckFunc] over calls of the helper with the given
    counts: the checks run in order and the first error, or panic, ends the
    run. *)
Fixpoint composeRandomRecords {W : Type} `{tfroute53.Helpers W}
    (zone : route53.GetHostedZoneOutput) (counts : list Z)
    (w : route53_test.TestWorld W) : outcome (option error) * route53_test.TestWorld W :=
  match counts with
  | [] => (Returns None, w)
  | recordsCount :: rest =>
      match route53_test.testAccCreateRandomRecordsInZoneID zone recordsCount w with
      | (Returns None, w) => composeRandomRecords zone rest w
      | failed => failed
      end
  end.

Section ZoneCheckVocabulary.
Context {W : Type} `{zone_checks.Lookups W}.

(** The lookups do not change the remote. *)
Definition readOnlyLookups : Prop :=
  ∀ id (w : W), snd (zone_checks.FindHostedZoneByID id w) = w.

(** The zone resource [rs] is reported "not found" by the remote [w]. *)
Definition zoneGone (w : W) (rs : terraform.ResourceState) : Prop :=
  ∃ primary,
    terraform.Primary rs = Some primary
    ∧ tfresource.NotFound (snd (fst (zone_checks.FindHostedZoneByID (terraform.ID primary) w)))
      = true.

End ZoneCheckVocabulary.

Section RoutingControlVocabulary.
Context {W Output : Type} `{routing_control_checks.RecoveryControlConfig W Output}.

(** Describing a routing control does not change the remote. *)
Definition readOnlyDescribe : Prop :=
  ∀ id (w : W), snd (routing_control_checks.DescribeRoutingControl id w) = w.

(** The remote [w] answers an error, whichever, when asked for the routing
    control [rs]. *)
Definition routingControlRefused (w : W) (rs : terraform.ResourceState) : Prop :=
  ∃ primary err,
    terraform.Primary rs = Some primary
    ∧ snd (fst (routing_control_checks.DescribeRoutingControl (terraform.ID primary) w))
      = Some err.

End RoutingControlVocabulary.

(** ** Vocabulary of the wait *)

Section WaitVocabulary.
Context {W : Type} `{apigateway.APIGateway W}.



End WaitVocabulary.

(** ** Instances for the examples *)

Module Examples.

(** A remote that answers from a script: one answer per call of
    [GetDomainName] and, when these are used up, the same answer
    thereafter; fixed answers for the other operations. *)
Record Script := mkScript {
  getAnswers : list (option apigateway.DomainName.t * option error);
  thereafter : option apigateway.DomainName.t * option error;
  createAnswer : option apigateway.DomainName.t * option error;
  updateAnswer : option apigateway.DomainName.t * option error;
  deleteAnswer : option error
}.

#[export] Instance scripted : apigateway.APIGateway Script := {
  apigateway.CreateDomainNameWithContext _ s := (createAnswer s, s);
  apigateway.GetDomainNameWithContext _ s :=
    match getAnswers s with
    | [] => (thereafter s, s)
    | a :: rest =>
        (a, mkScript rest (thereafter s) (createAnswer s) (updateAnswer s) (deleteAnswer s))
    end;
  apigateway.UpdateDomainNameWithContext _ s := (updateAnswer s, s);
  apigateway.DeleteDomainNameWithContext _ s := (deleteAnswer s, s)
}.

#[export] Instance formatting : Formatting := {
  Error e :=
    match e with
    | AwsError code message => code ++ ": " ++ message
    | PlainError message => message
    | NotFoundError _ _ _ => "couldn't find resource"
    | EmptyResultError _ => "empty result"
    | UnexpectedStateError _ state _ => "unexpected state '" ++ state ++ "'"
    | TimeoutError _ state _ _ => "timeout while waiting for state (last state: '" ++ state ++ "')"
    end;
  FormatRFC3339 _ := "1970-01-01T00:00:00Z"
}.

#[export] Instance package : Package := {
  expandEndpointConfiguration l :=
    match l with
    | Some m :: _ =>
        match m !! "types" with
        | Some (IList types) =>
            Some {| apigateway.Types := map Some types; apigateway.VpcEndpointIds := [] |}
        | _ => None
        end
    | _ => None
    end;
  flattenEndpointConfiguration ec :=
    match ec with
    | None => []
    | Some ec =>
        [Some (<["types" := IList (map aws.StringValue (apigateway.Types ec))]> ∅)]
    end;
  SetListError _ _ := None
}.

Definition emptyAttributes : schema.attributes :=
  schema.mkAttributes ∅ ∅ ∅.

Definition exampleDomain (status : string) : apigateway.DomainName.t :=
  {| apigateway.DomainName.CertificateArn := None;
     apigateway.DomainName.CertificateName := None;
     apigateway.DomainName.CertificateUploadDate := None;
     apigateway.DomainName.DistributionDomainName := None;
     apigateway.DomainName.DistributionHostedZoneId := None;
     apigateway.DomainName.DomainName := Some "api.example.com";
     apigateway.DomainName.DomainNameStatus := Some status;
     apigateway.DomainName.DomainNameStatusMessage := None;
     apigateway.DomainName.EndpointConfiguration :=
       Some {| apigateway.Types := [Some "REGIONAL"]; apigateway.VpcEndpointIds := [] |};
     apigateway.DomainName.MutualTlsAuthentication := None;
     apigateway.DomainName.OwnershipVerificationCertificateArn := None;
     apigateway.DomainName.RegionalCertificateArn :=
       Some "arn:aws:acm:us-east-1:123456789012:certificate/abc";
     apigateway.DomainName.RegionalCertificateName := None;
     apigateway.DomainName.RegionalDomainName := Some "d-abc.execute-api.us-east-1.amazonaws.com";
     apigateway.DomainName.RegionalHostedZoneId := Some "Z1UJRXOUMOOFQ8";
     apigateway.DomainName.SecurityPolicy := Some "TLS_1_2";
     apigateway.DomainName.Tags := ∅ |}.

Definition exampleMeta : conns.AWSClient :=
  {| conns.Partition := "aws"; conns.Region := "us-east-1";
     conns.CloudFrontDistributionHostedZoneID := "Z2FDTNDATAQYW2";
     conns.TagsIn := ∅ |}.

Definition exampleData (isNew : bool) : schema.ResourceData :=
  schema.mkResourceData "api.example.com" isNew emptyAttributes
    (schema.mkAttributes (<["domain_name" := "api.example.com"]> ∅) ∅ ∅).

Definition startWorld (s : Script) : World Script := mkWorld s 0 [] None.

Definition notFoundException : error :=
  AwsError "NotFoundException" "Invalid domain name identifier specified".

Definition throttled : error := AwsError "TooManyRequestsException" "Too Many Requests".

(** The domain name is gone: every operation answers [NotFoundException]. *)
Definition gone : World Script :=
  startWorld (mkScript [] (None, Some notFoundException) (None, None) (None, None)
                       (Some notFoundException)).

(** The domain name exists and is available; create and update answer with
    it. *)
Definition created : World Script :=
  startWorld (mkScript [] (Some (exampleDomain "AVAILABLE"), None)
                       (Some (exampleDomain "AVAILABLE"), None)
                       (Some (exampleDomain "AVAILABLE"), None) None).

(** Every operation is throttled. *)
Definition busy : World Script :=
  startWorld (mkScript [] (None, Some throttled) (None, Some throttled) (None, Some throttled)
                       (Some throttled)).

(** The update is accepted; the domain name is updating for two polls and
    available afterwards. *)
Definition settling : World Script :=
  startWorld (mkScript [ (Some (exampleDomain "UPDATING"), None);
                         (Some (exampleDomain "UPDATING"), None) ]
                       (Some (exampleDomain "AVAILABLE"), None)
                       (None, None)
                       (Some (exampleDomain "UPDATING"), None) None).

(** The update is accepted, and the domain name stays updating for ever. *)
Definition stuck : World Script :=
  startWorld (mkScript [] (Some (exampleDomain "UPDATING"), None) (None, None)
                       (Some (exampleDomain "UPDATING"), None) None).

(** The update is accepted, and the domain name then waits for its
    ownership to be verified. *)
Definition pendingVerification : World Script :=
  startWorld (mkScript [] (Some (exampleDomain "PENDING_OWNERSHIP_VERIFICATION"), None)
                       (None, None)
                       (Some (exampleDomain "PENDING_OWNERSHIP_VERIFICATION"), None) None).

(** A zone service that accepts every change batch; its state is the next
    number of the random source. *)
#[export] Instance zoneHelpers : tfroute53.Helpers Z := {
  tfroute53.ChangeResourceRecordSets _ z := ((Some {| route53.ChangeId := Some "/change/C2682N5HXP0BZ4" |}, None), z);
  tfroute53.WaitForRecordSetToSync _ z := (None, z);
  tfroute53.CleanChangeID id := strings.TrimSuffix id "";
  tfroute53.RandInt z := (z, z + 1);
  tfroute53.FormatInt z := pretty z
}.

Definition exampleZone : route53.GetHostedZoneOutput :=
  {| route53.HostedZone_ :=
       Some {| route53.Id := Some "/hostedzone/Z1D633PJN98FT9";
               route53.ZoneName := Some "example.com." |} |}.

Definition zoneWorld : route53_test.TestWorld Z := route53_test.mkTestWorld 1 [].

(** Mutual TLS was configured with a truststore and a version, and the
    new configuration has no mutual TLS block. *)
Definition mutualTLSRemoved : schema.ResourceData :=
  schema.mkResourceData "api.example.com" false
    (schema.mkAttributes
       (<["domain_name" := "api.example.com"]> ∅)
       (<["mutual_tls_authentication" :=
            [Some (<["truststore_uri" := IString "s3://bucket/truststore.pem"]>
                     (<["truststore_version" := IString "1"]> ∅))]]> ∅)
       ∅)
    (schema.mkAttributes (<["domain_name" := "api.example.com"]> ∅) ∅ ∅).

(** The endpoint configuration was REGIONAL, and the new configuration has
    no endpoint configuration block. *)
Definition endpointRemoved : schema.ResourceData :=
  schema.mkResourceData "api.example.com" false
    (schema.mkAttributes
       (<["domain_name" := "api.example.com"]> ∅)
       (<["endpoint_configuration" := [Some (<["types" := IList ["REGIONAL"]]> ∅)]]> ∅)
       ∅)
    (schema.mkAttributes (<["domain_name" := "api.example.com"]> ∅) ∅ ∅).

(** Only the tags changed. *)
Definition tagsChanged : schema.ResourceData :=
  schema.mkResourceData "api.example.com" false
    (schema.mkAttributes (<["domain_name" := "api.example.com"]> ∅) ∅
       (<["tags" := {["env" := "dev"]}]> (<["tags_all" := {["env" := "dev"]}]> ∅)))
    (schema.mkAttributes (<["domain_name" := "api.example.com"]> ∅) ∅
       (<["tags" := {["env" := "prod"]}]> (<["tags_all" := {["env" := "prod"]}]> ∅))).

(** The security policy and the endpoint type changed. *)
Definition policyChanged : schema.ResourceData :=
  schema.mkResourceData "api.example.com" false
    (schema.mkAttributes
       (<["domain_name" := "api.example.com"]> (<["security_policy" := "TLS_1_0"]> ∅))
       (<["endpoint_configuration" := [Some (<["types" := IList ["EDGE"]]> ∅)]]> ∅)
       ∅)
    (schema.mkAttributes
       (<["domain_name" := "api.example.com"]> (<["security_policy" := "TLS_1_2"]> ∅))
       (<["endpoint_configuration" := [Some (<["types" := IList ["REGIONAL"]]> ∅)]]> ∅)
       ∅).

End Examples.

(** ** Instances for the examples of the checks *)

Module CheckExamples.

(** A remote that knows the hosted zones, or the routing controls, whose
    ids it lists, and answers "not found" for every other id. *)
#[export] Instance knownZones : zone_checks.Lookups (list string) := {
  zone_checks.FindHostedZoneByID id zones :=
    if existsb (String.eqb id) zones then
      ((Some {| route53.HostedZone_ :=
                  Some {| route53.Id := Some ("/hostedzone/" ++ id);
                          route53.ZoneName := Some "example.com." |} |}, None), zones)
    else
      ((None, Some (NotFoundError (Some (AwsError "NoSuchHostedZone" "No hosted zone found"))
                      None 0)), zones);
  zone_checks.CleanZoneID id :=
    if String.prefix "/hostedzone/" id then substring 12 (String.length id - 12) id else id
}.

#[export] Instance knownRoutingControls
  : routing_control_checks.RecoveryControlConfig (list string) string := {
  routing_control_checks.DescribeRoutingControl id controls :=
    if existsb (String.eqb id) controls then ((Some id, None), controls)
    else ((None, Some (AwsError "ResourceNotFoundException" "Routing control not found")),
          controls)
}.

Definition zoneResource : terraform.ResourceState :=
  {| terraform.Type_ := "aws_route53_zone";
     terraform.Primary := Some {| terraform.ID := "Z1D633PJN98FT9" |} |}.

Definition routingControlResource : terraform.ResourceState :=
  {| terraform.Type_ := "aws_route53recoverycontrolconfig_routing_control";
     terraform.Primary :=
       Some {| terraform.ID :=
                 "arn:aws:route53-recovery-control::123456789012:controlpanel/abc/routingcontrol/def" |} |}.

(** The state of a test with a zone, a routing control and a VPC. *)
Definition exampleState : terraform.Resources :=
  [ ("aws_route53_zone.test", zoneResource);
    ("aws_route53recoverycontrolconfig_routing_control.test", routingControlResource);
    ("aws_vpc.test",
     {| terraform.Type_ := "aws_vpc";
        terraform.Primary := Some {| terraform.ID := "vpc-0a1b2c3d" |} |}) ].

(** The endpoint configuration was EDGE, and the new configuration has a
    block with an empty list of types. *)
Definition typesEmptied : schema.ResourceData :=
  schema.mkResourceData "api.example.com" false
    (schema.mkAttributes
       (<["domain_name" := "api.example.com"]> ∅)
       (<["endpoint_configuration" := [Some (<["types" := IList ["EDGE"]]> ∅)]]> ∅)
       ∅)
    (schema.mkAttributes
       (<["domain_name" := "api.example.com"]> ∅)
       (<["endpoint_configuration" := [Some (<["types" := IList []]> ∅)]]> ∅)
       ∅).

(** The update is accepted, and the domain name is then no longer found. *)
Definition vanished : World Examples.Script :=
  Examples.startWorld
    (Examples.mkScript [] (None, Some Examples.notFoundException) (None, None)
                       (Some (Examples.exampleDomain "UPDATING"), None) None).

End CheckExamples.

(** * Properties *)

(** Linear arithmetic over durations written with the units of [time]. *)
Ltac duration_lia :=
  unfold time.Minute, time.Second, time.Millisecond in *; lia.

(** ** Strings *)

Section StringFacts.

Lemma length_app (s t : string) :
  String.length (s ++ t) = (String.length s + String.length t)%nat.
Proof. induction s as [|c s IH]; simpl; [reflexivity | now rewrite IH]. Qed.

Lemma substring_zero_full (s : string) : substring 0 (String.length s) s = s.
Proof. induction s as [|c s IH]; simpl; [reflexivity | now rewrite IH]. Qed.

Lemma substring_app_prefix (s t : string) :
  substring 0 (String.length s) (s ++ t) = s.
Proof.
  induction s as [|c s IH]; simpl.
  - now destruct t.
  - now rewrite IH.
Qed.

Lemma substring_app_suffix (s t : string) :
  substring (String.length s) (String.length t) (s ++ t) = t.
Proof. induction s as [|c s IH]; simpl; [apply substring_zero_full | exact IH]. Qed.

Lemma substring_split (n : nat) (s : string) :
  (n <= String.length s)%nat →
  substring 0 n s ++ substring n (String.length s - n) s = s.
Proof.
  revert s; induction n as [|n IH]; intros s Hn.
  - rewrite Nat.sub_0_r, substring_zero_full. now destruct s.
  - destruct s as [|c s]; simpl in *; [lia |].
    change (String c (substring 0 n s ++ substring n (String.length s - n) s) = String c s).
    f_equal. apply IH. lia.
Qed.

Lemma HasSuffix_app (s suffix : string) : strings.HasSuffix (s ++ suffix) suffix = true.
Proof.
  unfold strings.HasSuffix. rewrite length_app.
  replace (String.length s + String.length suffix - String.length suffix)%nat
    with (String.length s) by lia.
  rewrite substring_app_suffix, String.eqb_refl, andb_true_r.
  apply Nat.leb_le. lia.
Qed.

Lemma HasSuffix_inv (s suffix : string) :
  strings.HasSuffix s suffix = true → ∃ p, s = p ++ suffix.
Proof.
  unfold strings.HasSuffix. intros Hs.
  apply andb_true_iff in Hs as [Hlen Heq].
  apply Nat.leb_le in Hlen. apply String.eqb_eq in Heq.
  set (n := (String.length s - String.length suffix)%nat) in *.
  assert (Hsuf : String.length suffix = (String.length s - n)%nat) by lia.
  exists (substring 0 n s).
  transitivity (substring 0 n s ++ substring n (String.length s - n) s).
  - symmetry. apply substring_split. lia.
  - f_equal. now rewrite <- Hsuf.
Qed.

Lemma TrimSuffix_app (s suffix : string) : strings.TrimSuffix (s ++ suffix) suffix = s.
Proof.
  unfold strings.TrimSuffix. rewrite HasSuffix_app, length_app.
  replace (String.length s + String.length suffix - String.length suffix)%nat
    with (String.length s) by lia.
  apply substring_app_prefix.
Qed.

Lemma TrimSuffix_none (s suffix : string) :
  (∀ p, s ≠ p ++ suffix) → strings.TrimSuffix s suffix = s.
Proof.
  intros Hno. unfold strings.TrimSuffix.
  destruct (strings.HasSuffix s suffix) eqn:Hs; [| reflexivity].
  apply HasSuffix_inv in Hs as [p Hp]. now destruct (Hno p).
Qed.

Lemma app_period_not_period (s : string) : s ≠ "" → String.eqb (s ++ ".") "." = false.
Proof.
  intros Hs. apply String.eqb_neq. intros Heq.
  apply (f_equal String.length) in Heq. rewrite length_app in Heq. simpl in Heq.
  destruct s; [congruence | simpl in Heq; lia].
Qed.

End StringFacts.

(** The table of [TestTrimTrailingPeriod]. *)
Example TestTrimTrailingPeriod :
  map tfroute53.TrimTrailingPeriod
    [ IString "example.com"; IString "example.com."; IString "www.example.com.";
      IString ""; IString "."; IStringPtr (aws.String "example.com");
      IStringPtr (aws.String "example.com."); IStringPtr None; IInt 42; INil ]
  = [ "example.com"; "example.com"; "www.example.com"; ""; "."; "example.com";
      "example.com"; ""; ""; "" ].
Proof. reflexivity. Qed.

(** C9. [TrimTrailingPeriod] is total.  On a string or a non-nil [*string]
    it removes exactly one trailing period from a string that ends in a
    period and is longer than one character, keeps ["."], and keeps every
    string that does not end in a period; on nil, a nil [*string] and every
    non-string input it answers the empty string. *)
Theorem TrimTrailingPeriod_spec :
  (∀ s, s ≠ "" →
     tfroute53.TrimTrailingPeriod (IString (s ++ ".")) = s
     ∧ tfroute53.TrimTrailingPeriod (IStringPtr (Some (s ++ "."))) = s)
  ∧ tfroute53.TrimTrailingPeriod (IString ".") = "."
  ∧ tfroute53.TrimTrailingPeriod (IStringPtr (Some ".")) = "."
  ∧ (∀ s, (∀ p, s ≠ p ++ ".") →
       tfroute53.TrimTrailingPeriod (IString s) = s
       ∧ tfroute53.TrimTrailingPeriod (IStringPtr (Some s)) = s)
  ∧ tfroute53.TrimTrailingPeriod INil = ""
  ∧ tfroute53.TrimTrailingPeriod (IStringPtr None) = ""
  ∧ (∀ v, (∀ s, v ≠ IString s) → (∀ p, v ≠ IStringPtr p) →
       tfroute53.TrimTrailingPeriod v = "").
Proof.
  repeat split.
  - unfold tfroute53.TrimTrailingPeriod.
    rewrite app_period_not_period by assumption. apply TrimSuffix_app.
  - unfold tfroute53.TrimTrailingPeriod, aws.StringValue.
    rewrite app_period_not_period by assumption. apply TrimSuffix_app.
  - unfold tfroute53.TrimTrailingPeriod.
    destruct (String.eqb s "."); [reflexivity | now apply TrimSuffix_none].
  - unfold tfroute53.TrimTrailingPeriod, aws.StringValue.
    destruct (String.eqb s "."); [reflexivity | now apply TrimSuffix_none].
  - intros v Hs Hp. destruct v; try reflexivity.
    + now destruct (Hs s).
    + now destruct (Hp p).
Qed.

Lemma TrimTrailingPeriod_spec_witness :
  tfroute53.TrimTrailingPeriod (IString ("example.com" ++ ".")) = "example.com"
  ∧ tfroute53.TrimTrailingPeriod (IString "example.com") = "example.com"
  ∧ tfroute53.TrimTrailingPeriod (IInt 42) = "".
Proof.
  destruct TrimTrailingPeriod_spec as (Htrim & _ & _ & Hkeep & _ & _ & Hother).
  split; [| split].
  - apply (Htrim "example.com"). discriminate.
  - apply (Hkeep "example.com").
    intros p Hp.
    assert (Hs : strings.HasSuffix "example.com" "." = true)
      by (rewrite Hp; apply HasSuffix_app).
    vm_compute in Hs. discriminate.
  - apply (Hother (IInt 42)); discriminate.
Defined.

(** ** Mutual TLS attribute mirroring *)

(** C8. A [MutualTlsAuthentication] object whose truststore URI and version
    are present and non-empty is flattened and expanded back to an input
    object with the same URI and version; [flattenMutualTLSAuthentication]
    maps nil to nil, and [expandMutualTLSAuthentication] maps the empty list
    and a list whose first element is nil to nil. *)
Theorem mutual_tls_flatten_expand :
  (∀ (uri version : string) (warnings : list (option string)),
     uri ≠ "" → version ≠ "" →
     expandMutualTLSAuthentication
       (flattenMutualTLSAuthentication
          (Some {| apigateway.MutualTlsAuthentication.TruststoreUri := Some uri;
                   apigateway.MutualTlsAuthentication.TruststoreVersion := Some version;
                   apigateway.MutualTlsAuthentication.TruststoreWarnings := warnings |}))
     = Some {| apigateway.MutualTlsAuthenticationInput.TruststoreUri := Some uri;
               apigateway.MutualTlsAuthenticationInput.TruststoreVersion := Some version |})
  ∧ flattenMutualTLSAuthentication None = []
  ∧ expandMutualTLSAuthentication [] = None
  ∧ (∀ rest, expandMutualTLSAuthentication (None :: rest) = None).
Proof.
  split; [| repeat split].
  intros uri version warnings Huri Hversion.
  unfold flattenMutualTLSAuthentication, expandMutualTLSAuthentication; simpl.
  rewrite lookup_insert_ne by discriminate.
  rewrite !lookup_insert_eq.
  apply String.eqb_neq in Huri, Hversion.
  now rewrite Huri, Hversion.
Qed.

Lemma mutual_tls_flatten_expand_witness :
  expandMutualTLSAuthentication
    (flattenMutualTLSAuthentication
       (Some {| apigateway.MutualTlsAuthentication.TruststoreUri := Some "s3://bucket/truststore.pem";
                apigateway.MutualTlsAuthentication.TruststoreVersion := Some "1";
                apigateway.MutualTlsAuthentication.TruststoreWarnings := [] |}))
  = Some {| apigateway.MutualTlsAuthenticationInput.TruststoreUri := Some "s3://bucket/truststore.pem";
            apigateway.MutualTlsAuthenticationInput.TruststoreVersion := Some "1" |}.
Proof.
  apply (proj1 mutual_tls_flatten_expand "s3://bucket/truststore.pem" "1" []); discriminate.
Defined.

(** ** Lookup, read, delete and status refresh *)

Section Lookup.
Context {W : Type} `{apigateway.APIGateway W} `{Formatting} `{Package}.

Lemma FindDomainName_run (domainName : string) (w : World W) :
  FindDomainName domainName w =
  let input := {| apigateway.GetDomainNameInput.DomainName := Some domainName |} in
  let (answer, r) := apigateway.GetDomainNameWithContext input (remote w) in
  (classify domainName answer, logged (apigateway.CallGetDomainName input) r w).
Proof.
  unfold FindDomainName, GetDomainName, invoke, bind, ret, classify, aws.String; simpl.
  destruct (apigateway.GetDomainNameWithContext _ (remote w)) as [[output err] r].
  destruct (tfawserr.ErrCodeEquals err _); [reflexivity |].
  destruct err, output; reflexivity.
Qed.

(** A lookup makes exactly one call, and takes no time. *)
Lemma FindDomainName_world (domainName : string) (w w' : World W) (r : found) :
  FindDomainName domainName w = (r, w') →
  now w' = now w
  ∧ TagsOut w' = TagsOut w
  ∧ calls w' = (calls w ++ [(now w, apigateway.CallGetDomainName
                  {| apigateway.GetDomainNameInput.DomainName := Some domainName |})])%list.
Proof.
  rewrite FindDomainName_run; simpl.
  destruct (apigateway.GetDomainNameWithContext _ (remote w)) as [answer r'].
  intros [= _ <-]. repeat split.
Qed.

(** The remote's [NotFoundException] and a nil output are both reported as
    "not found". *)
Lemma classify_not_found (domainName : string)
    (output : option apigateway.DomainName.t) (err : option error) :
  tfawserr.ErrCodeEquals err apigateway.ErrCodeNotFoundException = true
  ∨ (err = None ∧ output = None) →
  tfresource.NotFound (foundErr (classify domainName (output, err))) = true.
Proof.
  intros [Hcode | [-> ->]]; unfold classify.
  - now rewrite Hcode.
  - reflexivity.
Qed.

(** C1. Reading a resource that is not new: when the lookup reports "not
    found", the id is cleared and there is no diagnostic; for every other
    lookup error there is one error diagnostic that names the read and the
    resource id, and the resource data are unchanged. *)
Theorem resourceDomainNameRead_lookup_errors
    (meta : conns.AWSClient) (d : schema.ResourceData) (w w' : World W) (r : found) :
  schema.IsNewResource d = false →
  FindDomainName (schema.Id d) w = (r, w') →
  (tfresource.NotFound (foundErr r) = true →
     resourceDomainNameRead meta d w = ((schema.SetId "" d, []), w')
     ∧ schema.Id (schema.SetId "" d) = "")
  ∧ (∀ err, r = Failed err → tfresource.NotFound (Some err) = false →
       resourceDomainNameRead meta d w =
       ((d, oneError ("reading API Gateway Domain Name (" ++ schema.Id d ++ "): " ++ Error err)),
        w')).
Proof.
  intros Hnew Hfind. unfold resourceDomainNameRead, bind.
  rewrite Hfind, Hnew; simpl. split.
  - intros ->. split; reflexivity.
  - intros err -> Hnf. simpl in *. rewrite Hnf. reflexivity.
Qed.

(** C2. Deleting: a [NotFoundException] from [DeleteDomainName] is success
    with no diagnostics; every other error gives one error diagnostic that
    names the delete and the resource id; success gives no diagnostics. *)
Theorem resourceDomainNameDelete_outcomes
    (meta : conns.AWSClient) (d : schema.ResourceData) (w : World W)
    (err : option error) (r : W) :
  let input := {| apigateway.DeleteDomainNameInput.DomainName := Some (schema.Id d) |} in
  apigateway.DeleteDomainNameWithContext input (remote w) = (err, r) →
  let w' := logged (apigateway.CallDeleteDomainName input) r w in
  (tfawserr.ErrCodeEquals err apigateway.ErrCodeNotFoundException = true →
     resourceDomainNameDelete meta d w = ([], w'))
  ∧ (∀ e, err = Some e →
       tfawserr.ErrCodeEquals err apigateway.ErrCodeNotFoundException = false →
       resourceDomainNameDelete meta d w =
       (oneError ("deleting API Gateway Domain Name (" ++ schema.Id d ++ "): " ++ Error e), w'))
  ∧ (err = None → resourceDomainNameDelete meta d w = ([], w')).
Proof.
  intros input Hdel w'.
  unfold resourceDomainNameDelete, DeleteDomainName, invoke, bind, aws.String.
  fold input. rewrite Hdel. repeat split.
  - now intros ->.
  - intros e -> Hcode. now rewrite Hcode.
  - now intros ->.
Qed.

(** C5. The status refresh: a "not found" lookup gives no object, the empty
    status and no error, on which the poller goes on (up to its 20 not-found
    checks); every other lookup error is the error of the refresh, which
    ends the wait with that error; otherwise the refresh gives the domain
    name object with its [DomainNameStatus]. *)
Theorem statusDomainName_classifies
    (domainName : string) (w w' : World W) (r : found) :
  FindDomainName domainName w = (r, w') →
  (tfresource.NotFound (foundErr r) = true →
     statusDomainName domainName w = ((None, "", None), w')
     ∧ ∀ st, retry.notfoundTick st < 20 →
         ∃ st', retry.afterRefresh (retry.withDefaults (domainNameUpdatedConf domainName))
                  st (None, "", None) = retry.Continue st')
  ∧ (∀ e, r = Failed e → tfresource.NotFound (Some e) = false →
       statusDomainName domainName w = ((None, "", Some e), w')
       ∧ ∀ st, retry.afterRefresh (retry.withDefaults (domainNameUpdatedConf domainName))
                 st (None, "", Some e) = retry.Finished None (Some e))
  ∧ (∀ output, r = Found output →
       statusDomainName domainName w =
       ((Some output,
         aws.StringValue (apigateway.DomainName.DomainNameStatus output), None), w')).
Proof.
  intros Hfind. unfold statusDomainName, bind. rewrite Hfind.
  split; [| split].
  - intros Hnf. rewrite Hnf. split; [reflexivity |].
    intros st Htick. unfold retry.afterRefresh; simpl.
    destruct (20 <? retry.notfoundTick st + 1) eqn:Hlt; [apply Z.ltb_lt in Hlt; lia |].
    eexists; reflexivity.
  - intros e -> Hnf. simpl in *. rewrite Hnf. split; reflexivity.
  - intros output ->. reflexivity.
Qed.

End Lookup.

Section LookupWitnesses.
Import Examples.

Lemma resourceDomainNameRead_lookup_errors_witness :
  resourceDomainNameRead exampleMeta (exampleData false) gone
  = ((schema.SetId "" (exampleData false), []),
     snd (FindDomainName "api.example.com" gone))
  ∧ resourceDomainNameRead exampleMeta (exampleData false) busy
    = ((exampleData false,
        oneError "reading API Gateway Domain Name (api.example.com): TooManyRequestsException: Too Many Requests"),
       snd (FindDomainName "api.example.com" busy)).
Proof.
  split.
  - refine (proj1 (proj1 (resourceDomainNameRead_lookup_errors exampleMeta (exampleData false)
             gone
             (snd (FindDomainName "api.example.com" gone))
             (fst (FindDomainName "api.example.com" gone)) _ _) _));
      reflexivity.
  - refine (proj2 (resourceDomainNameRead_lookup_errors exampleMeta (exampleData false) busy
             (snd (FindDomainName "api.example.com" busy))
             (fst (FindDomainName "api.example.com" busy))
             _ _) throttled _ _);
      reflexivity.
Defined.

Lemma resourceDomainNameDelete_outcomes_witness :
  resourceDomainNameDelete exampleMeta (exampleData false) gone
  = ([], logged (apigateway.CallDeleteDomainName
                   {| apigateway.DeleteDomainNameInput.DomainName := Some "api.example.com" |})
                (remote gone) gone)
  ∧ resourceDomainNameDelete exampleMeta (exampleData false) busy
    = (oneError "deleting API Gateway Domain Name (api.example.com): TooManyRequestsException: Too Many Requests",
       logged (apigateway.CallDeleteDomainName
                 {| apigateway.DeleteDomainNameInput.DomainName := Some "api.example.com" |})
              (remote busy) busy).
Proof.
  split.
  - refine (proj1 (resourceDomainNameDelete_outcomes exampleMeta (exampleData false) gone
             (Some notFoundException) (remote gone) _) _);
      reflexivity.
  - refine (proj1 (proj2 (resourceDomainNameDelete_outcomes exampleMeta (exampleData false) busy
             (Some throttled) (remote busy) _)) throttled _ _);
      reflexivity.
Defined.

Lemma statusDomainName_classifies_witness :
  statusDomainName "api.example.com" gone
  = ((None, "", None), snd (FindDomainName "api.example.com" gone))
  ∧ statusDomainName "api.example.com" busy
    = ((None, "", Some throttled), snd (FindDomainName "api.example.com" busy)).
Proof.
  split.
  - refine (proj1 (proj1 (statusDomainName_classifies "api.example.com" gone
             (snd (FindDomainName "api.example.com" gone))
             (fst (FindDomainName "api.example.com" gone)) _) _));
      reflexivity.
  - refine (proj1 (proj1 (proj2 (statusDomainName_classifies "api.example.com" busy
             (snd (FindDomainName "api.example.com" busy))
             (fst (FindDomainName "api.example.com" busy)) _)) throttled _ _));
      reflexivity.
Defined.

End LookupWitnesses.

(** ** Create and read-back *)

Section Create.
Context {W : Type} `{apigateway.APIGateway W} `{Formatting} `{Package}.

Import schema.

Lemma GetString_SetString (key key' v : string) (d : ResourceData) :
  GetString (SetString key v d) key' = if decide (key = key') then v else GetString d key'.
Proof.
  unfold GetString, SetString, attrString; simpl.
  rewrite lookup_insert. now destruct (decide (key = key')).
Qed.

Lemma GetString_SetList (key key' : string) (v : tfList) (d : ResourceData) :
  GetString (SetList key v d) key' = GetString d key'.
Proof. reflexivity. Qed.

Lemma GetList_SetString (key key' v : string) (d : ResourceData) :
  GetList (SetString key v d) key' = GetList d key'.
Proof. reflexivity. Qed.

Lemma GetList_SetList (key key' : string) (v : tfList) (d : ResourceData) :
  GetList (SetList key v d) key' = if decide (key = key') then v else GetList d key'.
Proof.
  unfold GetList, SetList, attrList; simpl.
  rewrite lookup_insert. now destruct (decide (key = key')).
Qed.

(** A read whose lookup finds the domain name, and whose list values the
    schema accepts, stores the mirror of the remote object, keeps the id
    and reports nothing. *)
Lemma resourceDomainNameRead_found
    (meta : conns.AWSClient) (d : ResourceData) (w w' : World W)
    (dn : apigateway.DomainName.t) :
  FindDomainName (Id d) w = (Found dn, w') →
  SetListError "endpoint_configuration"
    (flattenEndpointConfiguration (apigateway.DomainName.EndpointConfiguration dn)) = None →
  SetListError "mutual_tls_authentication"
    (flattenMutualTLSAuthentication (apigateway.DomainName.MutualTlsAuthentication dn)) = None →
  ∃ d', resourceDomainNameRead meta d w
        = ((d', []), mkWorld (remote w') (now w') (calls w') (Some (apigateway.DomainName.Tags dn)))
        ∧ Id d' = Id d
        ∧ IsNewResource d' = IsNewResource d
        ∧ mirrored meta (Id d) dn d'.
Proof.
  intros Hfind Hec Hmtls. unfold resourceDomainNameRead, bind.
  rewrite Hfind; simpl. rewrite andb_false_r, Hec, Hmtls.
  eexists. split; [reflexivity |]. split; [| split].
  - now destruct (apigateway.DomainName.CertificateUploadDate dn).
  - now destruct (apigateway.DomainName.CertificateUploadDate dn).
  - unfold mirrored.
    repeat rewrite ?GetString_SetString, ?GetString_SetList, ?GetList_SetString,
      ?GetList_SetList; simpl.
    destruct (apigateway.DomainName.CertificateUploadDate dn);
      repeat rewrite ?GetString_SetString, ?GetString_SetList, ?GetList_SetString,
        ?GetList_SetList; simpl; repeat split.
Qed.

(** C7. When [CreateDomainName] succeeds, the id is set to the domain name
    of its response and the read is performed on that id; when that read
    finds the remote object, the stored attributes mirror it and there is no
    diagnostic.  When [CreateDomainName] fails, there is one error
    diagnostic that names the create and the domain name, and the resource
    data, the id included, are unchanged. *)
Theorem resourceDomainNameCreate_outcomes
    (meta : conns.AWSClient) (d : ResourceData) (w : World W)
    (output : option apigateway.DomainName.t) (err : option error) (r : W) :
  apigateway.CreateDomainNameWithContext (createDomainNameInput meta d) (remote w)
    = ((output, err), r) →
  let w1 := logged (apigateway.CallCreateDomainName (createDomainNameInput meta d)) r w in
  (∀ out, output = Some out → err = None →
     let d1 := SetId (aws.StringValue (apigateway.DomainName.DomainName out)) d in
     resourceDomainNameCreate meta d w
       = (let '((d2, diags), w2) := resourceDomainNameRead meta d1 w1 in
          ((d2, Returns diags), w2))
     ∧ Id d1 = aws.StringValue (apigateway.DomainName.DomainName out)
     ∧ ∀ dn w2,
         FindDomainName (Id d1) w1 = (Found dn, w2) →
         SetListError "endpoint_configuration"
           (flattenEndpointConfiguration (apigateway.DomainName.EndpointConfiguration dn))
           = None →
         SetListError "mutual_tls_authentication"
           (flattenMutualTLSAuthentication (apigateway.DomainName.MutualTlsAuthentication dn))
           = None →
         ∃ d2 w3,
           resourceDomainNameCreate meta d w = ((d2, Returns []), w3)
           ∧ Id d2 = aws.StringValue (apigateway.DomainName.DomainName out)
           ∧ mirrored meta (Id d2) dn d2)
  ∧ (∀ e, err = Some e →
       resourceDomainNameCreate meta d w
       = ((d, Returns (oneError ("creating API Gateway Domain Name ("
                                 ++ GetString d "domain_name" ++ "): " ++ Error e))),
          w1)).
Proof.
  intros Hcreate w1.
  assert (Hrun : ∀ out, output = Some out → err = None →
            resourceDomainNameCreate meta d w
            = (let '((d2, diags), w2) :=
                 resourceDomainNameRead meta
                   (SetId (aws.StringValue (apigateway.DomainName.DomainName out)) d) w1 in
               ((d2, Returns diags), w2))).
  { intros out -> ->.
    unfold resourceDomainNameCreate, CreateDomainName, invoke, bind.
    rewrite Hcreate. fold w1.
    destruct (resourceDomainNameRead meta _ w1) as [[d2 diags] w2]. reflexivity. }
  split.
  - intros out Hout Herr d1. split; [now apply Hrun |]. split; [reflexivity |].
    intros dn w2 Hfind Hec Hmtls.
    destruct (resourceDomainNameRead_found meta d1 w1 w2 dn Hfind Hec Hmtls)
      as (d2 & Hread & Hid & _ & Hmirror).
    exists d2. eexists. rewrite (Hrun out Hout Herr). fold d1. rewrite Hread.
    split; [reflexivity |]. rewrite Hid. split; [reflexivity | exact Hmirror].
  - intros e ->.
    unfold resourceDomainNameCreate, CreateDomainName, invoke, bind.
    rewrite Hcreate. reflexivity.
Qed.

End Create.

Section CreateWitness.
Import Examples.

Lemma resourceDomainNameCreate_outcomes_witness :
  (∃ d2 w3,
     resourceDomainNameCreate exampleMeta (exampleData true) created = ((d2, Returns []), w3)
     ∧ schema.Id d2 = "api.example.com"
     ∧ mirrored exampleMeta (schema.Id d2) (exampleDomain "AVAILABLE") d2)
  ∧ resourceDomainNameCreate exampleMeta (exampleData true) busy
    = ((exampleData true,
        Returns (oneError "creating API Gateway Domain Name (api.example.com): TooManyRequestsException: Too Many Requests")),
       logged (apigateway.CallCreateDomainName
                 (createDomainNameInput exampleMeta (exampleData true)))
              (remote busy) busy).
Proof.
  split.
  - refine (proj2 (proj2 (proj1 (resourceDomainNameCreate_outcomes exampleMeta (exampleData true)
              created (Some (exampleDomain "AVAILABLE")) None (remote created) _)
              (exampleDomain "AVAILABLE") _ _))
              (exampleDomain "AVAILABLE")
              (snd (FindDomainName "api.example.com"
                      (logged (apigateway.CallCreateDomainName
                                 (createDomainNameInput exampleMeta (exampleData true)))
                              (remote created) created)))
              _ _ _);
      reflexivity.
  - refine (proj2 (resourceDomainNameCreate_outcomes exampleMeta (exampleData true) busy
              None (Some throttled) (remote busy) _) throttled _);
      reflexivity.
Defined.

End CreateWitness.

(** ** Random records in a zone *)

Section Zone.
Context {W : Type} `{tfroute53.Helpers W}.

Lemma randomChanges_length (n : nat) (zone : route53.GetHostedZoneOutput)
    (hostedZone : route53.HostedZone) (name : string)
    (changes : list route53.Change) (w : W) :
  route53.HostedZone_ zone = Some hostedZone →
  route53.ZoneName hostedZone = Some name →
  ∃ cs w', route53_test.randomChanges n zone changes w = (Returns cs, w')
           ∧ List.length cs = (List.length changes + n)%nat.
Proof.
  intros Hzone Hname. revert changes w.
  induction n as [|n IH]; intros changes w; simpl.
  - exists changes, w. split; [reflexivity | lia].
  - destruct (tfroute53.RandInt w) as [r w1].
    rewrite Hzone. destruct hostedZone as [id zname]; simpl in Hname; subst zname.
    match goal with
    | |- context [route53_test.randomChanges n zone ?grown w1] =>
        destruct (IH grown w1) as (cs & w' & Hrun & Hlen)
    end.
    exists cs, w'. split; [exact Hrun |].
    rewrite Hlen, List.length_app; simpl. lia.
Qed.

(** C3, as the code has it.  For a count above 100 the helper returns the
    error "Route53 API only allows 100 record sets in a single batch" and
    sends nothing.  For a count of at most 100, on a zone with a name, it
    sends exactly one request, which carries exactly that many changes. *)
Theorem testAccCreateRandomRecordsInZoneID_batch_limit
    (zone : route53.GetHostedZoneOutput) (recordsCount : Z)
    (w : route53_test.TestWorld W) :
  (100 < recordsCount →
     route53_test.testAccCreateRandomRecordsInZoneID zone recordsCount w
     = (Returns (Some (PlainError "Route53 API only allows 100 record sets in a single batch")),
        w))
  ∧ (recordsCount <= 100 →
     ∀ hostedZone name,
       route53.HostedZone_ zone = Some hostedZone →
       route53.ZoneName hostedZone = Some name →
       ∃ res z req,
         route53_test.testAccCreateRandomRecordsInZoneID zone recordsCount w
         = (res, route53_test.mkTestWorld z (route53_test.requests w ++ [req]))
         ∧ List.length (changesOf req) = Z.to_nat recordsCount
         ∧ (List.length (changesOf req) <= 100)%nat).
Proof.
  unfold route53_test.testAccCreateRandomRecordsInZoneID. split.
  - intros Hgt. apply Z.ltb_lt in Hgt. now rewrite Hgt.
  - intros Hle hostedZone name Hzone Hname.
    destruct (100 <? recordsCount) eqn:Hlt; [apply Z.ltb_lt in Hlt; lia |].
    destruct (randomChanges_length (Z.to_nat recordsCount) zone hostedZone name []
                (route53_test.zoneState w) Hzone Hname) as (cs & z & Hrun & Hlen).
    rewrite Hrun, Hzone. simpl in Hlen.
    match goal with
    | |- context [tfroute53.ChangeResourceRecordSets ?req z] =>
        destruct (tfroute53.ChangeResourceRecordSets req z) as [[info err] z1] eqn:Hcall
    end.
    assert (Hcount : (List.length cs <= 100)%nat) by lia.
    destruct err as [e|].
    + eexists _, _, _. split; [reflexivity |]. simpl. split; [exact Hlen | exact Hcount].
    + destruct info as [[[id|]]|].
      * destruct (tfroute53.WaitForRecordSetToSync _ z1) as [e z2].
        eexists _, _, _. split; [reflexivity |]. simpl. split; [exact Hlen | exact Hcount].
      * eexists _, _, _. split; [reflexivity |]. simpl. split; [exact Hlen | exact Hcount].
      * eexists _, _, _. split; [reflexivity |]. simpl. split; [exact Hlen | exact Hcount].
Qed.

End Zone.

Section ZoneExamples.
Import Examples.

(** The zone tests add more than 100 records by calling the helper twice,
    with 100 and with 5. *)
Example TestAccRoute53Zone_forceDestroy_records :
  let (first, w1) := route53_test.testAccCreateRandomRecordsInZoneID exampleZone 100 zoneWorld in
  let (second, w2) := route53_test.testAccCreateRandomRecordsInZoneID exampleZone 5 w1 in
  first = Returns None ∧ second = Returns None
  ∧ map (fun req => List.length (changesOf req)) (route53_test.requests w2) = [100; 5]%nat.
Proof. vm_compute. repeat split. Qed.

(** C3, as the specification states it, fails: asked for 101 changes, the
    helper sends none. *)
Lemma testAccCreateRandomRecordsInZoneID_does_not_split :
  ¬ splitsIntoBatches exampleZone 101 zoneWorld.
Proof.
  intros (batches & Hreqs & _ & Hsent).
  vm_compute in Hreqs. destruct batches; [| discriminate].
  vm_compute in Hsent. discriminate.
Qed.

Lemma testAccCreateRandomRecordsInZoneID_batch_limit_witness :
  route53_test.testAccCreateRandomRecordsInZoneID exampleZone 101 zoneWorld
  = (Returns (Some (PlainError "Route53 API only allows 100 record sets in a single batch")),
     zoneWorld)
  ∧ ∃ res z req,
      route53_test.testAccCreateRandomRecordsInZoneID exampleZone 5 zoneWorld
      = (res, route53_test.mkTestWorld z (route53_test.requests zoneWorld ++ [req]))
      ∧ List.length (changesOf req) = Z.to_nat 5
      ∧ (List.length (changesOf req) <= 100)%nat.
Proof.
  split.
  - apply (proj1 (testAccCreateRandomRecordsInZoneID_batch_limit exampleZone 101 zoneWorld)).
    lia.
  - refine (proj2 (testAccCreateRandomRecordsInZoneID_batch_limit exampleZone 5 zoneWorld)
              _ _ "example.com." _ _); [lia | reflexivity | reflexivity].
Defined.

End ZoneExamples.

(** ** Update: patch operations *)

Section Patches.
Context `{Formatting} `{Package}.

Import schema.

#[local] Arguments HasChange : simpl never.

(** A change inside a nested block is a change of the list attribute. *)
Lemma HasChange_block_attr (d : ResourceData) (key : string) (idx : nat) (field : string) :
  HasChange d (BlockField key idx field) = true → HasChange d (Attr key) = true.
Proof.
  unfold HasChange, attrBlockString, attrBlockList. intros Hblock.
  destruct (decide (attrList (prior d) key = attrList (current d) key)) as [Heq | Hne].
  - rewrite Heq in Hblock.
    rewrite !bool_decide_eq_true_2 in Hblock by reflexivity. discriminate.
  - rewrite (bool_decide_eq_false_2 _ Hne). simpl. now rewrite orb_true_r.
Qed.

Lemma stringOperation_changeOperation (d : ResourceData) (key path : string) :
  stringOperation d key path = changeOperation d (Attr key, path).
Proof. reflexivity. Qed.

Lemma endpointOperations_kept (d : ResourceData) (e : list apigateway.PatchOperation) :
  endpointOperations d = Returns e →
  ¬ removesEndpointConfiguration d →
  e = changeOperation d
        (BlockField "endpoint_configuration" 0 "types", "/endpointConfiguration/types/0").
Proof.
  unfold endpointOperations, removesEndpointConfiguration, changeOperation, GetOkList.
  simpl fst; simpl snd.
  destruct (HasChange d (BlockField "endpoint_configuration" 0 "types")); [| congruence].
  intros He Hkept. unfold plannedValue, attrBlockList.
  change (attrList (current d) "endpoint_configuration")
    with (GetList d "endpoint_configuration").
  destruct (GetList d "endpoint_configuration") as [|[m|] rest]; simpl in *.
  - now destruct Hkept.
  - destruct (m !! "types") as [[| | | |[|t types]]|]; congruence.
  - discriminate.
Qed.

Lemma endpointOperations_removed (d : ResourceData) :
  removesEndpointConfiguration d → endpointOperations d = Returns [].
Proof.
  intros [Hchange Hempty]. unfold endpointOperations, GetOkList.
  now rewrite Hchange, Hempty.
Qed.

Lemma mutualTLSOperations_kept (d : ResourceData) (m : list apigateway.PatchOperation) :
  mutualTLSOperations d = Returns m →
  ¬ disablesMutualTLS d →
  m = (changeOperation d
         (BlockField "mutual_tls_authentication" 0 "truststore_uri",
          "/mutualTlsAuthentication/truststoreUri")
       ++ changeOperation d
            (BlockField "mutual_tls_authentication" 0 "truststore_version",
             "/mutualTlsAuthentication/truststoreVersion"))%list.
Proof.
  unfold mutualTLSOperations, disablesMutualTLS, changeOperation, GetOkList.
  simpl fst; simpl snd.
  destruct (HasChange d (Attr "mutual_tls_authentication")) eqn:Hchange.
  - intros Hm Hkept. unfold plannedValue, attrBlockList, attrBlockString.
    change (attrList (current d) "mutual_tls_authentication")
      with (GetList d "mutual_tls_authentication").
    destruct (GetList d "mutual_tls_authentication") as [|[tfMap|] rest]; simpl in *.
    + destruct Hkept. now split; [| left].
    + destruct (HasChange d (BlockField "mutual_tls_authentication" 0 "truststore_uri")),
        (HasChange d (BlockField "mutual_tls_authentication" 0 "truststore_version"));
        destruct (tfMap !! "truststore_uri") as [[]|];
        destruct (tfMap !! "truststore_version") as [[]|];
        congruence.
    + destruct Hkept. split; [reflexivity | right; now exists rest].
  - intros [= <-] _.
    destruct (HasChange d (BlockField "mutual_tls_authentication" 0 "truststore_uri")) eqn:Huri;
      [apply HasChange_block_attr in Huri; congruence |].
    destruct (HasChange d (BlockField "mutual_tls_authentication" 0 "truststore_version"))
      eqn:Hversion;
      [apply HasChange_block_attr in Hversion; congruence |].
    reflexivity.
Qed.

Lemma mutualTLSOperations_disabled (d : ResourceData) :
  disablesMutualTLS d →
  mutualTLSOperations d
  = Returns [replaceOperation "/mutualTlsAuthentication/truststoreUri" ""].
Proof.
  intros [Hchange Hgone]. unfold mutualTLSOperations, GetOkList. rewrite Hchange.
  destruct Hgone as [-> | [rest ->]]; reflexivity.
Qed.

(** The paths of the operations other than the endpoint one. *)
Lemma stringOperation_path (d : ResourceData) (key path : string) :
  Forall (fun op => apigateway.Path op = Some path) (stringOperation d key path).
Proof.
  unfold stringOperation. destruct (HasChange d (Attr key)); repeat constructor.
Qed.

Lemma mutualTLSOperations_paths (d : ResourceData) (m : list apigateway.PatchOperation) :
  mutualTLSOperations d = Returns m →
  Forall (fun op => apigateway.Path op = Some "/mutualTlsAuthentication/truststoreUri"
                    ∨ apigateway.Path op = Some "/mutualTlsAuthentication/truststoreVersion") m.
Proof.
  assert (Hforall : ∀ l : list apigateway.PatchOperation,
            Forall (fun op => apigateway.Path op = Some "/mutualTlsAuthentication/truststoreUri"
                      ∨ apigateway.Path op = Some "/mutualTlsAuthentication/truststoreVersion") l
            ↔ forallb (fun op =>
                 bool_decide (apigateway.Path op = Some "/mutualTlsAuthentication/truststoreUri")
                 || bool_decide (apigateway.Path op
                                 = Some "/mutualTlsAuthentication/truststoreVersion")) l = true).
  { intros l. rewrite forallb_forall, Forall_forall. split; intros Hl op Hop.
    - apply list_elem_of_In, Hl in Hop.
      destruct Hop as [-> | ->]; reflexivity.
    - apply list_elem_of_In, Hl, orb_true_iff in Hop.
      destruct Hop as [Hop | Hop]; apply bool_decide_eq_true in Hop; auto. }
  unfold mutualTLSOperations, GetOkList.
  destruct (HasChange d (Attr "mutual_tls_authentication")); [| intros [= <-]; constructor].
  destruct (GetList d "mutual_tls_authentication") as [|[tfMap|] rest]; simpl.
  - intros [= <-]. now apply Hforall.
  - destruct (HasChange d (BlockField "mutual_tls_authentication" 0 "truststore_uri")),
      (HasChange d (BlockField "mutual_tls_authentication" 0 "truststore_version"));
      destruct (tfMap !! "truststore_uri") as [[]|];
      destruct (tfMap !! "truststore_version") as [[]|];
      intros [= <-]; now apply Hforall.
  - intros [= <-]. now apply Hforall.
Qed.

End Patches.

(** ** The wait for an update *)

Section Wait.
Context {W : Type} `{apigateway.APIGateway W}.

#[local] Abbreviation conf name := (retry.withDefaults (domainNameUpdatedConf name)).

#[local] Arguments retry.nextWait : simpl never.

(** More fuel does not change a wait that has ended. *)
Lemma refreshLoop_more_fuel {R : Type} (conf : @retry.StateChangeConf W R) (fuel : nat) :
  ∀ (fuel' : nat) (elapsed : Z) (st : retry.loopState) (w w' : World W)
    (res : option R * option error),
    (fuel <= fuel')%nat →
    retry.refreshLoop fuel conf elapsed st w = (Some res, w') →
    retry.refreshLoop fuel' conf elapsed st w = (Some res, w').
Proof.
  induction fuel as [|fuel IH]; intros fuel' elapsed st w w' res Hle Hrun.
  - discriminate.
  - destruct fuel' as [|fuel']; [lia |].
    cbn [retry.refreshLoop] in *.
    destruct (retry.Timeout conf <=? elapsed + retry.wait st); [exact Hrun |].
    unfold bind in *.
    destruct (sleep (retry.wait st) w) as [[] w1].
    destruct (retry.Refresh conf w1) as [r w2].
    destruct (retry.afterRefresh conf _ r) as [result err | st']; [exact Hrun |].
    apply IH; [lia | exact Hrun].
Qed.

Lemma statusDomainName_run (domainName : string) (w : World W) :
  statusDomainName domainName w =
  let input := {| apigateway.GetDomainNameInput.DomainName := Some domainName |} in
  let (answer, r) := apigateway.GetDomainNameWithContext input (remote w) in
  (refreshOf (classify domainName answer), logged (apigateway.CallGetDomainName input) r w).
Proof.
  unfold statusDomainName, bind. rewrite FindDomainName_run; simpl.
  destruct (apigateway.GetDomainNameWithContext _ (remote w)) as [answer r].
  unfold refreshOf. destruct (tfresource.NotFound _); [reflexivity |].
  destruct (classify domainName answer); reflexivity.
Qed.

Lemma nextWait_domainName (domainName : string) (wait targetOcc : Z) :
  retry.nextWait (conf domainName) wait targetOcc = 10 * time.Second.
Proof.
  unfold retry.nextWait; simpl.
  destruct (targetOcc =? 0);
    repeat match goal with
           | |- context [?a <? ?b] => destruct (Z.ltb_spec a b)
           end; lia.
Qed.

(** One round of the loop of [waitDomainNameUpdated], by the refreshed
    status. *)
Lemma afterRefresh_domainName (domainName : string) (st : retry.loopState)
    (res : option apigateway.DomainName.t) (status : string) (err : option error) :
  retry.targetOccurence st = 0 →
  retry.afterRefresh (conf domainName) st (res, status, err) =
  match err, res with
  | Some e, _ => retry.Finished res err
  | None, None =>
      if 20 <? retry.notfoundTick st + 1 then
        retry.Finished None
          (Some (NotFoundError None None (Z.to_nat (retry.notfoundTick st + 1))))
      else
        retry.Continue
          (retry.mkLoop (10 * time.Second) (retry.notfoundTick st + 1) 0 status)
  | None, Some o =>
      if String.eqb status apigateway.DomainNameStatusAvailable then
        retry.Finished res None
      else if String.eqb status apigateway.DomainNameStatusUpdating then
        retry.Continue (retry.mkLoop (10 * time.Second) 0 0 status)
      else
        retry.Finished res
          (Some (UnexpectedStateError None status [apigateway.DomainNameStatusAvailable]))
  end.
Proof.
  intros Hocc. unfold retry.afterRefresh.
  destruct err as [e|]; [reflexivity |].
  destruct res as [o|].
  - cbn [retry.withDefaults retry.Target retry.Pending retry.ContinuousTargetOccurence
         domainNameUpdatedConf retry.scanTarget existsb].
    rewrite Hocc.
    destruct (String.eqb status apigateway.DomainNameStatusAvailable) eqn:Havailable.
    + reflexivity.
    + cbn. rewrite orb_false_r.
      destruct (String.eqb status apigateway.DomainNameStatusUpdating) eqn:Hupdating.
      * cbn. now rewrite nextWait_domainName.
      * reflexivity.
  - cbn [retry.withDefaults retry.Target retry.NotFoundChecks domainNameUpdatedConf
         List.length Nat.eqb Z.eqb].
    destruct (20 <? retry.notfoundTick st + 1); [reflexivity |].
    now rewrite nextWait_domainName, Hocc.
Qed.

Lemma refreshLoop_unfold (fuel : nat) (domainName : string) (elapsed : Z)
    (st : retry.loopState) (w : World W) :
  retry.refreshLoop (S fuel) (conf domainName) elapsed st w =
  if 15 * time.Minute <=? elapsed + retry.wait st then
    (Some (None, Some (TimeoutError None (retry.lastState st) (15 * time.Minute)
                         [apigateway.DomainNameStatusAvailable])),
     later (15 * time.Minute - elapsed) w)
  else
    let st1 := retry.mkLoop (if retry.wait st =? 0 then 100 * time.Millisecond
                             else retry.wait st)
                 (retry.notfoundTick st) (retry.targetOccurence st) (retry.lastState st) in
    let (r, w2) := statusDomainName domainName (later (retry.wait st) w) in
    match retry.afterRefresh (conf domainName) st1 r with
    | retry.Finished res err => (Some (res, err), w2)
    | retry.Continue st' =>
        retry.refreshLoop fuel (conf domainName) (elapsed + retry.wait st) st' w2
    end.
Proof.
  cbn [retry.refreshLoop]. 
  change (retry.Timeout (conf domainName)) with (15 * time.Minute).
  destruct (15 * time.Minute <=? elapsed + retry.wait st); [reflexivity |].
  unfold bind, sleep.
  change (retry.Refresh (conf domainName)) with (statusDomainName domainName).
  destruct (statusDomainName domainName (later (retry.wait st) w)) as [r w2].
  destruct (retry.afterRefresh _ _ r); reflexivity.
Qed.



Lemma WaitForStateContext_domainName (fuel : nat) (domainName : string) (w : World W) :
  retry.WaitForStateContext fuel (domainNameUpdatedConf domainName) w
  = retry.refreshLoop fuel (conf domainName) (1 * time.Minute)
      (retry.mkLoop 0 0 0 "") (later (1 * time.Minute) w).
Proof. reflexivity. Qed.

Lemma waitDomainNameUpdated_unfold (fuel : nat) (domainName : string) (w : World W) :
  waitDomainNameUpdated fuel domainName w =
  let (r, w') := retry.refreshLoop fuel (conf domainName) (1 * time.Minute)
                   (retry.mkLoop 0 0 0 "") (later (1 * time.Minute) w) in
  (match r with
   | None => None
   | Some (Some output, err) =>
       Some (Some output,
             tfresource.SetLastError err
               (PlainError (aws.StringValue
                              (apigateway.DomainName.DomainNameStatusMessage output))))
   | Some (None, err) => Some (None, err)
   end, w').
Proof.
  unfold waitDomainNameUpdated, bind. rewrite WaitForStateContext_domainName.
  destruct (retry.refreshLoop _ _ _ _ _) as [[[[o|] err]|] w']; reflexivity.
Qed.

Lemma pollSchedule_cons (first : Z) (domainName : string) (n : nat) :
  pollSchedule first domainName (S n)
  = (first, apigateway.CallGetDomainName
              {| apigateway.GetDomainNameInput.DomainName := Some domainName |})
    :: pollSchedule (first + 10 * time.Second) domainName n.
Proof.
  unfold pollSchedule. cbn [seq map]. f_equal.
  - f_equal. lia.
  - rewrite <- seq_shift, map_map. apply map_ext. intros k. f_equal. lia.
Qed.

(** How the loop ends when it ends. *)
Lemma refreshLoop_outcome (domainName : string) (fuel : nat) :
  ∀ (elapsed : Z) (st : retry.loopState) (w w' : World W)
    (res : option apigateway.DomainName.t) (err : option error),
    retry.targetOccurence st = 0 →
    retry.notfoundTick st <= 20 →
    retry.lastState st = "" ∨ retry.lastState st = apigateway.DomainNameStatusUpdating →
    retry.refreshLoop fuel (conf domainName) elapsed st w = (Some (res, err), w') →
    match res with
    | Some output =>
        waitOutcome
          (res, tfresource.SetLastError err
                  (PlainError (aws.StringValue
                                 (apigateway.DomainName.DomainNameStatusMessage output))))
    | None => waitOutcome (res, err)
    end.
Proof.
  induction fuel as [|fuel IH]; intros elapsed st w w' res err Hocc Htick Hlast Hrun.
  - discriminate.
  - rewrite refreshLoop_unfold in Hrun.
    destruct (15 * time.Minute <=? elapsed + retry.wait st).
    + injection Hrun as <- <- _. now constructor.
    + cbv zeta in Hrun. rewrite statusDomainName_run in Hrun. cbv zeta in Hrun.
      destruct (apigateway.GetDomainNameWithContext _ (remote (later (retry.wait st) w)))
        as [answer r].
      destruct (refreshOf (classify domainName answer)) as [[res0 status] err0] eqn:Hrefresh.
      rewrite afterRefresh_domainName in Hrun by exact Hocc.
      cbn [retry.notfoundTick] in Hrun.
      unfold refreshOf in Hrefresh.
      destruct (tfresource.NotFound (foundErr (classify domainName answer))) eqn:Hnf.
      * injection Hrefresh as <- <- <-.
        destruct (Z.ltb_spec 20 (retry.notfoundTick st + 1)).
        -- injection Hrun as <- <- _.
           replace (retry.notfoundTick st + 1) with 21 by lia. constructor.
        -- eapply IH; [| | | exact Hrun]; cbn; [reflexivity | lia | now left].
      * destruct (classify domainName answer) as [o | e].
        -- injection Hrefresh as <- <- <-.
           destruct (String.eqb _ apigateway.DomainNameStatusAvailable) eqn:Havailable.
           ++ injection Hrun as <- <- _. constructor. now apply String.eqb_eq.
           ++ destruct (String.eqb _ apigateway.DomainNameStatusUpdating) eqn:Hupdating.
              ** apply String.eqb_eq in Hupdating.
                 eapply IH; [| | | exact Hrun]; cbn; [reflexivity | lia | now right].
              ** injection Hrun as <- <- _. cbn.
                 constructor; now apply String.eqb_neq.
        -- injection Hrefresh as <- <- <-. injection Hrun as <- <- _.
           now constructor.
Qed.




End Wait.

Section WaitWitness.
Import Examples.



(** The wait on the example worlds: available after two polls of UPDATING,
    at 80 seconds; the timeout after 84 polls, at 15 minutes. *)
Example waitDomainNameUpdated_settling :
  let (r, w) := waitDomainNameUpdated 85 "api.example.com" settling in
  r = Some (Some (exampleDomain "AVAILABLE"), None)
  ∧ now w = 80 * time.Second
  ∧ map fst (calls w) = [60 * time.Second; 70 * time.Second; 80 * time.Second].
Proof. vm_compute. repeat split. Qed.

Example waitDomainNameUpdated_stuck :
  let (r, w) := waitDomainNameUpdated 85 "api.example.com" stuck in
  r = Some (None, Some (TimeoutError None "UPDATING" (15 * time.Minute) ["AVAILABLE"]))
  ∧ now w = 15 * time.Minute
  ∧ List.length (calls w) = 84%nat
  ∧ last (map fst (calls w)) = Some (890 * time.Second).
Proof. vm_compute. repeat split. Qed.

(** The fuel is needed: 84 rounds do not reach the timeout. *)
Example waitDomainNameUpdated_fuel :
  fst (waitDomainNameUpdated 84 "api.example.com" stuck) = None.
Proof. vm_compute. reflexivity. Qed.

End WaitWitness.

(** ** Update: the calls it makes *)

Section UpdateFlow.
Context {W : Type} `{apigateway.APIGateway W} `{Formatting} `{Package}.

Import schema.

#[local] Abbreviation conf name := (retry.withDefaults (domainNameUpdatedConf name)).

(** A read makes one call, the lookup of the id, and takes no time. *)
Lemma resourceDomainNameRead_world (meta : conns.AWSClient) (d : ResourceData) (w : World W) :
  now (snd (resourceDomainNameRead meta d w)) = now w
  ∧ calls (snd (resourceDomainNameRead meta d w))
    = (calls w ++ [(now w, apigateway.CallGetDomainName
                     {| apigateway.GetDomainNameInput.DomainName := Some (Id d) |})])%list.
Proof.
  unfold resourceDomainNameRead, bind.
  destruct (FindDomainName (Id d) w) as [r w'] eqn:Hfind.
  apply FindDomainName_world in Hfind as (Hnow & _ & Hcalls).
  destruct (negb (IsNewResource d) && tfresource.NotFound (foundErr r)); [now split |].
  destruct r as [dn | err]; [| now split].
  destruct (SetListError "endpoint_configuration" _); [now split |].
  destruct (SetListError "mutual_tls_authentication" _); now split.
Qed.

(** The wait only adds calls to the log, whatever the fuel. *)
Lemma refreshLoop_calls (domainName : string) (fuel : nat) :
  ∀ (elapsed : Z) (st : retry.loopState) (w : World W),
    ∃ new, calls (snd (retry.refreshLoop fuel (conf domainName) elapsed st w))
           = (calls w ++ new)%list.
Proof.
  induction fuel as [|fuel IH]; intros elapsed st w.
  - exists []. simpl. now rewrite app_nil_r.
  - rewrite refreshLoop_unfold.
    destruct (15 * time.Minute <=? elapsed + retry.wait st).
    + exists []. simpl. now rewrite app_nil_r.
    + cbv zeta. rewrite statusDomainName_run. cbv zeta.
      destruct (apigateway.GetDomainNameWithContext _ _) as [answer r].
      destruct (retry.afterRefresh _ _ _) as [res err | st'].
      * eexists. reflexivity.
      * match goal with
        | |- context [retry.refreshLoop fuel _ ?e st' ?w2] =>
            destruct (IH e st' w2) as [new Hnew]
        end.
        rewrite Hnew. simpl. rewrite <- app_assoc. eexists. reflexivity.
Qed.

Lemma waitDomainNameUpdated_calls (fuel : nat) (domainName : string) (w : World W) :
  ∃ new, calls (snd (waitDomainNameUpdated fuel domainName w)) = (calls w ++ new)%list.
Proof.
  rewrite waitDomainNameUpdated_unfold.
  destruct (refreshLoop_calls domainName fuel (1 * time.Minute) (retry.mkLoop 0 0 0 "")
              (later (1 * time.Minute) w)) as [new Hnew].
  destruct (retry.refreshLoop _ _ _ _ _) as [r w']. exists new. exact Hnew.
Qed.

(** The update that has changes to patch, by the answer of
    [UpdateDomainName] and the result of the wait. *)
Lemma resourceDomainNameUpdate_run (fuel : nat) (meta : conns.AWSClient)
    (d : ResourceData) (w : World W) (operations : list apigateway.PatchOperation) :
  HasChangesExcept domainNameSchema d ["tags"; "tags_all"] = true →
  patchOperations d = Returns operations →
  resourceDomainNameUpdate fuel meta d w =
  let input := {| apigateway.UpdateDomainNameInput.DomainName := Some (Id d);
                  apigateway.UpdateDomainNameInput.PatchOperations := operations |} in
  let (answer, r) := apigateway.UpdateDomainNameWithContext input (remote w) in
  let w1 := logged (apigateway.CallUpdateDomainName input) r w in
  match snd answer with
  | Some err =>
      (Some (d, Returns (oneError ("updating API Gateway Domain Name (" ++ Id d ++ "): "
                                   ++ Error err))), w1)
  | None =>
      let (waited, w2) := waitDomainNameUpdated fuel (Id d) w1 in
      match waited with
      | None => (None, w2)
      | Some (_, Some err) =>
          (Some (d, Returns (oneError ("waiting for API Gateway Domain Name (" ++ Id d
                                       ++ ") update: " ++ Error err))), w2)
      | Some (_, None) =>
          let '((d', diags), w3) := resourceDomainNameRead meta d w2 in
          (Some (d', Returns diags), w3)
      end
  end.
Proof.
  intros Hchanges Hops. unfold resourceDomainNameUpdate.
  rewrite Hchanges, Hops. unfold bind at 1. unfold UpdateDomainName, invoke, aws.String.
  cbv zeta.
  destruct (apigateway.UpdateDomainNameWithContext _ (remote w)) as [[out err] r].
  cbn [snd]. destruct err as [e|]; [reflexivity |].
  unfold bind.
  destruct (waitDomainNameUpdated fuel (Id d) _) as [[[o [e|]]|] w2]; try reflexivity.
  destruct (resourceDomainNameRead meta d w2) as [[d' diags] w3]. reflexivity.
Qed.

(** The first call of such an update is [UpdateDomainName] with the patch
    operations. *)
Lemma resourceDomainNameUpdate_request (fuel : nat) (meta : conns.AWSClient)
    (d : ResourceData) (w : World W) (operations : list apigateway.PatchOperation) :
  HasChangesExcept domainNameSchema d ["tags"; "tags_all"] = true →
  patchOperations d = Returns operations →
  ∃ rest,
    calls (snd (resourceDomainNameUpdate fuel meta d w))
    = (calls w
       ++ (now w, apigateway.CallUpdateDomainName
                    {| apigateway.UpdateDomainNameInput.DomainName := Some (Id d);
                       apigateway.UpdateDomainNameInput.PatchOperations := operations |})
          :: rest)%list.
Proof.
  intros Hchanges Hops.
  rewrite (resourceDomainNameUpdate_run fuel meta d w operations Hchanges Hops). cbv zeta.
  destruct (apigateway.UpdateDomainNameWithContext _ (remote w)) as [[out err] r].
  cbn [snd]. set (w1 := logged _ r w).
  destruct err as [e|]; [exists []; reflexivity |].
  destruct (waitDomainNameUpdated_calls fuel (Id d) w1) as [new Hnew].
  destruct (waitDomainNameUpdated fuel (Id d) w1) as [[[o [e|]]|] w2]; simpl in Hnew.
  - exists new. simpl. rewrite Hnew. unfold w1; simpl. now rewrite <- app_assoc.
  - destruct (resourceDomainNameRead_world meta d w2) as [_ Hread].
    destruct (resourceDomainNameRead meta d w2) as [[d' diags] w3]. simpl in *.
    rewrite Hread, Hnew. unfold w1; simpl. rewrite <- !app_assoc. eexists. reflexivity.
  - exists new. simpl. rewrite Hnew. unfold w1; simpl. now rewrite <- app_assoc.
Qed.

End UpdateFlow.

(** ** Update: patches, request, wait and read *)

Section Update.
Context {W : Type} `{apigateway.APIGateway W} `{Formatting} `{Package}.

Import schema.

(** C10. When the [endpoint_configuration] types changed and the new
    endpoint configuration list is empty, the update builds no patch
    operation for the endpoint configuration: the patch list holds the
    operations of the other attributes only, none has the endpoint path, and
    this is the list the [UpdateDomainName] request carries. *)
Theorem endpoint_configuration_removal_emits_nothing (d : ResourceData) :
  removesEndpointConfiguration d →
  endpointOperations d = Returns []
  ∧ (∀ mtls, mutualTLSOperations d = Returns mtls →
       patchOperations d
       = Returns (stringOperation d "certificate_arn" "/certificateArn"
                  ++ stringOperation d "certificate_name" "/certificateName"
                  ++ mtls
                  ++ stringOperation d "regional_certificate_arn" "/regionalCertificateArn"
                  ++ stringOperation d "regional_certificate_name" "/regionalCertificateName"
                  ++ stringOperation d "security_policy" "/securityPolicy")%list)
  ∧ (∀ operations, patchOperations d = Returns operations →
       Forall (fun op => apigateway.Path op ≠ Some "/endpointConfiguration/types/0") operations
       ∧ (HasChangesExcept domainNameSchema d ["tags"; "tags_all"] = true →
          ∀ fuel meta (w : World W),
            ∃ rest,
              calls (snd (resourceDomainNameUpdate fuel meta d w))
              = (calls w
                 ++ (now w, apigateway.CallUpdateDomainName
                       {| apigateway.UpdateDomainNameInput.DomainName := Some (Id d);
                          apigateway.UpdateDomainNameInput.PatchOperations := operations |})
                    :: rest)%list)).
Proof.
  intros Hremoved.
  pose proof (endpointOperations_removed d Hremoved) as Hendpoint.
  split; [exact Hendpoint |]. split.
  - intros mtls Hmtls. unfold patchOperations. now rewrite Hendpoint, Hmtls.
  - intros operations Hops. split.
    + unfold patchOperations in Hops. rewrite Hendpoint in Hops.
      destruct (mutualTLSOperations d) as [mtls|] eqn:Hmtls; [| discriminate].
      injection Hops as <-.
      cbn [app].
      repeat (apply Forall_app; split);
        first [ eapply Forall_impl; [apply stringOperation_path |];
                intros op Hop; simpl in Hop; rewrite Hop; discriminate
              | eapply Forall_impl; [apply (mutualTLSOperations_paths d mtls Hmtls) |];
                intros op [Hop | Hop]; simpl in Hop; rewrite Hop; discriminate ].
    + intros Hchanges fuel meta w.
      now apply resourceDomainNameUpdate_request.
Qed.

(** C6, as the code has it.  When only [tags] and [tags_all] changed, the
    update is the read alone: its only call is the lookup, and no time
    passes.  Otherwise the patch list has exactly one replace operation per
    changed attribute among the patched ones, except that an endpoint
    configuration that is being removed gets none and mutual TLS that is
    being disabled gets the single replacement of the truststore URI by the
    empty string; one [UpdateDomainName] request carries the list; when the
    request fails, or the wait that follows fails, an error diagnostic is
    returned and nothing is read; when both succeed, the resource is read
    again. *)
Theorem resourceDomainNameUpdate_patches (d : ResourceData) :
  (HasChangesExcept domainNameSchema d ["tags"; "tags_all"] = false →
     ∀ fuel meta (w : World W),
       resourceDomainNameUpdate fuel meta d w
       = (let '((d', diags), w') := resourceDomainNameRead meta d w in
          (Some (d', Returns diags), w'))
       ∧ calls (snd (resourceDomainNameUpdate fuel meta d w))
         = (calls w ++ [(now w, apigateway.CallGetDomainName
                          {| apigateway.GetDomainNameInput.DomainName := Some (Id d) |})])%list
       ∧ now (snd (resourceDomainNameUpdate fuel meta d w)) = now w)
  ∧ (∀ operations, patchOperations d = Returns operations →
       (¬ removesEndpointConfiguration d → ¬ disablesMutualTLS d →
        operations = onePerChange d)
       ∧ (∃ endpoint mtls,
            operations
            = (changeOperation d (Attr "certificate_arn", "/certificateArn")
               ++ changeOperation d (Attr "certificate_name", "/certificateName")
               ++ endpoint
               ++ mtls
               ++ changeOperation d (Attr "regional_certificate_arn", "/regionalCertificateArn")
               ++ changeOperation d
                    (Attr "regional_certificate_name", "/regionalCertificateName")
               ++ changeOperation d (Attr "security_policy", "/securityPolicy"))%list
            ∧ (removesEndpointConfiguration d → endpoint = [])
            ∧ (¬ removesEndpointConfiguration d →
               endpoint = changeOperation d
                            (BlockField "endpoint_configuration" 0 "types",
                             "/endpointConfiguration/types/0"))
            ∧ (disablesMutualTLS d →
               mtls = [replaceOperation "/mutualTlsAuthentication/truststoreUri" ""])
            ∧ (¬ disablesMutualTLS d →
               mtls = (changeOperation d
                         (BlockField "mutual_tls_authentication" 0 "truststore_uri",
                          "/mutualTlsAuthentication/truststoreUri")
                       ++ changeOperation d
                            (BlockField "mutual_tls_authentication" 0 "truststore_version",
                             "/mutualTlsAuthentication/truststoreVersion"))%list))
       ∧ (HasChangesExcept domainNameSchema d ["tags"; "tags_all"] = true →
          ∀ fuel meta (w : World W),
            resourceDomainNameUpdate fuel meta d w =
            let input := {| apigateway.UpdateDomainNameInput.DomainName := Some (Id d);
                            apigateway.UpdateDomainNameInput.PatchOperations := operations |} in
            let (answer, r) := apigateway.UpdateDomainNameWithContext input (remote w) in
            let w1 := logged (apigateway.CallUpdateDomainName input) r w in
            match snd answer with
            | Some err =>
                (Some (d, Returns (oneError ("updating API Gateway Domain Name (" ++ Id d
                                             ++ "): " ++ Error err))), w1)
            | None =>
                let (waited, w2) := waitDomainNameUpdated fuel (Id d) w1 in
                match waited with
                | None => (None, w2)
                | Some (_, Some err) =>
                    (Some (d, Returns (oneError ("waiting for API Gateway Domain Name ("
                                                 ++ Id d ++ ") update: " ++ Error err))), w2)
                | Some (_, None) =>
                    let '((d', diags), w3) := resourceDomainNameRead meta d w2 in
                    (Some (d', Returns diags), w3)
                end
            end)).
Proof.
  split.
  - intros Htags fuel meta w.
    assert (Hrun : resourceDomainNameUpdate fuel meta d w
                   = (let '((d', diags), w') := resourceDomainNameRead meta d w in
                      (Some (d', Returns diags), w'))).
    { unfold resourceDomainNameUpdate. rewrite Htags. unfold bind.
      destruct (resourceDomainNameRead meta d w) as [[d' diags] w']. reflexivity. }
    split; [exact Hrun |]. rewrite Hrun.
    destruct (resourceDomainNameRead_world meta d w) as [Hnow Hcalls].
    destruct (resourceDomainNameRead meta d w) as [[d' diags] w']. now split.
  - intros operations Hops.
    assert (Hparts : ∃ endpoint mtls,
              endpointOperations d = Returns endpoint
              ∧ mutualTLSOperations d = Returns mtls
              ∧ operations
                = (changeOperation d (Attr "certificate_arn", "/certificateArn")
                   ++ changeOperation d (Attr "certificate_name", "/certificateName")
                   ++ endpoint
                   ++ mtls
                   ++ changeOperation d
                        (Attr "regional_certificate_arn", "/regionalCertificateArn")
                   ++ changeOperation d
                        (Attr "regional_certificate_name", "/regionalCertificateName")
                   ++ changeOperation d (Attr "security_policy", "/securityPolicy"))%list).
    { unfold patchOperations in Hops.
      destruct (endpointOperations d) as [endpoint|]; [| discriminate].
      destruct (mutualTLSOperations d) as [mtls|]; [| discriminate].
      injection Hops as <-. now exists endpoint, mtls. }
    destruct Hparts as (endpoint & mtls & Hendpoint & Hmtls & ->).
    split; [| split].
    + intros Hkeep Hmutual.
      rewrite (endpointOperations_kept d endpoint Hendpoint Hkeep).
      rewrite (mutualTLSOperations_kept d mtls Hmtls Hmutual).
      unfold onePerChange, patchedAttributes. cbn [map concat].
      now rewrite app_nil_r, <- !app_assoc.
    + exists endpoint, mtls. split; [reflexivity |]. repeat split.
      * intros Hremoved. rewrite (endpointOperations_removed d Hremoved) in Hendpoint.
        congruence.
      * now apply endpointOperations_kept.
      * intros Hdisabled. rewrite (mutualTLSOperations_disabled d Hdisabled) in Hmtls.
        congruence.
      * now apply mutualTLSOperations_kept.
    + intros Hchanges fuel meta w.
      now apply resourceDomainNameUpdate_run.
Qed.

End Update.

Section UpdateExamples.
Import Examples.

(** C6, as the specification states it, fails: when mutual TLS is removed, the
    truststore URI and the truststore version both change, and the update
    issues one operation, the replacement of the URI by the empty string. *)
Lemma resourceDomainNameUpdate_not_one_per_change :
  ¬ issuesOnePerChange mutualTLSRemoved.
Proof.
  intros Hstated.
  assert (Hchanges : schema.HasChangesExcept domainNameSchema mutualTLSRemoved
                       ["tags"; "tags_all"] = true) by (vm_compute; reflexivity).
  apply Hstated in Hchanges. vm_compute in Hchanges. discriminate.
Qed.

Example mutualTLSRemoved_operations :
  patchOperations mutualTLSRemoved
  = Returns [replaceOperation "/mutualTlsAuthentication/truststoreUri" ""]
  ∧ onePerChange mutualTLSRemoved
    = [ replaceOperation "/mutualTlsAuthentication/truststoreUri" "";
        replaceOperation "/mutualTlsAuthentication/truststoreVersion" "" ].
Proof. vm_compute. split; reflexivity. Qed.

Lemma resourceDomainNameUpdate_patches_witness :
  (resourceDomainNameUpdate 85 exampleMeta tagsChanged created
   = (let '((d', diags), w') := resourceDomainNameRead exampleMeta tagsChanged created in
      (Some (d', Returns diags), w'))
   ∧ calls (snd (resourceDomainNameUpdate 85 exampleMeta tagsChanged created))
     = [(0, apigateway.CallGetDomainName
              {| apigateway.GetDomainNameInput.DomainName := Some "api.example.com" |})]
   ∧ now (snd (resourceDomainNameUpdate 85 exampleMeta tagsChanged created)) = 0)
  ∧ [ replaceOperation "/endpointConfiguration/types/0" "REGIONAL";
      replaceOperation "/securityPolicy" "TLS_1_2" ] = onePerChange policyChanged.
Proof.
  split.
  - apply (proj1 (resourceDomainNameUpdate_patches (W := Script) tagsChanged)).
    vm_compute. reflexivity.
  - apply (proj2 (resourceDomainNameUpdate_patches (W := Script) policyChanged)).
    + vm_compute. reflexivity.
    + intros [_ Hempty]. vm_compute in Hempty. discriminate.
    + intros [Hchange _]. vm_compute in Hchange. discriminate.
Defined.

Lemma endpoint_configuration_removal_emits_nothing_witness :
  endpointOperations endpointRemoved = Returns []
  ∧ patchOperations endpointRemoved = Returns [].
Proof.
  assert (Hremoved : removesEndpointConfiguration endpointRemoved).
  { split; vm_compute; reflexivity. }
  destruct (endpoint_configuration_removal_emits_nothing (W := Script) endpointRemoved Hremoved)
    as (Hendpoint & Hlist & _).
  split; [exact Hendpoint |].
  apply (Hlist []). vm_compute. reflexivity.
Defined.

(** An update that changes the security policy and the endpoint type, on
    a remote that is updating for two polls: one [UpdateDomainName] request
    with the two operations, three polls, then the read; the data mirror the
    remote and there is no diagnostic. *)
Example resourceDomainNameUpdate_settling :
  let (r, w) := resourceDomainNameUpdate 85 exampleMeta policyChanged settling in
  (match r with
   | Some (d, Returns diags) =>
       diags = [] ∧ schema.GetString d "security_policy" = "TLS_1_2"
   | _ => False
   end)
  ∧ now w = 80 * time.Second
  ∧ map fst (calls w) = [0; 60 * time.Second; 70 * time.Second; 80 * time.Second;
                         80 * time.Second]
  ∧ hd_error (map snd (calls w))
    = Some (apigateway.CallUpdateDomainName
              {| apigateway.UpdateDomainNameInput.DomainName := Some "api.example.com";
                 apigateway.UpdateDomainNameInput.PatchOperations :=
                   [ replaceOperation "/endpointConfiguration/types/0" "REGIONAL";
                     replaceOperation "/securityPolicy" "TLS_1_2" ] |}).
Proof. vm_compute. repeat split. Qed.

(** A status that is neither pending nor the target ends the wait at once
    with an unexpected-state error, and 21 answers of "not found" in a row
    end it with a not-found error; both before the timeout. *)
Example waitDomainNameUpdated_unexpected_state :
  let (r, w) := waitDomainNameUpdated 85 "api.example.com" pendingVerification in
  r = Some (Some (exampleDomain "PENDING_OWNERSHIP_VERIFICATION"),
            Some (UnexpectedStateError (Some (PlainError ""))
                    "PENDING_OWNERSHIP_VERIFICATION" ["AVAILABLE"]))
  ∧ now w = 1 * time.Minute.
Proof. vm_compute. repeat split. Qed.

Example waitDomainNameUpdated_not_found :
  let (r, w) := waitDomainNameUpdated 85 "api.example.com" gone in
  r = Some (None, Some (NotFoundError None None 21))
  ∧ now w = 260 * time.Second
  ∧ List.length (calls w) = 21%nat.
Proof. vm_compute. repeat split. Qed.

End UpdateExamples.

(** * Further properties of the code *)

(** ** Lookup and read *)

Section LookupMore.
Context {W : Type} `{apigateway.APIGateway W} `{Formatting} `{Package}.

Import schema.

(** X1. [FindDomainName] makes one [GetDomainName] call and classifies its
    answer: it returns the object exactly when the call gave an output and
    no error; a [NotFoundException] becomes a [retry.NotFoundError] that
    keeps the original error; any other error is returned as it is; a nil
    output with a nil error is an empty result.  It reports "not found"
    exactly for a [NotFoundException], an empty result, or an error that
    already is "not found". *)
Theorem FindDomainName_classification (domainName : string) (w : World W)
    (output : option apigateway.DomainName.t) (err : option error) (r : W) :
  let input := {| apigateway.GetDomainNameInput.DomainName := Some domainName |} in
  apigateway.GetDomainNameWithContext input (remote w) = ((output, err), r) →
  snd (FindDomainName domainName w) = logged (apigateway.CallGetDomainName input) r w
  ∧ (∀ o, fst (FindDomainName domainName w) = Found o ↔ output = Some o ∧ err = None)
  ∧ (tfawserr.ErrCodeEquals err apigateway.ErrCodeNotFoundException = true →
     fst (FindDomainName domainName w) = Failed (NotFoundError err (Some domainName) 0))
  ∧ (∀ e, err = Some e →
       tfawserr.ErrCodeEquals err apigateway.ErrCodeNotFoundException = false →
       fst (FindDomainName domainName w) = Failed e)
  ∧ (output = None → err = None →
     fst (FindDomainName domainName w) = Failed (EmptyResultError (Some domainName)))
  ∧ (tfresource.NotFound (foundErr (fst (FindDomainName domainName w))) = true
     ↔ tfawserr.ErrCodeEquals err apigateway.ErrCodeNotFoundException = true
       ∨ (output = None ∧ err = None)
       ∨ tfresource.NotFound err = true).
Proof.
  intros input Hget. rewrite FindDomainName_run. cbv zeta. fold input. rewrite Hget.
  cbn [fst snd]. split; [reflexivity |]. unfold classify.
  destruct (tfawserr.ErrCodeEquals err apigateway.ErrCodeNotFoundException) eqn:Hcode.
  - assert (Herr : err ≠ None) by (intros ->; discriminate).
    repeat split; try discriminate; try (intros; congruence).
    + intros [_ Hnone]. contradiction.
    + intros _. now left.
  - destruct err as [e|], output as [o|]; simpl.
    + repeat split; try discriminate; try (intros; congruence).
      * intros [_ Hnone]. discriminate.
      * intros Hnf. right. right. exact Hnf.
      * intros [Hc | [[_ Hnone] | Hnf]]; [discriminate | discriminate | exact Hnf].
    + repeat split; try discriminate; try (intros; congruence).
      * intros [Hsome _]. discriminate.
      * intros Hnf. right. right. exact Hnf.
      * intros [Hc | [[_ Hnone] | Hnf]]; [discriminate | discriminate | exact Hnf].
    + repeat split; try discriminate; try (intros; congruence).
      * intros [[= ->] _]. reflexivity.
      * intros [Hc | [[Hnone _] | Hnf]]; discriminate.
    + repeat split; try discriminate; try (intros; congruence).
      * intros [Hsome _]. discriminate.
      * intros _. right. left. now split.
Qed.

(** X2. For a newly created resource every failed lookup, "not found"
    included, is an error of the read: the resource data, the id included,
    are unchanged and the diagnostic names the read and the id. *)
Theorem resourceDomainNameRead_new_resource
    (meta : conns.AWSClient) (d : ResourceData) (w w' : World W) (err : error) :
  IsNewResource d = true →
  FindDomainName (Id d) w = (Failed err, w') →
  resourceDomainNameRead meta d w
  = ((d, oneError ("reading API Gateway Domain Name (" ++ Id d ++ "): " ++ Error err)), w').
Proof.
  intros Hnew Hfind. unfold resourceDomainNameRead, bind.
  now rewrite Hfind, Hnew.
Qed.

(** X3. Whatever the lookup answers, the read leaves alone what it does not
    mirror: the prior state, the new-resource mark, the map attributes
    (tags), every string attribute outside the thirteen it stores (the
    certificate body, chain and private key among them) and every list
    attribute other than the endpoint configuration and mutual TLS; and the
    id is kept or cleared, never changed to another. *)
Theorem resourceDomainNameRead_frame
    (meta : conns.AWSClient) (d : ResourceData) (w : World W) :
  let d' := fst (fst (resourceDomainNameRead meta d w)) in
  prior d' = prior d
  ∧ IsNewResource d' = IsNewResource d
  ∧ maps (current d') = maps (current d)
  ∧ (Id d' = Id d ∨ Id d' = "")
  ∧ (∀ key, key ∉ readStrings → GetString d' key = GetString d key)
  ∧ (∀ key, key ≠ "endpoint_configuration" → key ≠ "mutual_tls_authentication" →
       GetList d' key = GetList d key).
Proof.
  assert (Hstrings : ∀ key (x : ResourceData) k v,
            key ∉ readStrings → k ∈ readStrings →
            GetString (SetString k v x) key = GetString x key).
  { intros key x k v Hkey Hk. rewrite GetString_SetString.
    destruct (decide (k = key)) as [-> |]; [contradiction | reflexivity]. }
  assert (Hin : ∀ k, In k readStrings → k ∈ readStrings)
    by (intros k; apply list_elem_of_In).
  unfold resourceDomainNameRead, bind, ret, setTagsOut.
  destruct (FindDomainName (Id d) w) as [r w'].
  destruct (negb (IsNewResource d) && tfresource.NotFound (foundErr r)).
  { cbn. repeat split; auto. }
  destruct r as [dn | err]; [| cbn; repeat split; auto].
  destruct (SetListError "endpoint_configuration" _);
    [| destruct (SetListError "mutual_tls_authentication" _)];
    destruct (apigateway.DomainName.CertificateUploadDate dn); cbn [fst snd];
    (split; [reflexivity |]); (split; [reflexivity |]); (split; [reflexivity |]);
    (split; [now left |]); (split;
      [ intros key Hkey;
        repeat first
          [ rewrite GetString_SetList
          | rewrite Hstrings by (try exact Hkey; apply Hin; cbn; tauto) ];
        reflexivity
      | intros key Hec Hmtls;
        repeat first
          [ rewrite GetList_SetString
          | rewrite GetList_SetList ];
        repeat match goal with
               | |- context [decide (?k = key)] =>
                   destruct (decide (k = key)); [congruence |]
               end;
        reflexivity ]).
Qed.

End LookupMore.

Section ReadTwice.
Context {W : Type} `{apigateway.APIGateway W} `{Formatting} `{Package}.

Import schema.





(** X5. The calls of a create: one [CreateDomainName] and, only when it
    succeeded, one lookup of the domain name of its response, in that
    order; a failed create looks nothing up.  No time passes. *)
Theorem resourceDomainNameCreate_calls
    (meta : conns.AWSClient) (d : ResourceData) (w : World W)
    (output : option apigateway.DomainName.t) (err : option error) (r : W) :
  apigateway.CreateDomainNameWithContext (createDomainNameInput meta d) (remote w)
    = ((output, err), r) →
  let w' := snd (resourceDomainNameCreate meta d w) in
  now w' = now w
  ∧ calls w'
    = (calls w
       ++ (now w, apigateway.CallCreateDomainName (createDomainNameInput meta d))
          :: match err, output with
             | None, Some out =>
                 [(now w, apigateway.CallGetDomainName
                            {| apigateway.GetDomainNameInput.DomainName :=
                                 Some (aws.StringValue (apigateway.DomainName.DomainName out)) |})]
             | _, _ => []
             end)%list.
Proof.
  intros Hcreate. unfold resourceDomainNameCreate, CreateDomainName, invoke, bind.
  rewrite Hcreate. destruct err as [e|]; [now split |].
  destruct output as [out|]; [| now split].
  match goal with
  | |- context [resourceDomainNameRead meta ?d1 ?w1] =>
      destruct (resourceDomainNameRead_world meta d1 w1) as [Hnow Hcalls];
      destruct (resourceDomainNameRead meta d1 w1) as [[d2 diags] w2]
  end.
  cbn in *. rewrite Hnow, Hcalls. split; [reflexivity |]. now rewrite <- app_assoc.
Qed.

End ReadTwice.

(** ** Mutual TLS blocks *)

(** X6. For every API object, flattening and expanding back gives an input
    object, never nil, with the same truststore URI and version, except
    that an empty string comes back as nil; and whatever list is expanded,
    the result never holds a pointer to an empty string. *)
Theorem expand_flatten_normalises :
  (∀ apiObject,
     expandMutualTLSAuthentication (flattenMutualTLSAuthentication (Some apiObject))
     = Some {| apigateway.MutualTlsAuthenticationInput.TruststoreUri :=
                 nonEmptyPtr (apigateway.MutualTlsAuthentication.TruststoreUri apiObject);
               apigateway.MutualTlsAuthenticationInput.TruststoreVersion :=
                 nonEmptyPtr (apigateway.MutualTlsAuthentication.TruststoreVersion apiObject) |})
  ∧ (∀ tfList input,
       expandMutualTLSAuthentication tfList = Some input →
       apigateway.MutualTlsAuthenticationInput.TruststoreUri input ≠ Some ""
       ∧ apigateway.MutualTlsAuthenticationInput.TruststoreVersion input ≠ Some "").
Proof.
  split.
  - intros [[uri|] [version|] warnings];
      unfold flattenMutualTLSAuthentication, expandMutualTLSAuthentication, nonEmptyPtr;
      cbn [apigateway.MutualTlsAuthentication.TruststoreUri
           apigateway.MutualTlsAuthentication.TruststoreVersion aws.StringValue aws.String];
      repeat first [ rewrite lookup_insert_eq
                   | rewrite lookup_insert_ne by discriminate
                   | rewrite lookup_empty ];
      reflexivity.
  - intros tfList input Hexpand. unfold expandMutualTLSAuthentication in Hexpand.
    destruct tfList as [|[tfMap|] rest]; try discriminate.
    injection Hexpand as <-. cbn. split.
    + destruct (tfMap !! "truststore_uri") as [[| s | | |]|]; try discriminate.
      destruct (String.eqb s "") eqn:Hs; [discriminate |].
      apply String.eqb_neq in Hs. unfold aws.String. congruence.
    + destruct (tfMap !! "truststore_version") as [[| s | | |]|]; try discriminate.
      destruct (String.eqb s "") eqn:Hs; [discriminate |].
      apply String.eqb_neq in Hs. unfold aws.String. congruence.
Qed.

(** X7. [expandMutualTLSAuthentication] reads only the string values at
    [truststore_uri] and [truststore_version] of the first block: two lists
    whose first blocks agree on these two keys expand alike, whatever else
    the blocks and the lists hold; and a key that is missing, or whose
    value is not a string, gives a nil field, not a panic. *)
Theorem expand_reads_two_fields :
  (∀ (m1 m2 : gmap string iface) (rest1 rest2 : list (option (gmap string iface))),
     m1 !! "truststore_uri" = m2 !! "truststore_uri" →
     m1 !! "truststore_version" = m2 !! "truststore_version" →
     expandMutualTLSAuthentication (Some m1 :: rest1)
     = expandMutualTLSAuthentication (Some m2 :: rest2))
  ∧ (∀ (m : gmap string iface) (rest : list (option (gmap string iface))),
       ∃ input,
         expandMutualTLSAuthentication (Some m :: rest) = Some input
         ∧ ((∀ s, m !! "truststore_uri" ≠ Some (IString s)) →
            apigateway.MutualTlsAuthenticationInput.TruststoreUri input = None)
         ∧ ((∀ s, m !! "truststore_version" ≠ Some (IString s)) →
            apigateway.MutualTlsAuthenticationInput.TruststoreVersion input = None)).
Proof.
  split.
  - intros m1 m2 rest1 rest2 Huri Hversion. unfold expandMutualTLSAuthentication.
    now rewrite Huri, Hversion.
  - intros m rest. eexists. split; [reflexivity |]. cbn. split.
    + intros Hno. destruct (m !! "truststore_uri") as [[| s | | |]|]; try reflexivity.
      now destruct (Hno s).
    + intros Hno. destruct (m !! "truststore_version") as [[| s | | |]|]; try reflexivity.
      now destruct (Hno s).
Qed.

(** ** Update: panics and paths *)

Section PatchesMore.
Import schema.

#[local] Arguments HasChange : simpl never.

Lemma endpointOperations_panics (d : ResourceData) :
  endpointOperations d = Panics ↔ endpointMalformed d.
Proof.
  unfold endpointOperations, endpointMalformed, GetOkList.
  destruct (HasChange d (BlockField "endpoint_configuration" 0 "types")).
  - destruct (GetList d "endpoint_configuration") as [|[m|] rest]; simpl.
    + split; [discriminate |]. intros (_ & first & rest & Hlist & _). discriminate.
    + destruct (m !! "types") as [[| | | |[|t ts]]|] eqn:Htypes;
        first
          [ solve [ split; [discriminate |];
                    intros (_ & first & rest' & [= <- <-] & Hbad);
                    now destruct (Hbad m t ts) ]
          | solve [ split; [| reflexivity]; intros _; split; [reflexivity |];
                    exists (Some m), rest; split; [reflexivity |];
                    intros m' t' ts' [= <-]; congruence ] ].
    + split; [| reflexivity]. intros _. split; [reflexivity |].
      exists None, rest. split; [reflexivity |]. discriminate.
  - split; [discriminate |]. intros [Hchange _]. discriminate.
Qed.

Lemma mutualTLSOperations_panics (d : ResourceData) :
  mutualTLSOperations d = Panics ↔ mutualTLSMalformed d.
Proof.
  unfold mutualTLSOperations, mutualTLSMalformed, GetOkList.
  destruct (HasChange d (Attr "mutual_tls_authentication")).
  - destruct (GetList d "mutual_tls_authentication") as [|[m|] rest]; simpl.
    + split; [discriminate |]. intros (_ & m & rest & Hlist & _). discriminate.
    + destruct (HasChange d (BlockField "mutual_tls_authentication" 0 "truststore_uri")),
        (HasChange d (BlockField "mutual_tls_authentication" 0 "truststore_version"));
        destruct (m !! "truststore_uri") as [[| u | | |]|] eqn:Huri;
        destruct (m !! "truststore_version") as [[| v | | |]|] eqn:Hversion;
        first
          [ solve [ split; [discriminate |];
                    intros (_ & m' & rest' & [= <- <-] & [[Hc Hbad] | [Hc Hbad]]);
                    first [ discriminate
                          | now destruct (Hbad u)
                          | now destruct (Hbad v) ] ]
          | solve [ split; [| reflexivity]; intros _; split; [reflexivity |];
                    exists m, rest; split; [reflexivity |];
                    first [ left; split; [reflexivity | intros s; congruence]
                          | right; split; [reflexivity | intros s; congruence] ] ] ].
    + split; [discriminate |]. intros (_ & m & rest' & Hlist & _). discriminate.
  - split; [discriminate |]. intros [Hchange _]. discriminate.
Qed.

(** X8. The patch list of an update can be built without a panic exactly
    when the planned blocks hold what the code reads from them: it panics
    if and only if the changed endpoint configuration has a first block that
    is nil or has no type, or a changed truststore field of the mutual TLS
    block is not a string. *)
Theorem patchOperations_panics (d : ResourceData) :
  patchOperations d = Panics ↔ endpointMalformed d ∨ mutualTLSMalformed d.
Proof.
  rewrite <- endpointOperations_panics, <- mutualTLSOperations_panics.
  unfold patchOperations.
  destruct (endpointOperations d), (mutualTLSOperations d); split;
    try discriminate; try tauto; intros [Hp | Hp]; discriminate.
Qed.

(** X9. The patch list never has two operations on the same path: its
    paths are a sublist of the eight patched paths, in their order.  So it
    has at most eight operations; each is a replace with a value. *)
Theorem patchOperations_paths (d : ResourceData) (operations : list apigateway.PatchOperation) :
  patchOperations d = Returns operations →
  sublist (map apigateway.Path operations) (map (fun entry => Some (snd entry)) patchedAttributes)
  ∧ NoDup (map apigateway.Path operations)
  ∧ (List.length operations <= 8)%nat
  ∧ Forall (fun op => apigateway.Op op = Some "replace"
                      ∧ apigateway.From op = None
                      ∧ apigateway.Value op ≠ None) operations.
Proof.
  intros Hops.
  assert (Hstring : ∀ key path,
            sublist (map apigateway.Path (stringOperation d key path)) [Some path]
            ∧ Forall (fun op => apigateway.Op op = Some "replace"
                                ∧ apigateway.From op = None
                                ∧ apigateway.Value op ≠ None) (stringOperation d key path)).
  { intros key path. unfold stringOperation. destruct (HasChange d (Attr key)); simpl.
    - split; [reflexivity |]. repeat constructor. discriminate.
    - split; [apply sublist_nil_l | constructor]. }
  assert (Hendpoint : ∀ endpoint, endpointOperations d = Returns endpoint →
            sublist (map apigateway.Path endpoint) [Some "/endpointConfiguration/types/0"]
            ∧ Forall (fun op => apigateway.Op op = Some "replace"
                                ∧ apigateway.From op = None
                                ∧ apigateway.Value op ≠ None) endpoint).
  { intros endpoint. unfold endpointOperations, GetOkList.
    destruct (HasChange d _);
      [| intros [= <-]; split; [apply sublist_nil_l | constructor]].
    destruct (GetList d "endpoint_configuration") as [|[m|] rest]; simpl;
      try discriminate;
      [intros [= <-]; split; [apply sublist_nil_l | constructor] |].
    destruct (m !! "types") as [[| | | |[|t ts]]|]; try discriminate.
    intros [= <-]. split; [reflexivity |]. repeat constructor. discriminate. }
  assert (Hmtls : ∀ mtls, mutualTLSOperations d = Returns mtls →
            sublist (map apigateway.Path mtls)
              [Some "/mutualTlsAuthentication/truststoreUri";
               Some "/mutualTlsAuthentication/truststoreVersion"]
            ∧ Forall (fun op => apigateway.Op op = Some "replace"
                                ∧ apigateway.From op = None
                                ∧ apigateway.Value op ≠ None) mtls).
  { intros mtls. unfold mutualTLSOperations, GetOkList.
    destruct (HasChange d (Attr "mutual_tls_authentication"));
      [| intros [= <-]; split; [apply sublist_nil_l | constructor]].
    destruct (GetList d "mutual_tls_authentication") as [|[m|] rest]; simpl.
    - intros [= <-]. split; [now constructor; apply sublist_nil_l |].
      repeat constructor. discriminate.
    - destruct (HasChange d (BlockField "mutual_tls_authentication" 0 "truststore_uri")),
        (HasChange d (BlockField "mutual_tls_authentication" 0 "truststore_version"));
        destruct (m !! "truststore_uri") as [[| u | | |]|];
        destruct (m !! "truststore_version") as [[| v | | |]|];
        try discriminate; intros [= <-]; simpl;
        (split; [ repeat first [ apply sublist_nil_l
                               | apply sublist_skip
                               | apply sublist_cons ]
                | repeat constructor; discriminate ]).
    - intros [= <-]. split; [now constructor; apply sublist_nil_l |].
      repeat constructor. discriminate. }
  unfold patchOperations in Hops.
  destruct (endpointOperations d) as [endpoint|] eqn:He; [| discriminate].
  destruct (mutualTLSOperations d) as [mtls|] eqn:Hm; [| discriminate].
  injection Hops as <-.
  destruct (Hendpoint endpoint eq_refl) as [Hes Hef].
  destruct (Hmtls mtls eq_refl) as [Hms Hmf].
  assert (Hsub : sublist
            (map apigateway.Path
               (stringOperation d "certificate_arn" "/certificateArn"
                ++ stringOperation d "certificate_name" "/certificateName"
                ++ endpoint ++ mtls
                ++ stringOperation d "regional_certificate_arn" "/regionalCertificateArn"
                ++ stringOperation d "regional_certificate_name" "/regionalCertificateName"
                ++ stringOperation d "security_policy" "/securityPolicy")%list)
            (map (fun entry => Some (snd entry)) patchedAttributes)).
  { rewrite !map_app.
    change (map (fun entry => Some (snd entry)) patchedAttributes)
      with ([Some "/certificateArn"] ++ [Some "/certificateName"]
            ++ [Some "/endpointConfiguration/types/0"]
            ++ [Some "/mutualTlsAuthentication/truststoreUri";
                Some "/mutualTlsAuthentication/truststoreVersion"]
            ++ [Some "/regionalCertificateArn"] ++ [Some "/regionalCertificateName"]
            ++ [Some "/securityPolicy"])%list.
    repeat (apply sublist_app; [first [apply Hstring | exact Hes | exact Hms] |]).
    apply Hstring. }
  split; [exact Hsub |]. split; [| split].
  - refine (sublist_NoDup _ _ _ Hsub).
    apply NoDup_ListNoDup. cbn. repeat constructor; cbn; intuition discriminate.
  - apply sublist_length in Hsub. rewrite length_map in Hsub. exact Hsub.
  - repeat (apply Forall_app; split); first [apply Hstring | exact Hef | exact Hmf].
Qed.

End PatchesMore.

(** ** The wait: schedule and outcomes *)

Section WaitMore.
Context {W : Type} `{apigateway.APIGateway W}.

#[local] Abbreviation conf name := (retry.withDefaults (domainNameUpdatedConf name)).

(** Whatever the fuel, the loop looks the domain name up on a fixed
    schedule and not at or after the timeout. *)
Lemma refreshLoop_schedule (domainName : string) (fuel : nat) :
  ∀ (elapsed : Z) (st : retry.loopState) (w : World W),
    retry.wait st = 0 ∨ retry.wait st = 10 * time.Second →
    retry.targetOccurence st = 0 →
    ∃ n,
      calls (snd (retry.refreshLoop fuel (conf domainName) elapsed st w))
      = (calls w ++ pollSchedule (now w + retry.wait st) domainName n)%list
      ∧ (n <= fuel)%nat
      ∧ (n = 0%nat
         ∨ elapsed + retry.wait st + 10 * time.Second * (Z.of_nat n - 1) < 15 * time.Minute).
Proof.
  induction fuel as [|fuel IH]; intros elapsed st w Hwait Hocc.
  - exists 0%nat. simpl. rewrite app_nil_r. repeat split; auto.
  - rewrite refreshLoop_unfold.
    destruct (Z.leb_spec (15 * time.Minute) (elapsed + retry.wait st)) as [Hdue | Hearly].
    + exists 0%nat. simpl. rewrite app_nil_r. repeat split; [lia | now left].
    + cbv zeta. rewrite statusDomainName_run. cbv zeta.
      destruct (apigateway.GetDomainNameWithContext _ (remote (later (retry.wait st) w)))
        as [answer r].
      destruct (refreshOf (classify domainName answer)) as [[res status] err].
      rewrite afterRefresh_domainName by exact Hocc. cbn [retry.notfoundTick].
      set (input := {| apigateway.GetDomainNameInput.DomainName := Some domainName |}).
      set (w2 := logged (apigateway.CallGetDomainName input) r (later (retry.wait st) w)).
      assert (Hstop : ∀ out : option (option apigateway.DomainName.t * option error), ∃ n,
                calls (snd (out, w2))
                = (calls w ++ pollSchedule (now w + retry.wait st) domainName n)%list
                ∧ (n <= S fuel)%nat
                ∧ (n = 0%nat
                   ∨ elapsed + retry.wait st + 10 * time.Second * (Z.of_nat n - 1)
                     < 15 * time.Minute)).
      { intros out. exists 1%nat. rewrite pollSchedule_cons. cbn.
        repeat split; [lia | right; lia]. }
      assert (Hgo : ∀ tick, ∃ n,
                calls (snd (retry.refreshLoop fuel (conf domainName)
                              (elapsed + retry.wait st)
                              (retry.mkLoop (10 * time.Second) tick 0 status) w2))
                = (calls w ++ pollSchedule (now w + retry.wait st) domainName n)%list
                ∧ (n <= S fuel)%nat
                ∧ (n = 0%nat
                   ∨ elapsed + retry.wait st + 10 * time.Second * (Z.of_nat n - 1)
                     < 15 * time.Minute)).
      { intros tick.
        destruct (IH (elapsed + retry.wait st)
                    (retry.mkLoop (10 * time.Second) tick 0 status) w2)
          as (n & Hcalls & Hn & Hlast); [now right | reflexivity |].
        exists (S n). rewrite Hcalls, pollSchedule_cons. cbn. rewrite <- app_assoc. cbn.
        split; [reflexivity |]. split; [lia |]. right.
        destruct Hlast as [-> | Hlast]; [cbn; lia |].
        cbn [retry.wait] in Hlast. lia. }
      destruct err as [e|]; [apply Hstop |].
      destruct res as [o|].
      * destruct (String.eqb status apigateway.DomainNameStatusAvailable); [apply Hstop |].
        destruct (String.eqb status apigateway.DomainNameStatusUpdating);
          [apply Hgo | apply Hstop].
      * destruct (20 <? retry.notfoundTick st + 1); [apply Hstop | apply Hgo].
Qed.

(** Whatever the fuel and the remote, the lookups of a wait follow the
    schedule, and there are at most 84 of them. *)
Lemma waitDomainNameUpdated_polls (fuel : nat) (domainName : string) (w : World W) :
  ∃ n,
    calls (snd (waitDomainNameUpdated fuel domainName w))
    = (calls w ++ pollSchedule (now w + 1 * time.Minute) domainName n)%list
    ∧ (n <= 84)%nat ∧ (n <= fuel)%nat.
Proof.
  rewrite waitDomainNameUpdated_unfold.
  destruct (refreshLoop_schedule domainName fuel (1 * time.Minute) (retry.mkLoop 0 0 0 "")
              (later (1 * time.Minute) w)) as (n & Hcalls & Hn & Hlast);
    [now left | reflexivity |].
  destruct (retry.refreshLoop _ _ _ _ _) as [res w'].
  exists n. cbn in *. rewrite Hcalls. rewrite Z.add_0_r.
  split; [reflexivity |]. split; [| exact Hn].
  destruct Hlast as [-> | Hlast]; [lia | duration_lia].
Qed.

(** X10. Whatever the fuel and the remote, the lookups of a wait follow a
    fixed schedule: the first one minute after the wait began, each next
    one 10 seconds later, and at most 84 of them; nothing else is called. *)
Theorem waitDomainNameUpdated_schedule (fuel : nat) (domainName : string) (w : World W) :
  ∃ n,
    calls (snd (waitDomainNameUpdated fuel domainName w))
    = (calls w ++ pollSchedule (now w + 1 * time.Minute) domainName n)%list
    ∧ (n <= 84)%nat ∧ (n <= fuel)%nat.
Proof.
  rewrite waitDomainNameUpdated_unfold.
  destruct (refreshLoop_schedule domainName fuel (1 * time.Minute) (retry.mkLoop 0 0 0 "")
              (later (1 * time.Minute) w)) as (n & Hcalls & Hn & Hlast);
    [now left | reflexivity |].
  destruct (retry.refreshLoop _ _ _ _ _) as [res w'].
  exists n. cbn in *. rewrite Hcalls. rewrite Z.add_0_r.
  split; [reflexivity |]. split; [| exact Hn].
  destruct Hlast as [-> | Hlast]; [lia | duration_lia].
Qed.

(** X11. When the wait for an update ends, it ends in one of five ways:
    with the available domain name and no error; with the domain name in a
    state other than UPDATING and AVAILABLE, and an unexpected-state error
    whose last error is the domain name's status message; with no object
    and the timeout error; with no object and the not-found error after 21
    answers of "not found" in a row; or with no object and the error of a
    lookup.  An object comes without an error only when it is available. *)
Theorem waitDomainNameUpdated_outcomes (fuel : nat) (domainName : string) (w w' : World W)
    (res : option apigateway.DomainName.t * option error) :
  waitDomainNameUpdated fuel domainName w = (Some res, w') →
  waitOutcome res.
Proof.
  rewrite waitDomainNameUpdated_unfold.
  destruct (retry.refreshLoop _ _ _ _ _) as [[[out err]|] w2] eqn:Hrun; [| discriminate].
  apply refreshLoop_outcome in Hrun; [| reflexivity | cbn; lia | now left].
  destruct out as [o|]; intros [= <- _]; exact Hrun.
Qed.

End WaitMore.

(** ** Update: what it sends *)

Section UpdateMore.
Context {W : Type} `{apigateway.APIGateway W} `{Formatting} `{Package}.

Import schema.

(** X12. An update panics only while it builds the patch list, before it
    sends anything: when the list cannot be built, the update panics with
    the resource data and the world untouched; and an update that panicked
    is such an update. *)
Theorem resourceDomainNameUpdate_panics
    (fuel : nat) (meta : conns.AWSClient) (d : ResourceData) (w : World W) :
  (HasChangesExcept domainNameSchema d ["tags"; "tags_all"] = true →
   patchOperations d = Panics →
   resourceDomainNameUpdate fuel meta d w = (Some (d, Panics), w))
  ∧ (∀ d' w',
       resourceDomainNameUpdate fuel meta d w = (Some (d', Panics), w') →
       HasChangesExcept domainNameSchema d ["tags"; "tags_all"] = true
       ∧ patchOperations d = Panics
       ∧ d' = d ∧ w' = w).
Proof.
  split.
  - intros Hchanges Hpanic. unfold resourceDomainNameUpdate. now rewrite Hchanges, Hpanic.
  - intros d' w' Hrun.
    destruct (HasChangesExcept domainNameSchema d ["tags"; "tags_all"]) eqn:Hchanges.
    + destruct (patchOperations d) as [operations|] eqn:Hops.
      * rewrite (resourceDomainNameUpdate_run fuel meta d w operations Hchanges Hops) in Hrun.
        cbv zeta in Hrun.
        destruct (apigateway.UpdateDomainNameWithContext _ (remote w)) as [[out err] r].
        cbn [snd] in Hrun. destruct err as [e|]; [discriminate |].
        destruct (waitDomainNameUpdated fuel (Id d) _) as [[[o [e|]]|] w2];
          try discriminate.
        destruct (resourceDomainNameRead meta d w2) as [[d2 diags] w3]. discriminate.
      * unfold resourceDomainNameUpdate in Hrun. rewrite Hchanges, Hops in Hrun.
        injection Hrun as <- <-. repeat split.
    + unfold resourceDomainNameUpdate in Hrun. rewrite Hchanges in Hrun. unfold bind in Hrun.
      destruct (resourceDomainNameRead meta d w) as [[d2 diags] w3]. discriminate.
Qed.

(** X13. The calls of an update that patches: one [UpdateDomainName] with
    the patch list, then the lookups of the wait on their schedule, at most
    84 of them, then at most one more lookup, that of the read.  The update
    never creates or deletes, and never looks up another domain name. *)
Theorem resourceDomainNameUpdate_calls
    (fuel : nat) (meta : conns.AWSClient) (d : ResourceData) (w : World W)
    (operations : list apigateway.PatchOperation) :
  HasChangesExcept domainNameSchema d ["tags"; "tags_all"] = true →
  patchOperations d = Returns operations →
  ∃ n tail,
    calls (snd (resourceDomainNameUpdate fuel meta d w))
    = (calls w
       ++ (now w, apigateway.CallUpdateDomainName
                    {| apigateway.UpdateDomainNameInput.DomainName := Some (Id d);
                       apigateway.UpdateDomainNameInput.PatchOperations := operations |})
          :: pollSchedule (now w + 1 * time.Minute) (Id d) n ++ tail)%list
    ∧ (n <= 84)%nat
    ∧ (tail = []
       ∨ ∃ t, tail = [(t, apigateway.CallGetDomainName
                            {| apigateway.GetDomainNameInput.DomainName := Some (Id d) |})]).
Proof.
  intros Hchanges Hops.
  rewrite (resourceDomainNameUpdate_run fuel meta d w operations Hchanges Hops). cbv zeta.
  destruct (apigateway.UpdateDomainNameWithContext _ (remote w)) as [[out err] r].
  cbn [snd]. set (w1 := logged _ r w).
  destruct err as [e|].
  { exists 0%nat, []. cbn. repeat split; [lia | now left]. }
  destruct (waitDomainNameUpdated_polls fuel (Id d) w1) as (n & Hpolls & Hn & _).
  destruct (waitDomainNameUpdated fuel (Id d) w1) as [[[o [e|]]|] w2]; cbn [snd] in Hpolls.
  - exists n, []. cbn [snd]. rewrite Hpolls. unfold w1; cbn.
    rewrite <- app_assoc, app_nil_r. repeat split; [exact Hn | now left].
  - destruct (resourceDomainNameRead_world meta d w2) as [_ Hread].
    destruct (resourceDomainNameRead meta d w2) as [[d2 diags] w3]. cbn [snd] in *.
    exists n. eexists. rewrite Hread, Hpolls. unfold w1; cbn.
    rewrite <- !app_assoc. cbn. split; [reflexivity |]. split; [exact Hn |].
    right. eexists. reflexivity.
  - exists n, []. cbn [snd]. rewrite Hpolls. unfold w1; cbn.
    rewrite <- app_assoc, app_nil_r. repeat split; [exact Hn | now left].
Qed.

End UpdateMore.

(** ** Random records: what is sent *)

Section ZoneMore.
Context {W : Type} `{tfroute53.Helpers W}.

Lemma randomChanges_returns (n : nat) (zone : route53.GetHostedZoneOutput) :
  ∀ (changes built : list route53.Change) (w w' : W),
    route53_test.randomChanges n zone changes w = (Returns built, w') →
    ∃ new,
      built = (changes ++ new)%list
      ∧ List.length new = n
      ∧ Forall (fun change =>
                  ∃ hostedZone name r,
                    route53.HostedZone_ zone = Some hostedZone
                    ∧ route53.ZoneName hostedZone = Some name
                    ∧ change = randomChange tfroute53.FormatInt r name) new.
Proof.
  induction n as [|n IH]; intros changes built w w' Hrun; simpl in Hrun.
  - injection Hrun as <- _. exists []. rewrite app_nil_r. repeat split. constructor.
  - destruct (tfroute53.RandInt w) as [r w1].
    destruct (route53.HostedZone_ zone) as [[id [name|]]|] eqn:Hzone; try discriminate.
    apply IH in Hrun as (new & -> & Hlen & Hnew).
    eexists (_ :: new). rewrite <- app_assoc. split; [reflexivity |].
    split; [cbn; now rewrite Hlen |].
    constructor; [| exact Hnew].
    eexists _, name, r. repeat split.
Qed.

(** What one call of the helper adds to the requests: nothing, or one
    request for the zone that carries the changes it built. *)
Lemma testAccCreateRandomRecordsInZoneID_sends
    (zone : route53.GetHostedZoneOutput) (recordsCount : Z) (w : route53_test.TestWorld W) :
  let w' := snd (route53_test.testAccCreateRandomRecordsInZoneID zone recordsCount w) in
  route53_test.requests w' = route53_test.requests w
  ∨ ∃ hostedZone changes,
      route53.HostedZone_ zone = Some hostedZone
      ∧ route53_test.requests w'
        = (route53_test.requests w
           ++ [ {| route53.HostedZoneId := route53.Id hostedZone;
                   route53.ChangeBatch_ := Some
                     {| route53.Comment := Some "Generated by Terraform";
                        route53.Changes := changes |} |} ])%list
      ∧ List.length changes = Z.to_nat recordsCount
      ∧ recordsCount <= 100
      ∧ Forall (fun change =>
                  ∃ name r,
                    route53.ZoneName hostedZone = Some name
                    ∧ change = randomChange tfroute53.FormatInt r name) changes.
Proof.
  unfold route53_test.testAccCreateRandomRecordsInZoneID.
  destruct (Z.ltb_spec 100 recordsCount) as [Hgt | Hle]; [now left |].
  destruct (route53_test.randomChanges _ zone [] _) as [[built|] z] eqn:Hrun;
    [| now left].
  destruct (route53.HostedZone_ zone) as [hostedZone|] eqn:Hzone; [| now left].
  apply randomChanges_returns in Hrun as (new & -> & Hlen & Hnew).
  assert (Hsent : ∀ res z',
            route53_test.requests
              (snd (res : outcome (option error),
                    route53_test.mkTestWorld (z' : W)
                      (route53_test.requests w
                       ++ [ {| route53.HostedZoneId := route53.Id hostedZone;
                               route53.ChangeBatch_ := Some
                                 {| route53.Comment := aws.String "Generated by Terraform";
                                    route53.Changes := ([] ++ new)%list |} |} ])%list))
            = route53_test.requests w
            ∨ ∃ hostedZone0 changes,
                Some hostedZone = Some hostedZone0
                ∧ route53_test.requests
                    (snd (res,
                          route53_test.mkTestWorld z'
                            (route53_test.requests w
                             ++ [ {| route53.HostedZoneId := route53.Id hostedZone;
                                     route53.ChangeBatch_ := Some
                                       {| route53.Comment := aws.String "Generated by Terraform";
                                          route53.Changes := ([] ++ new)%list |} |} ])%list))
                  = (route53_test.requests w
                     ++ [ {| route53.HostedZoneId := route53.Id hostedZone0;
                             route53.ChangeBatch_ := Some
                               {| route53.Comment := Some "Generated by Terraform";
                                  route53.Changes := changes |} |} ])%list
                ∧ List.length changes = Z.to_nat recordsCount
                ∧ recordsCount <= 100
                ∧ Forall (fun change =>
                            ∃ name r,
                              route53.ZoneName hostedZone0 = Some name
                              ∧ change = randomChange tfroute53.FormatInt r name) changes).
  { intros res z'. right. exists hostedZone, new. repeat split; try assumption.
    eapply Forall_impl; [exact Hnew |].
    intros change (hz & name & r & Hhz & Hname & ->).
    rewrite Hzone in Hhz. injection Hhz as <-. now exists name, r. }
  destruct (tfroute53.ChangeResourceRecordSets _ z) as [[info err] z1].
  destruct err as [e|]; [apply Hsent |].
  destruct info as [[[id|]]|]; try apply Hsent.
  destruct (tfroute53.WaitForRecordSetToSync _ z1) as [e z2]. apply Hsent.
Qed.

(** X14. One call of the helper sends at most one request, whatever count
    it is asked for and however the call ends, and a request it sends never
    carries more than 100 changes: requests of at most 100 changes stay so.
    For a count of zero or less the request it sends carries no change. *)
Theorem testAccCreateRandomRecordsInZoneID_limit
    (zone : route53.GetHostedZoneOutput) (recordsCount : Z) (w : route53_test.TestWorld W) :
  let w' := snd (route53_test.testAccCreateRandomRecordsInZoneID zone recordsCount w) in
  (∃ sent, route53_test.requests w' = (route53_test.requests w ++ sent)%list
           ∧ (List.length sent <= 1)%nat
           ∧ Forall (fun req => (List.length (changesOf req) <= 100)%nat
                                ∧ List.length (changesOf req) = Z.to_nat recordsCount) sent
           ∧ (recordsCount <= 0 → Forall (fun req => changesOf req = []) sent))
  ∧ (Forall (fun req => (List.length (changesOf req) <= 100)%nat) (route53_test.requests w) →
     Forall (fun req => (List.length (changesOf req) <= 100)%nat) (route53_test.requests w')).
Proof.
  intros w'.
  assert (Hsent : ∃ sent, route53_test.requests w' = (route53_test.requests w ++ sent)%list
            ∧ (List.length sent <= 1)%nat
            ∧ Forall (fun req => (List.length (changesOf req) <= 100)%nat
                                 ∧ List.length (changesOf req) = Z.to_nat recordsCount) sent
            ∧ (recordsCount <= 0 → Forall (fun req => changesOf req = []) sent)).
  { subst w'.
    destruct (testAccCreateRandomRecordsInZoneID_sends zone recordsCount w)
      as [Hsame | (hostedZone & changes & _ & Hreqs & Hlen & Hle & _)].
    - exists []. rewrite app_nil_r. repeat split; auto.
    - eexists [_]. split; [exact Hreqs |]. cbn. split; [lia |]. split.
      + constructor; [cbn; lia | constructor].
      + intros Hzero. constructor; [| constructor]. cbn.
        destruct changes; [reflexivity | cbn in Hlen; lia]. }
  split; [exact Hsent |].
  destruct Hsent as (sent & -> & _ & Hall & _). intros Hbefore.
  apply Forall_app. split; [exact Hbefore |].
  eapply Forall_impl; [exact Hall |]. now intros req [Hle _].
Qed.

(** X15. Every request the helper sends is for the zone it was given, with
    the comment "Generated by Terraform", and every change in it is the
    UPSERT of a CNAME record set with a TTL of 30 whose name is a number
    followed by "-tf-acc-random." and the zone name, and whose one record
    is "random." and the zone name. *)
Theorem testAccCreateRandomRecordsInZoneID_changes
    (zone : route53.GetHostedZoneOutput) (recordsCount : Z) (w : route53_test.TestWorld W)
    (req : route53.ChangeResourceRecordSetsInput) :
  route53_test.requests (snd (route53_test.testAccCreateRandomRecordsInZoneID zone recordsCount w))
  = (route53_test.requests w ++ [req])%list →
  ∃ hostedZone,
    route53.HostedZone_ zone = Some hostedZone
    ∧ route53.HostedZoneId req = route53.Id hostedZone
    ∧ (∃ batch, route53.ChangeBatch_ req = Some batch
                ∧ route53.Comment batch = Some "Generated by Terraform")
    ∧ Forall (fun change =>
                ∃ name r,
                  route53.ZoneName hostedZone = Some name
                  ∧ change = randomChange tfroute53.FormatInt r name) (changesOf req).
Proof.
  intros Hreq.
  destruct (testAccCreateRandomRecordsInZoneID_sends zone recordsCount w)
    as [Hsame | (hostedZone & changes & Hzone & Hreqs & _ & _ & Hall)]; cbv zeta in *.
  - rewrite Hsame in Hreq. apply (f_equal (@List.length _)) in Hreq.
    rewrite List.length_app in Hreq. cbn in Hreq. lia.
  - rewrite Hreqs in Hreq. apply app_inv_head in Hreq. injection Hreq as <-.
    exists hostedZone. split; [exact Hzone |]. split; [reflexivity |].
    split; [eexists; split; reflexivity | exact Hall].
Qed.

(** X16. Checks composed over the counts [counts], each at most 100, on a
    zone with a name: the run sends one request per count it reached, in
    order, each with exactly that many changes, and when it passes it has
    reached every count, so that it has sent as many changes as the counts
    add up to. *)
Theorem composeRandomRecords_sends
    (zone : route53.GetHostedZoneOutput) (hostedZone : route53.HostedZone) (name : string)
    (counts : list Z) :
  route53.HostedZone_ zone = Some hostedZone →
  route53.ZoneName hostedZone = Some name →
  Forall (fun recordsCount => recordsCount <= 100) counts →
  ∀ w : route53_test.TestWorld W,
    ∃ reached sent,
      route53_test.requests (snd (composeRandomRecords zone counts w))
      = (route53_test.requests w ++ sent)%list
      ∧ reached `prefix_of` counts
      ∧ map (fun req => List.length (changesOf req)) sent = map Z.to_nat reached
      ∧ (fst (composeRandomRecords zone counts w) = Returns None →
         reached = counts
         ∧ changesSent sent = list_sum (map Z.to_nat counts)).
Proof.
  intros Hzone Hname Hcounts.
  induction Hcounts as [|recordsCount counts Hle _ IH]; intros w.
  - exists [], []. cbn. rewrite app_nil_r. repeat split; auto.
  - cbn [composeRandomRecords].
    assert (Hone : ∃ res z req,
              route53_test.testAccCreateRandomRecordsInZoneID zone recordsCount w
              = (res, route53_test.mkTestWorld z (route53_test.requests w ++ [req]))
              ∧ List.length (changesOf req) = Z.to_nat recordsCount).
    { unfold route53_test.testAccCreateRandomRecordsInZoneID.
      destruct (Z.ltb_spec 100 recordsCount); [lia |].
      destruct (randomChanges_length (Z.to_nat recordsCount) zone hostedZone name []
                  (route53_test.zoneState w) Hzone Hname) as (cs & z & Hrun & Hlen).
      rewrite Hrun, Hzone.
      destruct (tfroute53.ChangeResourceRecordSets _ z) as [[info err] z1].
      destruct err as [e|]; [eexists _, _, _; split; [reflexivity | exact Hlen] |].
      destruct info as [[[id|]]|];
        try (eexists _, _, _; split; [reflexivity | exact Hlen]).
      destruct (tfroute53.WaitForRecordSetToSync _ z1) as [e z2].
      eexists _, _, _; split; [reflexivity | exact Hlen]. }
    destruct Hone as (res & z & req & Hrun & Hlen). rewrite Hrun.
    destruct res as [[e|]|].
    + exists [recordsCount], [req]. cbn. rewrite Hlen.
      repeat split; try discriminate. now exists counts.
    + destruct (IH (route53_test.mkTestWorld z (route53_test.requests w ++ [req])))
        as (reached & sent & Hreqs & Hprefix & Hlens & Hpass).
      exists (recordsCount :: reached), (req :: sent). cbn in Hreqs |- *.
      rewrite Hreqs, <- app_assoc. split; [reflexivity |].
      split; [now apply prefix_cons |]. split; [now rewrite Hlen, Hlens |].
      intros Hok. destruct (Hpass Hok) as [-> Hsum]. split; [reflexivity |].
      unfold changesSent, list_sum in *. cbn [map fold_right].
      now rewrite Hlen, Hsum.
    + exists [recordsCount], [req]. cbn. rewrite Hlen.
      repeat split; try discriminate. now exists counts.
Qed.

End ZoneMore.

(** ** The checks of the acceptance tests *)

Section ResourcesFacts.

Lemma lookupResource_In (s : terraform.Resources) (n : string) (rs : terraform.ResourceState) :
  terraform.lookupResource s n = Some rs → In (n, rs) s.
Proof.
  unfold terraform.lookupResource.
  destruct (List.find _ s) as [[name rs']|] eqn:Hfind; [| discriminate].
  intros [= <-]. apply List.find_some in Hfind as [Hin Hname].
  apply String.eqb_eq in Hname. cbn in Hname. now subst name.
Qed.

End ResourcesFacts.

Section ZoneChecks.
Context {W : Type} `{zone_checks.Lookups W}.

Lemma zoneGone_dec (w : W) (rs : terraform.ResourceState) :
  zoneGone w rs ∨ ¬ zoneGone w rs.
Proof.
  unfold zoneGone. destruct (terraform.Primary rs) as [primary|].
  - destruct (tfresource.NotFound
                (snd (fst (zone_checks.FindHostedZoneByID (terraform.ID primary) w)))) eqn:Hnf.
    + left. now exists primary.
    + right. intros (primary' & [= <-] & Hgone). congruence.
  - right. intros (primary & Hp & _). discriminate.
Qed.

Lemma zoneDestroyLoop_passes (s : terraform.Resources) (w : W) :
  readOnlyLookups (W := W) →
  zone_checks.zoneDestroyLoop s w = (Returns None, w)
  ∨ (fst (zone_checks.zoneDestroyLoop s w) ≠ Returns None
     ∧ ∃ name rs, In (name, rs) s ∧ terraform.Type_ rs = "aws_route53_zone" ∧ ¬ zoneGone w rs).
Proof.
  intros Hread. induction s as [|[name rs] rest IH]; [now left |].
  cbn [zone_checks.zoneDestroyLoop].
  destruct (String.eqb (terraform.Type_ rs) "aws_route53_zone") eqn:Htype; cbn [negb].
  - apply String.eqb_eq in Htype.
    destruct (terraform.Primary rs) as [primary|] eqn:Hprimary.
    + pose proof (Hread (terraform.ID primary) w) as Hsame.
      destruct (zone_checks.FindHostedZoneByID (terraform.ID primary) w)
        as [[output err] w1] eqn:Hfind.
      cbn in Hsame. subst w1.
      destruct (tfresource.NotFound err) eqn:Hnf.
      * destruct IH as [Hpass | (Hfail & name' & rs' & Hin & Hzone & Hthere)];
          [now left | right].
        split; [exact Hfail |]. exists name', rs'. split; [now right | now split].
      * right. split; [destruct err; discriminate |].
        exists name, rs. split; [now left |]. split; [exact Htype |].
        intros (primary' & Hp & Hgone). rewrite Hprimary in Hp. injection Hp as <-.
        rewrite Hfind in Hgone. cbn in Hgone. congruence.
    + right. split; [discriminate |]. exists name, rs.
      split; [now left |]. split; [exact Htype |].
      intros (primary' & Hp & _). congruence.
  - destruct IH as [Hpass | (Hfail & name' & rs' & Hin & Hzone & Hthere)];
      [now left | right].
    split; [exact Hfail |]. exists name', rs'. split; [now right | now split].
Qed.

Lemma zoneDestroyLoop_fails (s : terraform.Resources) (w : W)
    (name : string) (rs : terraform.ResourceState) :
  readOnlyLookups (W := W) →
  In (name, rs) s → terraform.Type_ rs = "aws_route53_zone" → ¬ zoneGone w rs →
  fst (zone_checks.zoneDestroyLoop s w) ≠ Returns None.
Proof.
  intros Hread. induction s as [|[name' rs'] rest IH]; [contradiction |].
  intros Hin Htype Hthere. cbn [zone_checks.zoneDestroyLoop].
  destruct (String.eqb (terraform.Type_ rs') "aws_route53_zone") eqn:Htype'; cbn [negb].
  - destruct (terraform.Primary rs') as [primary|] eqn:Hprimary; [| discriminate].
    pose proof (Hread (terraform.ID primary) w) as Hsame.
    destruct (zone_checks.FindHostedZoneByID (terraform.ID primary) w)
      as [[output err] w1] eqn:Hfind.
    cbn in Hsame. subst w1.
    destruct (tfresource.NotFound err) eqn:Hnf; [| destruct err; discriminate].
    destruct Hin as [[= -> ->] | Hin]; [| now apply IH].
    destruct Hthere. exists primary. split; [exact Hprimary |].
    rewrite Hfind. exact Hnf.
  - destruct Hin as [[= -> ->] | Hin]; [| now apply IH].
    apply String.eqb_neq in Htype'. contradiction.
Qed.

Lemma zoneDestroyLoop_all_gone (s : terraform.Resources) (w : W) :
  readOnlyLookups (W := W) →
  fst (zone_checks.zoneDestroyLoop s w) = Returns None
  ↔ ∀ name rs, In (name, rs) s → terraform.Type_ rs = "aws_route53_zone" → zoneGone w rs.
Proof.
  intros Hread. split.
  - intros Hpass name rs Hin Htype.
    destruct (zoneGone_dec w rs) as [Hgone | Hthere]; [exact Hgone |].
    now destruct (zoneDestroyLoop_fails s w name rs Hread Hin Htype Hthere).
  - intros Hall.
    destruct (zoneDestroyLoop_passes s w Hread)
      as [Hpass | (_ & name & rs & Hin & Htype & Hthere)].
    + now rewrite Hpass.
    + now destruct (Hthere (Hall name rs Hin Htype)).
Qed.

(** X17. With lookups that do not change the remote,
    [testAccCheckZoneDestroy] passes exactly when every resource of type
    [aws_route53_zone] in the state is reported "not found"; resources of
    other types do not count, and a zone that is still there, a lookup that
    fails otherwise, or a zone resource without a primary instance makes
    the check fail.  Whether it passes does not depend on the order in
    which the loop visits the resources. *)
Theorem testAccCheckZoneDestroy_passes (s : terraform.Resources) (w : W) :
  readOnlyLookups (W := W) →
  (fst (zone_checks.testAccCheckZoneDestroy s w) = Returns None
   ↔ ∀ name rs, In (name, rs) s → terraform.Type_ rs = "aws_route53_zone" → zoneGone w rs)
  ∧ (∀ s', s ≡ₚ s' →
       fst (zone_checks.testAccCheckZoneDestroy s w) = Returns None
       ↔ fst (zone_checks.testAccCheckZoneDestroy s' w) = Returns None).
Proof.
  intros Hread. unfold zone_checks.testAccCheckZoneDestroy.
  split; [now apply zoneDestroyLoop_all_gone |].
  intros s' Hperm. rewrite !zoneDestroyLoop_all_gone by exact Hread.
  split; intros Hall name rs Hin; apply (Hall name rs);
    [ now apply (Permutation_in _ (Permutation_sym Hperm))
    | now apply (Permutation_in _ Hperm) ].
Qed.

(** X18. [testAccCheckZoneExists] passes exactly when the state has the
    resource, its id is not empty and the lookup of that id gives a zone
    and no error; then, and only then, it stores the zone it found in
    [*v].  With lookups that do not change the remote, a state for which it
    passes on a resource of type [aws_route53_zone] is a state for which
    the destroy check fails. *)
Theorem testAccCheckZoneExists_passes
    (n : string) (v : route53.GetHostedZoneOutput) (s : terraform.Resources) (w : W) :
  let '(res, v', _) := zone_checks.testAccCheckZoneExists n v s w in
  (res = Returns None
   ↔ ∃ rs primary,
       terraform.lookupResource s n = Some rs
       ∧ terraform.Primary rs = Some primary
       ∧ terraform.ID primary ≠ ""
       ∧ fst (zone_checks.FindHostedZoneByID (terraform.ID primary) w) = (Some v', None))
  ∧ (res ≠ Returns None → v' = v)
  ∧ (readOnlyLookups (W := W) →
     res = Returns None →
     (∀ rs, terraform.lookupResource s n = Some rs → terraform.Type_ rs = "aws_route53_zone") →
     fst (zone_checks.testAccCheckZoneDestroy s w) ≠ Returns None).
Proof.
  unfold zone_checks.testAccCheckZoneExists, zone_checks.testAccCheckZoneDestroy.
  destruct (terraform.lookupResource s n) as [rs|] eqn:Hrs.
  2: { repeat split; try discriminate. intros (rs & primary & Hno & _). discriminate. }
  destruct (terraform.Primary rs) as [primary|] eqn:Hprimary.
  2: { repeat split; try discriminate. intros (rs' & primary & [= <-] & Hp & _). congruence. }
  destruct (String.eqb (terraform.ID primary) "") eqn:Hid.
  { apply String.eqb_eq in Hid. repeat split; try discriminate.
    intros (rs' & primary' & [= <-] & Hp & Hne & _).
    rewrite Hprimary in Hp. injection Hp as <-. contradiction. }
  apply String.eqb_neq in Hid.
  destruct (zone_checks.FindHostedZoneByID (terraform.ID primary) w)
    as [[output err] w1] eqn:Hfind.
  destruct err as [e|]; [| destruct output as [o|]].
  - repeat split; try discriminate.
    intros (rs' & primary' & [= <-] & Hp & _ & Hfound).
    rewrite Hprimary in Hp. injection Hp as <-. rewrite Hfind in Hfound. discriminate.
  - split; [| split].
    + split; [| reflexivity]. intros _. exists rs, primary.
      rewrite Hfind. repeat split; assumption.
    + intros Hfail. now destruct Hfail.
    + intros Hread _ Htype.
      apply (zoneDestroyLoop_fails s w n rs Hread).
      * now apply lookupResource_In.
      * now apply Htype.
      * intros (primary' & Hp & Hgone). rewrite Hprimary in Hp. injection Hp as <-.
        rewrite Hfind in Hgone. discriminate.
  - repeat split; try discriminate.
    intros (rs' & primary' & [= <-] & Hp & _ & Hfound).
    rewrite Hprimary in Hp. injection Hp as <-. rewrite Hfind in Hfound. discriminate.
Qed.

Lemma vpcLoop_In (vpcs : list zone_checks.VPC) (id : string) :
  id ≠ "" →
  zone_checks.vpcLoop vpcs id = true
  ↔ ∃ vpc, In vpc vpcs ∧ zone_checks.VPCId vpc = Some id.
Proof.
  intros Hid. induction vpcs as [|vpc rest IH]; cbn [zone_checks.vpcLoop].
  - split; [discriminate |]. now intros (vpc & [] & _).
  - destruct (String.eqb (aws.StringValue (zone_checks.VPCId vpc)) id) eqn:Hvpc.
    + apply String.eqb_eq in Hvpc. split; [| reflexivity]. intros _. exists vpc.
      split; [now left |].
      destruct (zone_checks.VPCId vpc) as [v|]; cbn in Hvpc; congruence.
    + apply String.eqb_neq in Hvpc. rewrite IH. split.
      * intros (vpc' & Hin & Hsame). exists vpc'. split; [now right | exact Hsame].
      * intros (vpc' & [<- | Hin] & Hsame); [| now exists vpc'].
        rewrite Hsame in Hvpc. now destruct Hvpc.
Qed.

(** X19. [testAccCheckZoneAssociatesVPC] passes exactly when the state has
    the resource, its id is not empty and some VPC of the zone has that id;
    a VPC without an id never matches.  It panics exactly when the resource
    has no primary instance, or no VPC matches and the zone output has no
    hosted zone to name in the error. *)
Theorem testAccCheckZoneAssociatesVPC_passes
    (n : string) (zone : zone_checks.ZoneWithVPCs) (s : terraform.Resources) :
  (zone_checks.testAccCheckZoneAssociatesVPC n zone s = Returns None
   ↔ ∃ rs primary vpc,
       terraform.lookupResource s n = Some rs
       ∧ terraform.Primary rs = Some primary
       ∧ terraform.ID primary ≠ ""
       ∧ In vpc (zone_checks.VPCs zone)
       ∧ zone_checks.VPCId vpc = Some (terraform.ID primary))
  ∧ (zone_checks.testAccCheckZoneAssociatesVPC n zone s = Panics
     ↔ ∃ rs,
         terraform.lookupResource s n = Some rs
         ∧ match terraform.Primary rs with
           | None => True
           | Some primary =>
               terraform.ID primary ≠ ""
               ∧ (∀ vpc, In vpc (zone_checks.VPCs zone) →
                         zone_checks.VPCId vpc ≠ Some (terraform.ID primary))
               ∧ route53.HostedZone_ (zone_checks.zoneOutput zone) = None
           end).
Proof.
  unfold zone_checks.testAccCheckZoneAssociatesVPC.
  destruct (terraform.lookupResource s n) as [rs|] eqn:Hrs.
  2: { split; (split; [discriminate |]).
       - intros (rs & primary & vpc & Hno & _). discriminate.
       - intros (rs & Hno & _). discriminate. }
  destruct (terraform.Primary rs) as [primary|] eqn:Hprimary.
  2: { split.
       - split; [discriminate |].
         intros (rs' & primary & vpc & [= <-] & Hp & _). congruence.
       - split; [| reflexivity]. intros _. exists rs. now rewrite Hprimary. }
  destruct (String.eqb (terraform.ID primary) "") eqn:Hid.
  { apply String.eqb_eq in Hid. split; (split; [discriminate |]).
    - intros (rs' & primary' & vpc & [= <-] & Hp & Hne & _).
      rewrite Hprimary in Hp. injection Hp as <-. contradiction.
    - intros (rs' & [= <-] & Hbad). rewrite Hprimary in Hbad. now destruct Hbad. }
  apply String.eqb_neq in Hid.
  pose proof (vpcLoop_In (zone_checks.VPCs zone) (terraform.ID primary) Hid) as Hloop.
  destruct (zone_checks.vpcLoop (zone_checks.VPCs zone) (terraform.ID primary)).
  - destruct (proj1 Hloop eq_refl) as (vpc & Hin & Hsame). split.
    + split; [| reflexivity]. intros _. now exists rs, primary, vpc.
    + split; [discriminate |]. intros (rs' & [= <-] & Hbad). rewrite Hprimary in Hbad.
      destruct Hbad as (_ & Hnone & _). now destruct (Hnone vpc Hin).
  - assert (Hnone : ∀ vpc, In vpc (zone_checks.VPCs zone) →
                           zone_checks.VPCId vpc ≠ Some (terraform.ID primary)).
    { intros vpc Hin Hsame. assert (Hex : false = true); [| discriminate].
      apply Hloop. now exists vpc. }
    destruct (route53.HostedZone_ (zone_checks.zoneOutput zone)) as [hostedZone|] eqn:Hzone.
    + split; (split; [discriminate |]).
      * intros (rs' & primary' & vpc & [= <-] & Hp & _ & Hin & Hsame).
        rewrite Hprimary in Hp. injection Hp as <-. now destruct (Hnone vpc Hin).
      * intros (rs' & [= <-] & Hbad). rewrite Hprimary in Hbad.
        destruct Hbad as (_ & _ & Hno). discriminate.
    + split.
      * split; [discriminate |].
        intros (rs' & primary' & vpc & [= <-] & Hp & _ & Hin & Hsame).
        rewrite Hprimary in Hp. injection Hp as <-. now destruct (Hnone vpc Hin).
      * split; [| reflexivity]. intros _. exists rs. rewrite Hprimary. now repeat split.
Qed.

End ZoneChecks.

Section RoutingControlChecks.
Context {W Output : Type} `{routing_control_checks.RecoveryControlConfig W Output}.

#[local] Abbreviation routingControl := "aws_route53recoverycontrolconfig_routing_control".

Lemma routingControlRefused_dec (w : W) (rs : terraform.ResourceState) :
  routingControlRefused w rs ∨ ¬ routingControlRefused w rs.
Proof.
  unfold routingControlRefused. destruct (terraform.Primary rs) as [primary|].
  - destruct (snd (fst (routing_control_checks.DescribeRoutingControl
                          (terraform.ID primary) w))) as [err|] eqn:Herr.
    + left. now exists primary, err.
    + right. intros (primary' & err & [= <-] & Hsome). congruence.
  - right. intros (primary & err & Hp & _). discriminate.
Qed.

Lemma routingControlDestroyLoop_passes (s : terraform.Resources) (w : W) :
  readOnlyDescribe (W := W) →
  routing_control_checks.routingControlDestroyLoop s w = (Returns None, w)
  ∨ (fst (routing_control_checks.routingControlDestroyLoop s w) ≠ Returns None
     ∧ ∃ name rs, In (name, rs) s ∧ terraform.Type_ rs = routingControl
                  ∧ ¬ routingControlRefused w rs).
Proof.
  intros Hread. induction s as [|[name rs] rest IH]; [now left |].
  cbn [routing_control_checks.routingControlDestroyLoop].
  destruct (String.eqb (terraform.Type_ rs) routingControl) eqn:Htype; cbn [negb].
  - apply String.eqb_eq in Htype.
    destruct (terraform.Primary rs) as [primary|] eqn:Hprimary.
    + pose proof (Hread (terraform.ID primary) w) as Hsame.
      destruct (routing_control_checks.DescribeRoutingControl (terraform.ID primary) w)
        as [[output err] w1] eqn:Hfind.
      cbn in Hsame. subst w1.
      destruct err as [e|].
      * destruct IH as [Hpass | (Hfail & name' & rs' & Hin & Hzone & Hthere)];
          [now left | right].
        split; [exact Hfail |]. exists name', rs'. split; [now right | now split].
      * right. split; [discriminate |].
        exists name, rs. split; [now left |]. split; [exact Htype |].
        intros (primary' & err & Hp & Hsome). rewrite Hprimary in Hp. injection Hp as <-.
        rewrite Hfind in Hsome. discriminate.
    + right. split; [discriminate |]. exists name, rs.
      split; [now left |]. split; [exact Htype |].
      intros (primary' & err & Hp & _). congruence.
  - destruct IH as [Hpass | (Hfail & name' & rs' & Hin & Hzone & Hthere)];
      [now left | right].
    split; [exact Hfail |]. exists name', rs'. split; [now right | now split].
Qed.

Lemma routingControlDestroyLoop_fails (s : terraform.Resources) (w : W)
    (name : string) (rs : terraform.ResourceState) :
  readOnlyDescribe (W := W) →
  In (name, rs) s → terraform.Type_ rs = routingControl → ¬ routingControlRefused w rs →
  fst (routing_control_checks.routingControlDestroyLoop s w) ≠ Returns None.
Proof.
  intros Hread. induction s as [|[name' rs'] rest IH]; [contradiction |].
  intros Hin Htype Hthere. cbn [routing_control_checks.routingControlDestroyLoop].
  destruct (String.eqb (terraform.Type_ rs') routingControl) eqn:Htype'; cbn [negb].
  - destruct (terraform.Primary rs') as [primary|] eqn:Hprimary; [| discriminate].
    pose proof (Hread (terraform.ID primary) w) as Hsame.
    destruct (routing_control_checks.DescribeRoutingControl (terraform.ID primary) w)
      as [[output err] w1] eqn:Hfind.
    cbn in Hsame. subst w1.
    destruct err as [e|]; [| discriminate].
    destruct Hin as [[= -> ->] | Hin]; [| now apply IH].
    destruct Hthere. exists primary, e. split; [exact Hprimary |].
    now rewrite Hfind.
  - destruct Hin as [[= -> ->] | Hin]; [| now apply IH].
    apply String.eqb_neq in Htype'. contradiction.
Qed.

(** The only error of the loop is its own: it never returns the error of
    a call. *)
Lemma routingControlDestroyLoop_error (s : terraform.Resources) :
  ∀ (w : W) (e : error),
    fst (routing_control_checks.routingControlDestroyLoop s w) = Returns (Some e) →
    ∃ name rs primary,
      In (name, rs) s
      ∧ terraform.Type_ rs = routingControl
      ∧ terraform.Primary rs = Some primary
      ∧ e = PlainError ("Route53RecoveryControlConfig Routing Control ("
                        ++ terraform.ID primary ++ ") not deleted").
Proof.
  induction s as [|[name rs] rest IH]; intros w e; [discriminate |].
  cbn [routing_control_checks.routingControlDestroyLoop].
  destruct (String.eqb (terraform.Type_ rs) routingControl) eqn:Htype; cbn [negb].
  - apply String.eqb_eq in Htype.
    destruct (terraform.Primary rs) as [primary|] eqn:Hprimary; [| discriminate].
    destruct (routing_control_checks.DescribeRoutingControl (terraform.ID primary) w)
      as [[output err] w1].
    destruct err as [e'|].
    + intros Hrun. destruct (IH w1 e Hrun) as (name' & rs' & primary' & Hin & Hrest).
      exists name', rs', primary'. split; [now right | exact Hrest].
    + intros [= <-]. exists name, rs, primary. split; [now left |]. now repeat split.
  - intros Hrun. destruct (IH w e Hrun) as (name' & rs' & primary' & Hin & Hrest).
    exists name', rs', primary'. split; [now right | exact Hrest].
Qed.

(** X20. The destroy check of the routing controls takes every error of
    [DescribeRoutingControl], whichever, for "deleted": with calls that do
    not change the remote, it passes exactly when the call fails for every
    resource of the type in the state.  The error of a call is never the
    error of the check: the only error it returns is "not deleted", for a
    resource of the type in the state. *)
Theorem routingControlDestroy_passes (s : terraform.Resources) (w : W) :
  (readOnlyDescribe (W := W) →
   fst (routing_control_checks.testAccCheckAwsRoute53RecoveryControlConfigRoutingControlDestroy
          s w) = Returns None
   ↔ ∀ name rs, In (name, rs) s → terraform.Type_ rs = routingControl →
                routingControlRefused w rs)
  ∧ (∀ e,
       fst (routing_control_checks.testAccCheckAwsRoute53RecoveryControlConfigRoutingControlDestroy
              s w) = Returns (Some e) →
       ∃ name rs primary,
         In (name, rs) s
         ∧ terraform.Type_ rs = routingControl
         ∧ terraform.Primary rs = Some primary
         ∧ e = PlainError ("Route53RecoveryControlConfig Routing Control ("
                           ++ terraform.ID primary ++ ") not deleted")).
Proof.
  unfold routing_control_checks.testAccCheckAwsRoute53RecoveryControlConfigRoutingControlDestroy.
  split; [| apply routingControlDestroyLoop_error].
  intros Hread. split.
  - intros Hpass name rs Hin Htype.
    destruct (routingControlRefused_dec w rs) as [Hgone | Hthere]; [exact Hgone |].
    now destruct (routingControlDestroyLoop_fails s w name rs Hread Hin Htype Hthere).
  - intros Hall.
    destruct (routingControlDestroyLoop_passes s w Hread)
      as [Hpass | (_ & name & rs & Hin & Htype & Hthere)].
    + now rewrite Hpass.
    + now destruct (Hthere (Hall name rs Hin Htype)).
Qed.

(** X21. The exists check of the routing controls makes one call, for the
    id of the resource, and returns its error as it is.  With calls that do
    not change the remote, a state for which it passes on a resource of the
    type is a state for which the destroy check fails. *)
Theorem routingControlExists_passes
    (name : string) (s : terraform.Resources) (w : W)
    (rs : terraform.ResourceState) (primary : terraform.InstanceState) :
  terraform.lookupResource s name = Some rs →
  terraform.Primary rs = Some primary →
  fst (routing_control_checks.testAccCheckAwsRoute53RecoveryControlConfigRoutingControlExists
         name s w)
  = Returns (snd (fst (routing_control_checks.DescribeRoutingControl (terraform.ID primary) w)))
  ∧ snd (routing_control_checks.testAccCheckAwsRoute53RecoveryControlConfigRoutingControlExists
           name s w)
    = snd (routing_control_checks.DescribeRoutingControl (terraform.ID primary) w)
  ∧ (readOnlyDescribe (W := W) →
     terraform.Type_ rs = routingControl →
     fst (routing_control_checks.testAccCheckAwsRoute53RecoveryControlConfigRoutingControlExists
            name s w) = Returns None →
     fst (routing_control_checks.testAccCheckAwsRoute53RecoveryControlConfigRoutingControlDestroy
            s w) ≠ Returns None).
Proof.
  intros Hrs Hprimary.
  unfold routing_control_checks.testAccCheckAwsRoute53RecoveryControlConfigRoutingControlExists,
    routing_control_checks.testAccCheckAwsRoute53RecoveryControlConfigRoutingControlDestroy.
  rewrite Hrs, Hprimary.
  destruct (routing_control_checks.DescribeRoutingControl (terraform.ID primary) w)
    as [[output err] w1] eqn:Hfind.
  cbn [fst snd]. split; [reflexivity |]. split; [reflexivity |].
  intros Hread Htype [= ->].
  apply (routingControlDestroyLoop_fails s w name rs Hread).
  - now apply lookupResource_In.
  - exact Htype.
  - intros (primary' & e & Hp & Hsome). rewrite Hprimary in Hp. injection Hp as <-.
    rewrite Hfind in Hsome. discriminate.
Qed.

End RoutingControlChecks.

(** ** Examples of the further properties *)

Section FurtherExamples.
Import Examples CheckExamples.

Lemma FindDomainName_classification_witness :
  fst (FindDomainName "api.example.com" gone)
  = Failed (NotFoundError (Some notFoundException) (Some "api.example.com") 0)
  ∧ fst (FindDomainName "api.example.com" created) = Found (exampleDomain "AVAILABLE").
Proof.
  split.
  - refine (proj1 (proj2 (proj2 (FindDomainName_classification "api.example.com" gone
                                   None (Some notFoundException) (remote gone) _))) _);
      reflexivity.
  - refine (proj2 (proj1 (proj2 (FindDomainName_classification "api.example.com" created
                                   (Some (exampleDomain "AVAILABLE")) None (remote created) _))
                     (exampleDomain "AVAILABLE")) _); [reflexivity | now split].
Defined.

Lemma resourceDomainNameRead_new_resource_witness :
  resourceDomainNameRead exampleMeta (exampleData true) gone
  = ((exampleData true,
      oneError "reading API Gateway Domain Name (api.example.com): couldn't find resource"),
     snd (FindDomainName "api.example.com" gone)).
Proof.
  refine (resourceDomainNameRead_new_resource exampleMeta (exampleData true) gone
            (snd (FindDomainName "api.example.com" gone))
            (NotFoundError (Some notFoundException) (Some "api.example.com") 0) _ _);
    reflexivity.
Defined.


Lemma resourceDomainNameCreate_calls_witness :
  calls (snd (resourceDomainNameCreate exampleMeta (exampleData true) created))
  = [ (0, apigateway.CallCreateDomainName (createDomainNameInput exampleMeta (exampleData true)));
      (0, apigateway.CallGetDomainName
            {| apigateway.GetDomainNameInput.DomainName := Some "api.example.com" |}) ].
Proof.
  refine (proj2 (resourceDomainNameCreate_calls exampleMeta (exampleData true) created
                   (Some (exampleDomain "AVAILABLE")) None (remote created) _));
    reflexivity.
Defined.

Lemma patchOperations_panics_witness :
  patchOperations typesEmptied = Panics.
Proof.
  apply (proj2 (patchOperations_panics typesEmptied)). left. split.
  - vm_compute. reflexivity.
  - eexists _, _. split; [reflexivity |].
    intros m t ts [= <-]. vm_compute. discriminate.
Defined.

Lemma resourceDomainNameUpdate_panics_witness :
  resourceDomainNameUpdate 85 exampleMeta typesEmptied created
  = (Some (typesEmptied, Panics), created).
Proof.
  apply (proj1 (resourceDomainNameUpdate_panics 85 exampleMeta typesEmptied created));
    vm_compute; reflexivity.
Defined.

Lemma patchOperations_paths_witness :
  patchOperations policyChanged
  = Returns [ replaceOperation "/endpointConfiguration/types/0" "REGIONAL";
              replaceOperation "/securityPolicy" "TLS_1_2" ]
  ∧ NoDup [ Some "/endpointConfiguration/types/0"; Some "/securityPolicy" ].
Proof.
  refine ((fun Hops => conj Hops (proj1 (proj2 (patchOperations_paths policyChanged _ Hops)))) _).
  vm_compute. reflexivity.
Defined.

Lemma waitDomainNameUpdated_outcomes_witness :
  waitOutcome (Some (exampleDomain "PENDING_OWNERSHIP_VERIFICATION"),
               Some (UnexpectedStateError (Some (PlainError ""))
                       "PENDING_OWNERSHIP_VERIFICATION" ["AVAILABLE"]))
  ∧ waitOutcome (None, Some (NotFoundError None None 21)).
Proof.
  split.
  - refine (waitDomainNameUpdated_outcomes 85 "api.example.com" pendingVerification
              (snd (waitDomainNameUpdated 85 "api.example.com" pendingVerification)) _ _).
    vm_compute. reflexivity.
  - refine (waitDomainNameUpdated_outcomes 85 "api.example.com" vanished
              (snd (waitDomainNameUpdated 85 "api.example.com" vanished)) _ _).
    vm_compute. reflexivity.
Defined.

Lemma resourceDomainNameUpdate_calls_witness :
  ∃ n tail,
    calls (snd (resourceDomainNameUpdate 85 exampleMeta policyChanged settling))
    = ((0, apigateway.CallUpdateDomainName
             {| apigateway.UpdateDomainNameInput.DomainName := Some "api.example.com";
                apigateway.UpdateDomainNameInput.PatchOperations :=
                  [ replaceOperation "/endpointConfiguration/types/0" "REGIONAL";
                    replaceOperation "/securityPolicy" "TLS_1_2" ] |})
       :: pollSchedule (1 * time.Minute) "api.example.com" n ++ tail)%list
    ∧ (n <= 84)%nat.
Proof.
  destruct (resourceDomainNameUpdate_calls 85 exampleMeta policyChanged settling
              [ replaceOperation "/endpointConfiguration/types/0" "REGIONAL";
                replaceOperation "/securityPolicy" "TLS_1_2" ])
    as (n & tail & Hcalls & Hn & _); [vm_compute; reflexivity | vm_compute; reflexivity |].
  exists n, tail. split; [exact Hcalls | exact Hn].
Defined.

Lemma testAccCreateRandomRecordsInZoneID_changes_witness :
  ∃ req hostedZone,
    route53_test.requests
      (snd (route53_test.testAccCreateRandomRecordsInZoneID exampleZone 2 zoneWorld))
    = (route53_test.requests zoneWorld ++ [req])%list
    ∧ route53.HostedZone_ exampleZone = Some hostedZone
    ∧ route53.HostedZoneId req = route53.Id hostedZone.
Proof.
  assert (Hsent : ∃ req,
            route53_test.requests
              (snd (route53_test.testAccCreateRandomRecordsInZoneID exampleZone 2 zoneWorld))
            = (route53_test.requests zoneWorld ++ [req])%list)
    by (eexists; reflexivity).
  destruct Hsent as [req Hreq].
  destruct (testAccCreateRandomRecordsInZoneID_changes exampleZone 2 zoneWorld req Hreq)
    as (hostedZone & Hzone & Hid & _).
  exists req, hostedZone. split; [exact Hreq |]. split; [exact Hzone | exact Hid].
Defined.

Lemma composeRandomRecords_sends_witness :
  ∃ reached sent,
    route53_test.requests (snd (composeRandomRecords exampleZone [2; 3] zoneWorld))
    = (route53_test.requests zoneWorld ++ sent)%list
    ∧ reached `prefix_of` [2; 3]
    ∧ map (fun req => List.length (changesOf req)) sent = map Z.to_nat reached
    ∧ (fst (composeRandomRecords exampleZone [2; 3] zoneWorld) = Returns None →
       reached = [2; 3]
       ∧ changesSent sent = list_sum (map Z.to_nat [2; 3])).
Proof.
  refine (composeRandomRecords_sends exampleZone _ "example.com." [2; 3] _ _ _ zoneWorld);
    [reflexivity | reflexivity | repeat constructor; lia].
Defined.

Lemma testAccCheckZoneDestroy_passes_witness :
  zoneGone (W := list string) [] zoneResource.
Proof.
  refine (proj1 (proj1 (testAccCheckZoneDestroy_passes exampleState [] _)) _
            "aws_route53_zone.test" zoneResource _ _).
  - intros id zones. cbn. now destruct (existsb _ zones).
  - reflexivity.
  - now left.
  - reflexivity.
Defined.

Lemma routingControlDestroy_passes_witness :
  routingControlRefused (W := list string) [] routingControlResource.
Proof.
  refine (proj1 (proj1 (routingControlDestroy_passes exampleState []) _) _
            "aws_route53recoverycontrolconfig_routing_control.test"
            routingControlResource _ _).
  - intros id controls. cbn. now destruct (existsb _ controls).
  - reflexivity.
  - right. now left.
  - reflexivity.
Defined.

Lemma routingControlExists_passes_witness :
  let known := ["arn:aws:route53-recovery-control::123456789012:controlpanel/abc/routingcontrol/def"] in
  fst (routing_control_checks.testAccCheckAwsRoute53RecoveryControlConfigRoutingControlExists
         "aws_route53recoverycontrolconfig_routing_control.test" exampleState known)
  = Returns None
  ∧ fst (routing_control_checks.testAccCheckAwsRoute53RecoveryControlConfigRoutingControlDestroy
           exampleState known) ≠ Returns None.
Proof.
  intros known.
  pose proof (routingControlExists_passes
                "aws_route53recoverycontrolconfig_routing_control.test" exampleState known
                routingControlResource _ eq_refl eq_refl) as (Hres & _ & Hdestroy).
  split; [exact Hres |]. apply Hdestroy.
  - intros id controls. cbn. now destruct (existsb _ controls).
  - reflexivity.
  - reflexivity.
Defined.

End FurtherExamples.
